(* ===== verification/_CoqProject ===== *)
-Q . S2P
Prelude.v
Errors.v
CodeGen.v
CodeStore.v
Repository.v
Service.v
Bot.v
Discord.v
Http.v
Opts.v
Client.v
Race.v
Plugin.v
System.v
CallRace.v
