(* ===== verification/Prelude.v ===== *)
(** * A verification of go-df-discord

    go-df-discord links a Minecraft (Dragonfly) player, identified by its
    XUID, to a Discord account through a six-character one-time code.  The
    player asks for a code (game plugin -> HTTP API -> [Service.IssueCode]
    -> [CodeStore.Issue]); the Discord user types [/bind <code>] (bot ->
    [Service.CheckCode], [Service.CreateUser], [Service.RevokeCode]);
    [/unbind] deletes the binding.  This development models [src/server],
    [src/utils], [src/client] and the examples' use of them as executable Rocq definitions (stdpp's
    [gmap] for Go maps, lists for the SQL table, [Z] and [N] for Go ints,
    [String.string] for Go strings, [Init.Byte.byte] for random bytes) and
    proves what the code does, including where it departs from the design
    notes.

    ** Files, in dependency order

    - [Prelude]: this overview; [res] for Go's [(value, error)] results and
      [outcome] for normal return or panic, the [go_scope] notation, the
      [go]/[go_rw] hint databases, the [go_case] tactic, and the list lemmas
      the components share (first match of a scan, [NoDup] through [map]).
    - [Errors] ([src/server/errors.go], [src/utils/errors.go]):
      [ApplicationError], the Go error values [goerror], [errors.As];
      module [Strconv] models [strconv.Itoa]/[strconv.Atoi] of Go's library
      (64-bit [int]); module [Utils] models [ErrorPanic] and
      [GetNumberFirstDigits] with the runtime panic of [s[:n]].  Theorems:
      [Atoi (Itoa n) = n] on 64-bit ints; the first three digits of a
      five-digit code are [code / 100]; codes under 100 make it panic.
    - [CodeGen] ([generateCode] of [src/server/codes.go]): the alphabet
      ["0123456789ABCDEFGHIKLMNOPQRSTVXYZ"], [crypto/rand] as a finite list
      of bytes (a read fails when it is exhausted), the byte-to-character
      map.  Theorems: every valid code can be drawn (a right inverse
      [bytes_of_code]); the alphabet has 33 characters and the draw is
      biased (25 characters have 8 byte preimages, 8 have 7).
    - [CodeStore] ([src/server/codes.go]): the Go interface [CodeStore] as a
      class, the default store in module [Default] (state: [gmap string
      CodeInformation]; [GetInformation], [GetForXuid], [findFreeCode],
      [Issue], [Revoke]); [Issue] reads an [IssueEnv] (the random bytes and
      the two [time.Now()] readings, in nanoseconds).  Go's map iteration
      order is a parameter of [GetForXuid_in].  [findFreeCode] loops until a
      free code is drawn; each round consumes six bytes, so [S (length src)]
      rounds are always enough ([findFreeCode_fuel_enough]).  Theorems:
      the invariant [store_wf] (keys are the codes, of the generated shape;
      one code per subject) holds on every reachable store; conflict,
      success, panic and revocation behaviour of [Issue]/[Revoke]; the
      equations of [findFreeCode]'s retry loop and the freshness of its
      result; in every iteration order the scan of [GetForXuid] finds the
      subject's entry or reports 40400; and [Issue] returns
      [s.codes[xuid]], which is nil for every real subject.  The class
      [CodeStoreLaws] states what the Service relies on, proved for the
      default store.
    - [Repository] ([src/server/repository.go]): module [Repo] models the
      gorm/SQLite table as a list of rows with [ID] and soft-delete flag
      ([UserData] embeds [gorm.Model]); [First] is the first live match
      (rows are in [ID] order, [db_wf]).  The contract of the design notes
      is the list of live bindings with [spec_get]/[spec_create]/
      [spec_delete]; [defaultRepository_refines] shows each operation
      refines it, [db_equiv] (same live bindings) is respected by every
      operation ([Proper] instances), uniqueness of both identities holds
      in every reachable table (induction on [reachable]); a second bind of
      either identity fails; bind then unbind is unobservable.  The class
      [RepositoryLaws] is proved for the default repository.
    - [Service] ([src/server/service.go]): [Service] over any [CodeStore]
      and [Repository]; handlers are functions on an abstract world [W];
      theorem: handlers run once each, in registration order, only when a
      binding is created.
    - [Bot] ([src/server/bot.go]): the [bind] and [unbind] command handlers
      and the interaction callback, generic in the interfaces; theorems
      from the interface laws: a successful bind binds and consumes the
      code, a failed creation leaves the code for a retry, a [bind] outside
      a guild with a valid code panics on the nil [i.Member]; and for the
      default implementations the end-to-end scenario of the design notes
      (issue, bind, refused re-issue naming the chat identity, unbind).
    - [Discord] ([NewBot], [RegisterCommands] of [src/server/bot.go]): the
      command list as sent, the registration loop (a panic with the first
      error of [ApplicationCommandCreate]), the handler table and the
      handler added to the session; what Discord answers is an explicit
      [DiscordEnv].  Theorems: the loop is the traversal [mapM_res] of the
      list; after a registration at a Discord that keeps the commands as
      sent, an interaction that fits a registered command and comes from a
      guild member is answered without a panic; a failed service call is
      answered with its [ApplicationError]'s message, any other error
      with a fixed text (no internal error leaks);
      a guild ID that is not empty nor a snowflake makes the registration
      panic.
    - [Http] ([src/server/server.go]): the gin engine of [GetHttpHandler]:
      the route table ([route], with gin's rule that a parameter matches
      one non-empty segment and its trailing-slash redirect), [Payload],
      [authMiddleware], [recoveryMiddleware] (a panic with an
      [ApplicationError] answered with [GetNumberFirstDigits code 3],
      anything else 500, and net/http dropping the connection when the
      deferred call itself panics) and the five handlers, over the generic
      [Service].  Theorems: a request without the token reaches no
      handler; over the default implementations every request gets one of
      seven statuses; the issue/check scenario answers 200 with null data,
      then 400, then the code; the user lookups refine the repository
      contract; over any sequence of requests the bindings never change
      and the store stays well-formed; error codes in [-9..99] drop the
      connection and codes of at most [-10] are answered 200.
    - [Opts] ([src/server/opts.go], [NewServer]): [FillEmptyOpts],
      [DefaultOpts], [NewServer] (with [NewBot]), with what start-up reads
      from disk and the Discord it talks to as an explicit [WiringEnv].
    - [Client] ([src/client/api.go]): each [Api] method as the request it
      builds and the handling of the answer, composed with [ServeHTTP]
      through [Api_call]; resty's [SetPathParams], [url.PathEscape],
      net/http's unescaping, [encoding/json] and [mapstructure] are
      modelled from their documentation.  Theorems: [NewApi] and every
      method fail against a server with a token (no [Authorization]
      header); every successful result is the zero value (the whole
      [Payload] is decoded); [GetUserByDiscord] always asks for the literal
      ["{discord}"]; [GetUserByXUID]'s path round-trips.
    - [Race] ([Issue], [CreateUser] under concurrency): a scheduler over
      threads sharing a state ([sched_step], executable [run_schedule]);
      [Issue] as three statements, [CreateUser] as two SQL statements.
      Theorems: two concurrent [Issue]s for
      one subject leave two codes, two [Issue]s drawing the same code lose
      one subject's code, two concurrent [CreateUser]s bind one game
      identity twice (each exhibited by a schedule and [vm_compute]); for
      pairwise distinct subjects every interleaving keeps [store_wf]
      (invariant by induction on the steps).
    - [Plugin] ([src/examples/dragonfly.go], [src/examples/server.go]): the
      plugin's start-up and [/bind] command over the client and the
      server, and the rest of its [main]: [readConfig] over an explicit
      file system (TOML's encoder and decoder are parameters).  Theorems:
      the two examples together make the plugin panic at start-up; against
      a server without a token the command makes the server store a code
      for the player and shows the player none; the first start writes the
      default configuration and a second start reads the same back.
    - [System] (the running program, [src/examples/server.go]): the server
      and its bot over one shared service; an event is an HTTP request or
      an interaction delivered to the bot's handlers, [run_events] plays a
      sequence of them and stops when an interaction panics (discordgo
      does not recover).  Theorems: over any sequence of events the table
      stays reachable with unique bindings and the code store well-formed;
      interactions that fit the registered commands never crash the
      program; the example [main] panics in [RegisterCommands] on its
      placeholder guild ID before serving.
    - [CallRace] ([IssueCode] and the bind handler under concurrency, with
      [Issue] and [CreateUser] atomic as the design notes require):
      goroutines interleaved one service call at a time over the scheduler
      of [Race].  Theorems: each thread alone computes its sequential
      function; every interleaving keeps the bindings unique and the store
      well-formed; a bind completing between [IssueCode]'s repository
      check and its [Issue] gets a bound subject a fresh code.

    ** Bounds and fuel

    [Strconv.digits] uses [S (size n)] rounds, enough since
    [n < 10 ^ size n]; [findFreeCode] uses [S (length src)] rounds, each
    consuming six bytes; [replace_all] uses [length s] rounds, each
    consuming at least one character.  Go [int]s are [Z] with the 64-bit
    range checked where [strconv.Atoi] checks it.

    ** Not modelled

    Discord's side of the session (the gateway connection, the command
    store, [InteractionRespond]: a [DiscordEnv] gives its answers, an
    interaction's answer is the handler's result),
    [ServeWeb]/[ListenAndServe] (a request is an event of [run_events]),
    logging, signal handling,
    the JSON text (a body is a JSON value), the SQLite engine's storage
    failures (a query either finds a row or reports [ErrRecordNotFound]),
    Go's runtime detection of concurrent map accesses, the Dragonfly server
    loop and the TOML format of its configuration file: I/O with no state of the program's
    own.  [run_events] plays events one after the other; the
    interleavings of concurrent handlers are those of [Race]. *)

From stdpp Require Export base gmap strings list fin_maps.
From Stdlib Require Export ZArith Lia.

(** Go functions return a pair [(value, error)].  A call either succeeds
    ([Ok v], the error is [nil]) or fails ([Err e], the value is the zero
    value/[nil], which no caller of this repository reads). *)
Inductive res (E A : Type) : Type :=
| Ok (a : A)
| Err (e : E).
Arguments Ok {E A} a.
Arguments Err {E A} e.

(** A Go call either returns normally or panics with a payload. *)
Inductive outcome (P A : Type) : Type :=
| Normal (a : A)
| Panicking (p : P).
Arguments Normal {P A} a.
Arguments Panicking {P A} p.

Definition res_bind {E A B} (r : res E A) (k : A -> res E B) : res E B :=
  match r with
  | Ok a => k a
  | Err e => Err e
  end.

Definition res_map {E A B} (f : A -> B) (r : res E A) : res E B :=
  match r with
  | Ok a => Ok (f a)
  | Err e => Err e
  end.

Definition is_ok {E A} (r : res E A) : bool :=
  match r with Ok _ => true | Err _ => false end.

Declare Scope go_scope.
Delimit Scope go_scope with go.
Notation "x <- r ;; k" := (res_bind r (fun x => k))
  (at level 100, r at next level, right associativity) : go_scope.

Create HintDb go.
Create Rewrite HintDb go_rw.

Lemma res_bind_Ok {E A B} (a : A) (k : A -> res E B) : res_bind (Ok a) k = k a.
Proof. reflexivity. Qed.

Lemma res_bind_Err {E A B} (e : E) (k : A -> res E B) : res_bind (Err e) k = Err e.
Proof. reflexivity. Qed.

#[export] Hint Rewrite @res_bind_Ok @res_bind_Err : go_rw.

(** [go_case] splits every [match]/[if] of the goal and cleans the equations,
    the shape of most proofs about straight-line handlers. *)
Ltac go_case :=
  repeat (case_match; simplify_eq/=); try done.

(** ** Go's string equality [==] as a boolean test *)

Lemma string_eqb_true (a b : string) : String.eqb a b = true <-> a = b.
Proof. apply String.eqb_eq. Qed.

Lemma string_eqb_false (a b : string) : String.eqb a b = false <-> a <> b.
Proof. apply String.eqb_neq. Qed.

Lemma string_eqb_refl' (a : string) : String.eqb a a = true.
Proof. by apply string_eqb_true. Qed.

#[export] Hint Rewrite string_eqb_refl' : go_rw.

(** ** First match of a linear scan

    [List.find] models a Go [for ... range] loop that returns the first
    element satisfying a test.  When at most one element satisfies the
    test, the result does not depend on the order of the scan; this is what
    makes a scan over a Go map (whose iteration order is unspecified)
    deterministic. *)

Definition unique_match {A} (p : A -> bool) (l : list A) : Prop :=
  forall x y, x ∈ l -> y ∈ l -> p x = true -> p y = true -> x = y.

Lemma find_some_elem {A} (p : A -> bool) (l : list A) x :
  List.find p l = Some x -> x ∈ l /\ p x = true.
Proof.
  intros Hf. apply find_some in Hf as [Hin Hp].
  split; [by apply list_elem_of_In|done].
Qed.

Lemma find_none_elem {A} (p : A -> bool) (l : list A) x :
  List.find p l = None -> x ∈ l -> p x = false.
Proof. intros Hf Hin. eapply find_none; [done|by apply list_elem_of_In]. Qed.

Lemma find_elem_unique {A} (p : A -> bool) (l : list A) x :
  unique_match p l -> x ∈ l -> p x = true -> List.find p l = Some x.
Proof.
  intros Hu Hin Hp. destruct (List.find p l) as [y|] eqn:Hf.
  - apply find_some_elem in Hf as [Hy Hpy]. f_equal. by apply Hu.
  - by rewrite (find_none_elem p l x Hf Hin) in Hp.
Qed.

Lemma find_perm_unique {A} (p : A -> bool) (l1 l2 : list A) :
  l1 ≡ₚ l2 -> unique_match p l1 -> List.find p l1 = List.find p l2.
Proof.
  intros Hperm Hu. destruct (List.find p l1) as [x|] eqn:Hf1.
  - apply find_some_elem in Hf1 as [Hin Hp]. symmetry.
    apply find_elem_unique; [|by rewrite <-Hperm|done].
    intros y z Hy Hz. rewrite <-Hperm in Hy, Hz. by apply Hu.
  - destruct (List.find p l2) as [y|] eqn:Hf2; [|done].
    apply find_some_elem in Hf2 as [Hin Hp].
    rewrite <-Hperm in Hin. by rewrite (find_none_elem p l1 y Hf1 Hin) in Hp.
Qed.

Lemma find_map_filter {A B} (f : A -> B) (q : A -> bool) (p : B -> bool) (l : list A) :
  List.find p (map f (List.filter q l)) = option_map f (List.find (fun a => q a && p (f a)) l).
Proof.
  induction l as [|a l IH]; simpl; [done|].
  destruct (q a); simpl; [destruct (p (f a)); simpl; auto|auto].
Qed.

Lemma existsb_find {A} (p : A -> bool) (l : list A) :
  existsb p l = match List.find p l with Some _ => true | None => false end.
Proof. induction l as [|a l IH]; simpl; [done|]. by destruct (p a). Qed.

Lemma NoDup_map_filter {A B} (f : A -> B) (p : A -> bool) (l : list A) :
  NoDup (map f l) -> NoDup (map f (List.filter p l)).
Proof.
  induction l as [|a l IH]; simpl; [done|]. intros Hnd.
  apply NoDup_cons in Hnd as [Hnin Hnd].
  destruct (p a); simpl; [|by apply IH]. constructor; [|by apply IH].
  intros Hin. apply Hnin. apply list_elem_of_In in Hin. apply list_elem_of_In.
  apply in_map_iff in Hin as (b & Hb & Hin). apply filter_In in Hin as [Hin _].
  apply in_map_iff. eauto.
Qed.

Lemma NoDup_map_eq {A B} (f : A -> B) (l : list A) x y :
  NoDup (map f l) -> x ∈ l -> y ∈ l -> f x = f y -> x = y.
Proof.
  induction l as [|a l IH]; intros Hnd Hx Hy Hf; [by apply elem_of_nil in Hx|].
  simpl in Hnd. apply NoDup_cons in Hnd as [Hnin Hnd].
  apply elem_of_cons in Hx as [->|Hx], Hy as [->|Hy]; try done.
  - destruct Hnin. rewrite Hf. by apply list_elem_of_fmap_2.
  - destruct Hnin. rewrite <-Hf. by apply list_elem_of_fmap_2.
  - by apply IH.
Qed.

Lemma existsb_false_forall {A} (p : A -> bool) (l : list A) x :
  existsb p l = false -> x ∈ l -> p x = false.
Proof.
  intros He Hx. destruct (p x) eqn:Hp; [|done].
  apply list_elem_of_In in Hx.
  assert (existsb p l = true) by (apply existsb_exists; eauto). congruence.
Qed.

Lemma find_none_intro {A} (p : A -> bool) (l : list A) :
  (forall x, x ∈ l -> p x = false) -> List.find p l = None.
Proof.
  intros Hl. destruct (List.find p l) as [x|] eqn:Hf; [|done].
  apply find_some_elem in Hf as [Hx Hp]. by rewrite Hl in Hp.
Qed.

Lemma elem_of_filter_bool {A} (p : A -> bool) (l : list A) x :
  x ∈ List.filter p l <-> x ∈ l /\ p x = true.
Proof. rewrite !list_elem_of_In. apply filter_In. Qed.

Lemma find_app {A} (p : A -> bool) (l1 l2 : list A) :
  List.find p (l1 ++ l2) = match List.find p l1 with Some x => Some x | None => List.find p l2 end.
Proof. induction l1 as [|a l1 IH]; simpl; [done|]. by destruct (p a). Qed.

Lemma existsb_false_iff' {A} (p : A -> bool) (l : list A) :
  existsb p l = false <-> (forall x, x ∈ l -> p x = false).
Proof.
  split; [intros He x; by apply existsb_false_forall|].
  intros Hl. destruct (existsb p l) eqn:He; [|done].
  apply existsb_exists in He as (x & Hx & Hp). rewrite Hl in Hp; [done|].
  by apply list_elem_of_In.
Qed.

(** ** Strings *)

Lemma string_app_nil_r (s : string) : (s ++ "")%string = s.
Proof.
  induction s as [|c s IH]; [done|].
  change (String c (s ++ "") = String c s)%string. by rewrite IH.
Qed.

Lemma string_app_assoc (s1 s2 s3 : string) : (s1 ++ (s2 ++ s3))%string = ((s1 ++ s2) ++ s3)%string.
Proof.
  induction s1 as [|c s1 IH]; [done|].
  change (String c (s1 ++ (s2 ++ s3)) = String c ((s1 ++ s2) ++ s3))%string. by rewrite IH.
Qed.

#[export] Hint Rewrite string_app_nil_r : go_rw.

Lemma string_app_inj_l (p a b : string) : (p ++ a)%string = (p ++ b)%string -> a = b.
Proof.
  induction p as [|c p IH]; [done|].
  change ((String c (p ++ a))%string = String c (p ++ b) -> a = b). intros [= H]. by apply IH.
Qed.
