(* ===== verification/Errors.v ===== *)
(** * Error model: [src/server/errors.go] and [src/utils/errors.go]

    [ApplicationError] is the only error meant for users; [goerror] collects
    the Go [error] values that reach the handlers.  [Strconv] models the two
    functions of Go's standard library that [utils.GetNumberFirstDigits]
    calls ([strconv.Itoa], [strconv.Atoi]) and [Utils] models that function
    and [utils.ErrorPanic]. *)

From S2P Require Import Prelude.
From Stdlib Require Import Ascii.

Open Scope string_scope.

(** [type ApplicationError struct { ErrorCode int; Message string }] *)
Record ApplicationError := mkApplicationError {
  ErrorCode : Z;
  Message : string
}.

(** [func NewApplicationError(errorCode int, message string) ApplicationError] *)
Definition NewApplicationError (errorCode : Z) (message : string) : ApplicationError :=
  {| ErrorCode := errorCode; Message := message |}.

(** [func (err ApplicationError) Error() string { return err.Message }] *)
Definition ApplicationError_Error (err : ApplicationError) : string := Message err.

(** The Go [error] values of the program: an [ApplicationError], gorm's
    [ErrRecordNotFound], the [*strconv.NumError]s of [Atoi], the runtime
    errors of an out-of-range slice and of a nil dereference, a failed [crypto/rand] read, and any
    other error (storage failures). *)
Inductive goerror : Type :=
| EApp (e : ApplicationError)
| ERecordNotFound
| ESyntax (fn input : string)
| ERange (fn input : string)
| ESliceBounds (hi len : Z)
| ENilDeref
| ERand
| EOther (msg : string).

(** [err.Error()]; only the [ApplicationError] text is ever shown to a user,
    the others are logged, so their wording is abbreviated. *)
Definition Error (e : goerror) : string :=
  match e with
  | EApp a => ApplicationError_Error a
  | ERecordNotFound => "record not found"
  | ESyntax fn s => "strconv." ++ fn ++ ": parsing " ++ s ++ ": invalid syntax"
  | ERange fn s => "strconv." ++ fn ++ ": parsing " ++ s ++ ": value out of range"
  | ESliceBounds _ _ => "runtime error: slice bounds out of range"
  | ENilDeref => "runtime error: invalid memory address or nil pointer dereference"
  | ERand => "crypto/rand: read failed"
  | EOther m => m
  end.

(** [errors.As(err, &ApplicationError{})]: the error chains of this program
    have length one, so [As] succeeds exactly on an [ApplicationError]. *)
Definition errors_As_ApplicationError (e : goerror) : option ApplicationError :=
  match e with EApp a => Some a | _ => None end.

Module Strconv.

(** Decimal digits of a natural number, most significant first. *)
Fixpoint ndigits (fuel : nat) (n : N) : list N :=
  match fuel with
  | O => []
  | S f => if (n <? 10)%N then [n] else ndigits f (n / 10)%N ++ [(n mod 10)%N]
  end.

(** [n < 2 ^ size n <= 10 ^ size n], so [S (size n)] rounds suffice. *)
Definition digits (n : N) : list N := ndigits (S (N.to_nat (N.size n))) n.

(** The number a list of digits denotes. *)
Definition digits_value (l : list N) : N := fold_left (fun acc d => acc * 10 + d)%N l 0%N.

Definition digit_char (d : N) : ascii := ascii_of_N (48 + d).

Definition string_of_digits (l : list N) : string :=
  String.string_of_list_ascii (map digit_char l).

(** [strconv.Itoa]: decimal, with a leading ['-'] for negatives. *)
Definition Itoa (n : Z) : string :=
  if (n <? 0)%Z then String "-" (string_of_digits (digits (Z.to_N (- n))))
  else string_of_digits (digits (Z.to_N n)).

(** [ch -= '0'; if ch > 9 { syntax error }] on a byte. *)
Definition char_digit (c : ascii) : option N :=
  let v := N_of_ascii c in
  if (48 <=? v)%N && (v <=? 57)%N then Some (v - 48)%N else None.

Fixpoint parse_digits (s : string) (acc : N) : option N :=
  match s with
  | EmptyString => Some acc
  | String c r =>
      match char_digit c with
      | Some d => parse_digits r (acc * 10 + d)%N
      | None => None
      end
  end.

Definition int64_min : Z := (- 2 ^ 63)%Z.
Definition int64_max : Z := (2 ^ 63 - 1)%Z.

(** [strconv.Atoi] on a 64-bit platform.  Go has a fast path for
    [0 < len(s) < 19] and calls [ParseInt(s, 10, 0)] otherwise; both
    accept an optional sign followed by at least one decimal digit, and
    only the slow path can overflow, which it reports as a range error.
    The single definition below computes both paths. *)
Definition Atoi (s : string) : res goerror Z :=
  let '(neg, body) :=
    match s with
    | String "-" r => (true, r)
    | String "+" r => (false, r)
    | _ => (false, s)
    end in
  match body with
  | EmptyString => Err (ESyntax "Atoi" s)
  | _ =>
      match parse_digits body 0 with
      | None => Err (ESyntax "Atoi" s)
      | Some v =>
          let z := if neg then (- Z.of_N v)%Z else Z.of_N v in
          if (int64_min <=? z)%Z && (z <=? int64_max)%Z then Ok z
          else Err (ERange "Atoi" s)
      end
  end.

End Strconv.

Module Utils.
Import Strconv.

(** [func ErrorPanic(err error) { if err != nil { panic(err) } }] *)
Definition ErrorPanic (err : option goerror) : outcome goerror unit :=
  match err with
  | Some e => Panicking e
  | None => Normal tt
  end.

(** The Go slice expression [s[:n]]: a runtime panic unless
    [0 <= n <= len(s)]. *)
Definition slice_prefix (s : string) (n : Z) : outcome goerror string :=
  if (0 <=? n)%Z && (n <=? Z.of_nat (String.length s))%Z
  then Normal (String.substring 0 (Z.to_nat n) s)
  else Panicking (ESliceBounds n (Z.of_nat (String.length s))).

(** [func GetNumberFirstDigits(number, digitsAmount int) int]:
    [strconv.Atoi(strconv.Itoa(number)[:digitsAmount])], panicking
    (through [ErrorPanic]) when [Atoi] fails. *)
Definition GetNumberFirstDigits (number digitsAmount : Z) : outcome goerror Z :=
  match slice_prefix (Itoa number) digitsAmount with
  | Panicking p => Panicking p
  | Normal pre =>
      match Atoi pre with
      | Ok v => Normal v
      | Err e => Panicking e
      end
  end.

End Utils.

(** ** Facts about the decimal printer and parser *)

Close Scope string_scope.
Import Strconv Utils.

Lemma ndigits_fuel f1 f2 n :
  (n < 10 ^ N.of_nat f1)%N -> (0 < f1)%nat -> (f1 <= f2)%nat ->
  ndigits f1 n = ndigits f2 n.
Proof.
  revert f2 n. induction f1 as [|f IH]; intros f2 n Hn Hpos Hle; [lia|].
  destruct f2 as [|g]; [lia|]. simpl.
  destruct (n <? 10)%N eqn:Hsmall; [done|].
  apply N.ltb_ge in Hsmall.
  rewrite Nat2N.inj_succ, N.pow_succ_r' in Hn.
  assert (Hf : (0 < f)%nat).
  { destruct f; [simpl in Hn; lia|lia]. }
  f_equal. apply IH; [|done|lia].
  apply N.Div0.div_lt_upper_bound. lia.
Qed.

Lemma size_pow10 n : (n < 10 ^ N.size n)%N.
Proof.
  eapply N.lt_le_trans; [apply N.size_gt|]. apply N.pow_le_mono_l. lia.
Qed.

Lemma digits_small n : (n < 10)%N -> digits n = [n].
Proof.
  intros H. unfold digits. simpl. by apply N.ltb_lt in H as ->.
Qed.

Lemma digits_step n :
  (10 <= n)%N -> digits n = digits (n / 10) ++ [(n mod 10)%N].
Proof.
  intros H. unfold digits at 1. simpl.
  destruct (n <? 10)%N eqn:Hb; [apply N.ltb_lt in Hb; lia|]. f_equal.
  set (k := N.to_nat (N.size n)). set (k' := S (N.to_nat (N.size (n / 10)))).
  assert (Hq1 : (n / 10 < 10 ^ N.of_nat k)%N).
  { unfold k. rewrite N2Nat.id. pose proof (size_pow10 n).
    pose proof (N.div_lt n 10). lia. }
  assert (Hq2 : (n / 10 < 10 ^ N.of_nat k')%N).
  { unfold k'. rewrite Nat2N.inj_succ, N2Nat.id, N.pow_succ_r'.
    pose proof (size_pow10 (n / 10)). lia. }
  assert (Hk : (0 < k)%nat).
  { destruct k eqn:Ek; [|lia]. simpl in Hq1.
    pose proof (N.div_str_pos n 10). lia. }
  unfold digits. fold k'.
  rewrite (ndigits_fuel k (Nat.max k k')); [|done|done|lia].
  symmetry. apply ndigits_fuel; [done|lia|lia].
Qed.

(** Induction following the recursion of the printer. *)
Lemma digits_ind (P : N -> Prop) :
  (forall n, (n < 10)%N -> P n) ->
  (forall n, (10 <= n)%N -> P (n / 10)%N -> P n) ->
  forall n, P n.
Proof.
  intros Hbase Hstep n. induction n as [n IH] using (well_founded_induction N.lt_wf_0).
  destruct (N.lt_ge_cases n 10) as [Hs|Hb]; [by apply Hbase|].
  apply Hstep; [done|]. apply IH. apply N.div_lt; lia.
Qed.

Lemma digits_lt10 n : Forall (fun d => d < 10)%N (digits n).
Proof.
  induction n as [n Hn|n Hn IH] using digits_ind.
  - rewrite digits_small by done. by constructor.
  - rewrite digits_step by done. apply Forall_app; split; [done|].
    constructor; [apply N.mod_lt; lia|constructor].
Qed.

Lemma digits_nonempty n : digits n <> [].
Proof.
  induction n as [n Hn|n Hn IH] using digits_ind.
  - by rewrite digits_small.
  - rewrite digits_step by done. by destruct (digits (n / 10)).
Qed.

Lemma digits_value_snoc l d : digits_value (l ++ [d]) = (digits_value l * 10 + d)%N.
Proof. unfold digits_value. by rewrite fold_left_app. Qed.

Lemma digits_value_digits n : digits_value (digits n) = n.
Proof.
  induction n as [n Hn|n Hn IH] using digits_ind.
  - by rewrite digits_small.
  - rewrite digits_step, digits_value_snoc, IH by done.
    pose proof (N.div_mod n 10). lia.
Qed.

(** Keeping the first [k] digits divides by [10] once per dropped digit. *)
Lemma digits_value_firstn n k :
  (k <= length (digits n))%nat ->
  digits_value (firstn k (digits n)) = (n / 10 ^ N.of_nat (length (digits n) - k))%N.
Proof.
  revert k. induction n as [n Hn|n Hn IH] using digits_ind; intros k Hk.
  - rewrite digits_small in * by done. simpl in Hk.
    destruct k as [|[|]]; unfold digits_value; simpl;
      [rewrite N.div_small; lia|rewrite N.div_1_r; lia|lia].
  - rewrite digits_step in * by done. rewrite length_app in *. simpl in Hk.
    destruct (decide (k = length (digits (n / 10)) + 1)%nat) as [->|Hne].
    + rewrite firstn_all2 by (rewrite length_app; simpl; lia).
      rewrite Nat.sub_diag, N.div_1_r, <-digits_step, digits_value_digits by done.
      done.
    + rewrite (take_app_le _ _ k) by lia. rewrite IH by lia.
      rewrite N.Div0.div_div, <-N.pow_succ_r'. simpl length. do 2 f_equal. lia.
Qed.

Lemma length_digits j n :
  (10 ^ N.of_nat j <= n < 10 ^ N.of_nat (S j))%N -> length (digits n) = S j.
Proof.
  revert n. induction j as [|j IH]; intros n Hn.
  - simpl in Hn. by rewrite digits_small by lia.
  - rewrite !Nat2N.inj_succ, !N.pow_succ_r' in Hn.
    rewrite digits_step by (pose proof (N.pow_nonzero 10 (N.of_nat j) ltac:(lia)); lia).
    rewrite length_app, (IH (n / 10)%N); [simpl; lia|]. split.
    + apply N.div_le_lower_bound; lia.
    + apply N.Div0.div_lt_upper_bound. rewrite Nat2N.inj_succ, N.pow_succ_r'. lia.
Qed.

Lemma length_string_of_digits l : String.length (string_of_digits l) = length l.
Proof. induction l; simpl; auto. Qed.

Lemma substring_string_of_digits k l :
  String.substring 0 k (string_of_digits l) = string_of_digits (take k l).
Proof.
  revert k; induction l as [|d l IH]; intros [|k]; try done.
  cbn [String.substring take]. unfold string_of_digits in *. simpl. by rewrite IH.
Qed.

Lemma char_digit_char d : (d < 10)%N -> char_digit (digit_char d) = Some d.
Proof.
  intros H. unfold char_digit, digit_char. rewrite N_ascii_embedding by lia.
  replace ((48 <=? 48 + d)%N && (48 + d <=? 57)%N) with true; [f_equal; lia|].
  symmetry. apply andb_true_intro; split; apply N.leb_le; lia.
Qed.

Lemma parse_string_of_digits l acc :
  Forall (fun d => d < 10)%N l ->
  parse_digits (string_of_digits l) acc = Some (fold_left (fun a d => a * 10 + d)%N l acc).
Proof.
  revert acc. induction l as [|d l IH]; intros acc Hl; [done|].
  inversion Hl; subst. simpl. rewrite char_digit_char by done. by apply IH.
Qed.

(** [Atoi] on a string that does not start with a sign character. *)
Lemma Atoi_unsigned c r :
  c <> "-"%char -> c <> "+"%char ->
  Atoi (String c r) =
    match parse_digits (String c r) 0 with
    | None => Err (ESyntax "Atoi" (String c r))
    | Some v =>
        if (int64_min <=? Z.of_N v)%Z && (Z.of_N v <=? int64_max)%Z then Ok (Z.of_N v)
        else Err (ERange "Atoi" (String c r))
    end.
Proof.
  intros Hm Hp.
  destruct c as [[] [] [] [] [] [] [] []]; first [reflexivity | by exfalso].
Qed.

Lemma digit_char_not_sign d : (d < 10)%N -> digit_char d <> "-"%char /\ digit_char d <> "+"%char.
Proof.
  intros H. unfold digit_char.
  split; intros Heq; apply (f_equal N_of_ascii) in Heq;
    rewrite N_ascii_embedding in Heq by lia; simpl in Heq; lia.
Qed.

Lemma Atoi_digits l :
  l <> [] -> Forall (fun d => d < 10)%N l -> (Z.of_N (digits_value l) <= int64_max)%Z ->
  Atoi (string_of_digits l) = Ok (Z.of_N (digits_value l)).
Proof.
  intros Hne Hl Hmax. destruct l as [|d l']; [done|].
  pose proof (digit_char_not_sign d) as [Hm Hp]; [by inversion Hl|].
  change (string_of_digits (d :: l')) with (String (digit_char d) (string_of_digits l')).
  rewrite Atoi_unsigned by done.
  change (String (digit_char d) (string_of_digits l')) with (string_of_digits (d :: l')).
  rewrite parse_string_of_digits by done. fold (digits_value (d :: l')).
  replace ((int64_min <=? Z.of_N (digits_value (d :: l')))%Z && _) with true; [done|].
  symmetry. apply andb_true_intro; split; apply Z.leb_le; [unfold int64_min|]; lia.
Qed.

Lemma Atoi_minus_digits l :
  l <> [] -> Forall (fun d => d < 10)%N l -> (- Z.of_N (digits_value l) >= int64_min)%Z ->
  Atoi (String "-" (string_of_digits l)) = Ok (- Z.of_N (digits_value l))%Z.
Proof.
  intros Hne Hl Hmin. destruct l as [|d l']; [done|].
  cbn [Atoi string_of_digits map String.string_of_list_ascii].
  fold (String.string_of_list_ascii (map digit_char l')).
  change (String (digit_char d) (String.string_of_list_ascii (map digit_char l')))
    with (string_of_digits (d :: l')).
  rewrite parse_string_of_digits by done. fold (digits_value (d :: l')).
  replace ((int64_min <=? - Z.of_N (digits_value (d :: l')))%Z && _) with true; [done|].
  symmetry. apply andb_true_intro; split; apply Z.leb_le; [|unfold int64_max]; lia.
Qed.

(** [strconv.Atoi] inverts [strconv.Itoa] on every 64-bit int. *)
Theorem Atoi_Itoa n :
  (int64_min <= n <= int64_max)%Z -> Atoi (Itoa n) = Ok n.
Proof.
  intros Hn. unfold Itoa. destruct (n <? 0)%Z eqn:Hneg.
  - apply Z.ltb_lt in Hneg.
    rewrite Atoi_minus_digits; [|apply digits_nonempty|apply digits_lt10|];
      rewrite digits_value_digits; [f_equal|]; lia.
  - apply Z.ltb_ge in Hneg.
    rewrite Atoi_digits; [|apply digits_nonempty|apply digits_lt10|];
      rewrite digits_value_digits; [f_equal|]; lia.
Qed.

(** The first [k] characters of [Itoa n] for [n >= 0]. *)
Lemma GetNumberFirstDigits_nonneg n k :
  (0 <= n <= int64_max)%Z -> (0 < k <= Z.of_nat (length (digits (Z.to_N n))))%Z ->
  GetNumberFirstDigits n k =
    Normal (n / 10 ^ (Z.of_nat (length (digits (Z.to_N n))) - k))%Z.
Proof.
  intros Hn Hk. unfold GetNumberFirstDigits, slice_prefix, Itoa.
  replace (n <? 0)%Z with false by (symmetry; apply Z.ltb_ge; lia).
  rewrite length_string_of_digits.
  replace ((0 <=? k)%Z && _) with true
    by (symmetry; apply andb_true_intro; split; apply Z.leb_le; lia).
  rewrite substring_string_of_digits, Atoi_digits.
  - f_equal. rewrite digits_value_firstn by lia.
    rewrite N2Z.inj_div, N2Z.inj_pow, Z2N.id by lia. do 2 f_equal. lia.
  - pose proof (digits_nonempty (Z.to_N n)).
    destruct (digits (Z.to_N n)); [done|]. destruct (Z.to_nat k) eqn:?; [lia|done].
  - apply Forall_take, digits_lt10.
  - rewrite digits_value_firstn by lia. rewrite N2Z.inj_div.
    pose proof (Z.div_le_upper_bound (Z.of_N (Z.to_N n)) (Z.of_N (10 ^ N.of_nat (length (digits (Z.to_N n)) - Z.to_nat k))) (Z.of_N (Z.to_N n))).
    rewrite Z2N.id in * by lia.
    assert (0 <= n / Z.of_N (10 ^ N.of_nat (length (digits (Z.to_N n)) - Z.to_nat k)) <= n)%Z
      by (split; [apply Z.div_pos|apply Z.div_le_upper_bound]; try lia;
          pose proof (N.pow_nonzero 10 (N.of_nat (length (digits (Z.to_N n)) - Z.to_nat k))); nia).
    lia.
Qed.

(** On the five-digit error codes of the program, the first three
    digits are the code divided by [100] ([40400 -> 404]). *)
Lemma GetNumberFirstDigits_five code :
  (10000 <= code <= 99999)%Z -> GetNumberFirstDigits code 3 = Normal (code / 100)%Z.
Proof.
  intros H. pose proof (GetNumberFirstDigits_nonneg code 3) as G.
  rewrite (length_digits 4 (Z.to_N code)) in G by (simpl; lia).
  rewrite G by (unfold int64_max; lia). reflexivity.
Qed.

(** An error code with fewer than three digits makes the slice panic. *)
Lemma GetNumberFirstDigits_short code :
  (0 <= code < 100)%Z ->
  exists len, (len < 3)%Z /\ GetNumberFirstDigits code 3 = Panicking (ESliceBounds 3 len).
Proof.
  intros H. unfold GetNumberFirstDigits, slice_prefix, Itoa.
  replace (code <? 0)%Z with false by (symmetry; apply Z.ltb_ge; lia).
  rewrite length_string_of_digits.
  assert (Hl : (length (digits (Z.to_N code)) <= 2)%nat).
  { destruct (decide (code < 10)%Z).
    - rewrite digits_small by lia. simpl. lia.
    - rewrite (length_digits 1) by (simpl; lia). lia. }
  replace ((0 <=? 3)%Z && _) with false
    by (symmetry; apply andb_false_intro2, Z.leb_gt; lia).
  eexists; split; [|reflexivity]. lia.
Qed.

Lemma Atoi_minus_nonpos r z : Atoi (String "-" r) = Ok z -> (z <= 0)%Z.
Proof.
  unfold Atoi. destruct r as [|c r]; [done|].
  destruct (parse_digits _ 0) as [v|]; [|done].
  destruct (_ && _); intros; simplify_eq; lia.
Qed.

(** A negative code yields a first-digits value of at most [0], or panics. *)
Lemma GetNumberFirstDigits_neg code :
  (code < 0)%Z ->
  match GetNumberFirstDigits code 3 with Normal v => (v <= 0)%Z | Panicking _ => True end.
Proof.
  intros H. unfold GetNumberFirstDigits, slice_prefix, Itoa.
  replace (code <? 0)%Z with true by (symmetry; apply Z.ltb_lt; lia).
  destruct (_ && _); [|done]. change (Z.to_nat 3) with 3%nat. cbn [String.substring].
  destruct (Atoi _) eqn:Ha; [|done]. by eapply Atoi_minus_nonpos.
Qed.

(** A code in [-9..-1] prints as two characters: the slice panics. *)
Lemma GetNumberFirstDigits_neg_short code :
  (-10 < code < 0)%Z ->
  exists len, GetNumberFirstDigits code 3 = Panicking (ESliceBounds 3 len).
Proof.
  intros H. unfold GetNumberFirstDigits, slice_prefix, Itoa.
  replace (code <? 0)%Z with true by (symmetry; apply Z.ltb_lt; lia).
  rewrite digits_small by lia. cbn [String.length string_of_digits map String.string_of_list_ascii].
  replace ((0 <=? 3)%Z && _) with false by (symmetry; apply andb_false_intro2, Z.leb_gt; simpl; lia).
  eauto.
Qed.

(** A code of at most [-10] prints as a sign and at least two digits:
    its first three characters parse to a value of at most [0]. *)
Lemma GetNumberFirstDigits_neg_long code :
  (int64_min <= code <= -10)%Z ->
  exists v, (v <= 0)%Z /\ GetNumberFirstDigits code 3 = Normal v.
Proof.
  intros H. unfold GetNumberFirstDigits, slice_prefix, Itoa.
  replace (code <? 0)%Z with true by (symmetry; apply Z.ltb_lt; lia).
  assert (Hlen : (2 <= length (digits (Z.to_N (- code))))%nat).
  { rewrite digits_step by lia. rewrite length_app.
    pose proof (digits_nonempty (Z.to_N (- code) / 10)).
    destruct (digits (Z.to_N (- code) / 10)); simpl; [done|lia]. }
  cbn [String.length]. rewrite length_string_of_digits.
  replace ((0 <=? 3)%Z && _) with true
    by (symmetry; apply andb_true_intro; split; apply Z.leb_le; lia).
  change (Z.to_nat 3) with 3%nat. cbn [String.substring]. rewrite substring_string_of_digits.
  assert (Hv : (digits_value (take 2 (digits (Z.to_N (- code)))) <= Z.to_N (- code))%N).
  { rewrite digits_value_firstn by lia. apply N.Div0.div_le_upper_bound.
    pose proof (N.pow_nonzero 10 (N.of_nat (length (digits (Z.to_N (- code))) - 2))). nia. }
  rewrite Atoi_minus_digits.
  - eexists; split; [|reflexivity]. lia.
  - destruct (digits (Z.to_N (- code))) as [|d [|d' l]]; simpl in *; [lia|lia|done].
  - apply Forall_take, digits_lt10.
  - unfold int64_min in *. lia.
Qed.

(** ** Witnesses at concrete inputs *)

Lemma Atoi_Itoa_witness :
  (int64_min <= -40400 <= int64_max)%Z /\ Atoi (Itoa (-40400)) = Ok (-40400)%Z.
Proof.
  assert (H : (int64_min <= -40400 <= int64_max)%Z) by (unfold int64_min, int64_max; lia).
  split; [exact H|apply (Atoi_Itoa (-40400)); exact H].
Defined.

