(* ===== verification/CodeGen.v ===== *)
(** * One-time code generation: [generateCode] of [src/server/codes.go]

    [crypto/rand] is modelled as the finite list of bytes it will deliver:
    [rand.Read(buffer)] fills the buffer from the front of the list, or
    fails once the list is exhausted (the only way the model lets a read
    fail).  A code is the string of alphabet characters indexed by the
    bytes modulo the alphabet size. *)

From S2P Require Import Prelude Errors.
From Stdlib Require Import Ascii.

Open Scope string_scope.

(** [randomChars := "0123456789ABCDEFGHIKLMNOPQRSTVXYZ"] *)
Definition randomChars : string := "0123456789ABCDEFGHIKLMNOPQRSTVXYZ".

(** [rand.Read(buffer)] with [len(buffer) = n] on the source [src]: the
    bytes read and the rest of the source. *)
Definition rand_Read (n : nat) (src : list Byte.byte) : res goerror (list Byte.byte * list Byte.byte) :=
  if decide (n <= length src)%nat then Ok (take n src, drop n src) else Err ERand.

(** [randomChars[int(b) % otpCharsLength]]; the index is always in range
    (see [code_char_in_alphabet]), so the default character is never used. *)
Definition code_char (b : Byte.byte) : ascii :=
  match String.get (N.to_nat (Byte.to_N b) mod String.length randomChars) randomChars with
  | Some c => c
  | None => "0"%char
  end.

(** [func generateCode(length int) (string, error)] *)
Definition generateCode (len : nat) (src : list Byte.byte) : res goerror (string * list Byte.byte) :=
  match rand_Read len src with
  | Err e => Err e
  | Ok (buffer, rest) => Ok (String.string_of_list_ascii (map code_char buffer), rest)
  end.

(** The shape of every generated code: six characters of the alphabet. *)
Definition in_alphabet (c : ascii) : bool :=
  existsb (fun a => Ascii.eqb a c) (String.list_ascii_of_string randomChars).

Definition valid_code (s : string) : bool :=
  (String.length s =? 6)%nat && forallb in_alphabet (String.list_ascii_of_string s).

(** The byte whose residue indexes [c] in the alphabet: the inverse of
    [code_char], used to show that every valid code can be drawn. *)
Fixpoint index_of (c : ascii) (l : list ascii) : nat :=
  match l with
  | [] => 0
  | a :: l' => if Ascii.eqb a c then 0 else S (index_of c l')
  end.

Definition byte_of_char (c : ascii) : Byte.byte :=
  match Byte.of_N (N.of_nat (index_of c (String.list_ascii_of_string randomChars))) with
  | Some b => b
  | None => Byte.x00
  end.

Definition bytes_of_code (s : string) : list Byte.byte :=
  map byte_of_char (String.list_ascii_of_string s).

(** All 256 byte values, for counting how often each character is drawn. *)
Definition all_bytes : list Byte.byte :=
  omap (fun n => Byte.of_N (N.of_nat n)) (seq 0 256).

Definition preimages (c : ascii) : nat :=
  length (filter (fun b => Ascii.eqb (code_char b) c) all_bytes).

Close Scope string_scope.

(** ** Facts *)

Lemma code_char_in_alphabet b : in_alphabet (code_char b) = true.
Proof. destruct b; reflexivity. Qed.

Lemma in_alphabet_spec c :
  in_alphabet c = true <-> c ∈ String.list_ascii_of_string randomChars.
Proof.
  unfold in_alphabet. rewrite existsb_exists, list_elem_of_In. split.
  - intros (a & Ha & Heq). apply Ascii.eqb_eq in Heq. by subst.
  - intros Hin. exists c. split; [done|apply Ascii.eqb_refl].
Qed.

Lemma code_char_byte_of_char c :
  in_alphabet c = true -> code_char (byte_of_char c) = c.
Proof.
  intros Hc. apply in_alphabet_spec in Hc. revert c Hc.
  apply Forall_forall. vm_compute. repeat constructor.
Qed.

Lemma rand_Read_ok n src buffer rest :
  rand_Read n src = Ok (buffer, rest) -> src = buffer ++ rest /\ length buffer = n.
Proof.
  unfold rand_Read. case_decide; intros; simplify_eq.
  split; [by rewrite take_drop|]. rewrite length_take. lia.
Qed.

Lemma string_of_list_ascii_length l :
  String.length (String.string_of_list_ascii l) = length l.
Proof. induction l; simpl; auto. Qed.

Lemma list_ascii_of_string_of_list l :
  String.list_ascii_of_string (String.string_of_list_ascii l) = l.
Proof. apply String.list_ascii_of_string_of_list_ascii. Qed.

(** Every code that [generateCode 6] returns has six
    characters, each drawn from [randomChars], and consumes six bytes. *)
Lemma generateCode_valid src code rest :
  generateCode 6 src = Ok (code, rest) ->
  valid_code code = true /\ exists buffer, src = buffer ++ rest /\ length buffer = 6%nat.
Proof.
  unfold generateCode. destruct (rand_Read 6 src) as [[buffer rest']|] eqn:Hr; [|done].
  intros [= <- <-]. apply rand_Read_ok in Hr as [-> Hlen]. split; [|eauto].
  unfold valid_code. rewrite string_of_list_ascii_length, length_map, Hlen.
  rewrite list_ascii_of_string_of_list. simpl. apply forallb_forall.
  intros c Hc. apply in_map_iff in Hc as (b & <- & _). apply code_char_in_alphabet.
Qed.

(** C37: every valid code is drawn from some six random bytes:
    [generateCode 6] is onto the codes of the alphabet, [bytes_of_code]
    being a right inverse. *)
Theorem generateCode_bytes_of_code code rest :
  valid_code code = true -> generateCode 6 (bytes_of_code code ++ rest) = Ok (code, rest).
Proof.
  unfold valid_code. intros [Hlen Hall]%andb_true_iff. apply Nat.eqb_eq in Hlen.
  rewrite forallb_forall in Hall.
  assert (Hb : length (bytes_of_code code) = 6%nat).
  { unfold bytes_of_code. rewrite length_map, <-Hlen. clear.
    induction code; simpl; auto. }
  unfold generateCode, rand_Read. rewrite decide_True by (rewrite length_app; lia).
  rewrite <-Hb, take_app_length, drop_app_length. do 3 f_equal.
  unfold bytes_of_code. rewrite map_map.
  rewrite (map_ext_in _ id), map_id; [apply String.string_of_list_ascii_of_string|].
  intros c Hc. apply code_char_byte_of_char, Hall, Hc.
Qed.

(** C38: the alphabet has 33 characters, not the 34 of the design notes,
    and since 256 = 7 * 33 + 25 the draw is biased: each of the first 25
    characters is the image of 8 byte values, each of the last 8 of only 7. *)
Theorem code_char_distribution :
  map preimages (String.list_ascii_of_string randomChars) = repeat 8%nat 25 ++ repeat 7%nat 8.
Proof. vm_compute. reflexivity. Qed.

(** ** Witnesses at concrete inputs *)

Lemma generateCode_bytes_of_code_witness :
  valid_code "0A9ZXY"%string = true /\
  generateCode 6 (bytes_of_code "0A9ZXY"%string ++ []) = Ok ("0A9ZXY"%string, []).
Proof. split; [reflexivity|apply generateCode_bytes_of_code; reflexivity]. Defined.
