(* ===== verification/CodeStore.v ===== *)
(** * Code Store: [src/server/codes.go]

    The Go interface [CodeStore] is the class [CodeStore]; its only
    implementation, [defaultCodeStore] (a Go map from code to
    [*CodeInformation]), is the module [Default], whose state is a [gmap].
    The pointers stored in the map are never written through, so values
    stand for them; [Issue]'s pointer result is an [option] ([None] = nil).
    [Issue] reads [crypto/rand] and the clock: both are the explicit
    environment [IssueEnv]. *)

From S2P Require Import Prelude Errors CodeGen.

Open Scope string_scope.

(** [type CodeInformation struct { Code, XUID string; Issued, Expires time.Time }];
    times are nanoseconds on the process clock. *)
Record CodeInformation := mkCodeInformation {
  Code : string;
  XUID : string;
  Issued : Z;
  Expires : Z
}.

#[export] Instance CodeInformation_eq_dec : EqDecision CodeInformation.
Proof. solve_decision. Defined.

(** What one call of [Issue] reads from the outside world: the bytes
    [crypto/rand] will deliver, and the two [time.Now()] readings. *)
Record IssueEnv := mkIssueEnv {
  env_rand : list Byte.byte;
  env_now_issued : Z;
  env_now_expires : Z
}.

(** [type CodeStore interface { GetInformation; GetForXuid; Issue; Revoke }] *)
Class CodeStore (S Env : Type) := {
  cs_GetInformation : S -> string -> res goerror CodeInformation;
  cs_GetForXuid : S -> string -> res goerror CodeInformation;
  cs_Issue : S -> Env -> string -> outcome goerror (res goerror (option CodeInformation)) * S;
  cs_Revoke : S -> string -> res goerror unit * S
}.

(** [15 * time.Minute] in nanoseconds. *)
Definition fifteen_minutes : Z := 15 * 60 * 1000000000.

Module Default.

(** [type defaultCodeStore struct { codes map[string]*CodeInformation }] *)
Record defaultCodeStore := mkStore { codes : gmap string CodeInformation }.

(** [newDefaultCodeStore()] *)
Definition newDefaultCodeStore : defaultCodeStore := mkStore ∅.

Definition errCodeMissing : goerror :=
  EApp (NewApplicationError 40400 "Code doesn't exist").

(** [func (s *defaultCodeStore) GetInformation(code string)] *)
Definition GetInformation (s : defaultCodeStore) (code : string) : res goerror CodeInformation :=
  match codes s !! code with
  | None => Err errCodeMissing
  | Some info => Ok info
  end.

(** [func (s *defaultCodeStore) GetForXuid(xuid string)]: a [range] loop
    over the map, returning the first entry of the subject.  Go leaves the
    iteration order unspecified: [GetForXuid_in] scans the entries in a
    given order, and [GetForXuid] uses the order of [map_to_list];
    [GetForXuid_in_spec] shows the choice does not matter. *)
Definition xuid_is (xuid : string) (e : string * CodeInformation) : bool :=
  String.eqb (XUID e.2) xuid.

Definition GetForXuid_in (entries : list (string * CodeInformation)) (xuid : string)
    : res goerror CodeInformation :=
  match List.find (xuid_is xuid) entries with
  | Some (_, info) => Ok info
  | None => Err (EApp (NewApplicationError 40400 "There is no code for this XUID"))
  end.

Definition GetForXuid (s : defaultCodeStore) (xuid : string) : res goerror CodeInformation :=
  GetForXuid_in (map_to_list (codes s)) xuid.

(** [func (s *defaultCodeStore) findFreeCode() string]: draw six random
    bytes until the code is not in the map; a failed read panics.  Each
    round consumes six bytes of the finite source, so [S (length src)]
    rounds always suffice ([findFreeCode_fuel_enough]) and [None] (out of
    fuel) is never the result; [findFreeCode_spec] gives the loop's
    equations. *)
Fixpoint findFreeCode_fuel (fuel : nat) (s : defaultCodeStore) (src : list Byte.byte)
    : option (outcome goerror (string * list Byte.byte)) :=
  match fuel with
  | O => None
  | S f =>
      match generateCode 6 src with
      | Err e => Some (Panicking e)
      | Ok (generated, rest) =>
          match GetInformation s generated with
          | Err _ => Some (Normal (generated, rest))
          | Ok _ => findFreeCode_fuel f s rest
          end
      end
  end.

Definition findFreeCode (s : defaultCodeStore) (src : list Byte.byte)
    : outcome goerror (string * list Byte.byte) :=
  match findFreeCode_fuel (S (length src)) s src with
  | Some r => r
  | None => Panicking ERand
  end.

(** [func (s *defaultCodeStore) Issue(xuid string)], returning a [*CodeInformation] and an error.
    The last line of the Go function is [return s.codes[xuid], nil]: it
    looks the map up by the subject, not by the generated code. *)
(** The record [&CodeInformation{Code: generatedCode, XUID: xuid, Issued:
    time.Now(), Expires: time.Now().Add(15 * time.Minute)}]. *)
Definition issued_info (env : IssueEnv) (generatedCode xuid : string) : CodeInformation :=
  {| Code := generatedCode;
     XUID := xuid;
     Issued := env_now_issued env;
     Expires := env_now_expires env + fifteen_minutes |}.

Definition Issue (s : defaultCodeStore) (env : IssueEnv) (xuid : string)
    : outcome goerror (res goerror (option CodeInformation)) * defaultCodeStore :=
  match GetForXuid s xuid with
  | Ok existing =>
      (Normal (Err (EApp (NewApplicationError 40000
                ("Code " ++ Code existing ++ " is already issued")))), s)
  | Err _ =>
      match findFreeCode s (env_rand env) with
      | Panicking p => (Panicking p, s)
      | Normal (generatedCode, _) =>
          let s' := mkStore (<[generatedCode := issued_info env generatedCode xuid]> (codes s)) in
          (Normal (Ok (codes s' !! xuid)), s')
      end
  end.

(** [func (s *defaultCodeStore) Revoke(code string) error] *)
Definition Revoke (s : defaultCodeStore) (code : string) : res goerror unit * defaultCodeStore :=
  match GetInformation s code with
  | Err _ => (Err errCodeMissing, s)
  | Ok _ => (Ok tt, mkStore (delete code (codes s)))
  end.

(** The invariant of the store: every entry is keyed by its own code,
    every code has the shape [generateCode] gives it, and no subject has
    two codes. *)
Record store_wf (s : defaultCodeStore) : Prop := {
  wf_key : map_Forall (fun k info => Code info = k /\ valid_code k = true) (codes s);
  wf_xuid : forall k1 k2 i1 i2, codes s !! k1 = Some i1 -> codes s !! k2 = Some i2 ->
              XUID i1 = XUID i2 -> k1 = k2
}.

(** The invariant as a boolean test, for concrete stores. *)
Definition store_wfb (s : defaultCodeStore) : bool :=
  forallb (fun e => String.eqb (Code e.2) e.1 && valid_code e.1) (map_to_list (codes s)) &&
  bool_decide (NoDup (map (fun e => XUID e.2) (map_to_list (codes s)))).

(** The stores the program can reach: [newDefaultCodeStore] followed by
    any sequence of [Issue] and [Revoke] calls. *)
Inductive cs_reachable : defaultCodeStore -> Prop :=
| cs_reach_new : cs_reachable newDefaultCodeStore
| cs_reach_issue s env xuid : cs_reachable s -> cs_reachable (Issue s env xuid).2
| cs_reach_revoke s code : cs_reachable s -> cs_reachable (Revoke s code).2.

(** Concrete inputs for the witnesses: six random bytes drawing
    ["012345"], and a store after one [Issue]. *)
Definition example_env : IssueEnv :=
  mkIssueEnv [Byte.x00; Byte.x01; Byte.x02; Byte.x03; Byte.x04; Byte.x05] 100 200.

Definition example_store : defaultCodeStore :=
  (Issue newDefaultCodeStore example_env "XUID-1").2.

End Default.

(** [defaultCodeStore] implements the [CodeStore] interface. *)
#[export] Instance defaultCodeStore_CodeStore : CodeStore Default.defaultCodeStore IssueEnv := {
  cs_GetInformation := Default.GetInformation;
  cs_GetForXuid := Default.GetForXuid;
  cs_Issue := Default.Issue;
  cs_Revoke := Default.Revoke
}.

(** ** Facts about the default store *)

Close Scope string_scope.
Import Default.

Lemma GetInformation_Ok s c i : GetInformation s c = Ok i <-> codes s !! c = Some i.
Proof. unfold GetInformation. destruct (codes s !! c); split; congruence. Qed.

Lemma GetInformation_Err s c e :
  GetInformation s c = Err e <-> codes s !! c = None /\ e = errCodeMissing.
Proof.
  unfold GetInformation. destruct (codes s !! c).
  - split; [done|by intros [? _]].
  - split; [by intros [= <-]|by intros [_ ->]].
Qed.

Lemma xuid_match_unique s x : store_wf s -> unique_match (xuid_is x) (map_to_list (codes s)).
Proof.
  intros Hwf [k1 i1] [k2 i2] H1 H2 Hx1 Hx2.
  apply elem_of_map_to_list in H1, H2. unfold xuid_is in *; simpl in *.
  apply string_eqb_true in Hx1, Hx2.
  assert (k1 = k2) as <- by (eapply wf_xuid; eauto; congruence). congruence.
Qed.

(** The scan of [GetForXuid] gives the same answer in every
    iteration order of the Go map, on a well-formed store. *)
Lemma GetForXuid_order_irrelevant s x entries :
  store_wf s -> entries ≡ₚ map_to_list (codes s) ->
  GetForXuid_in entries x = GetForXuid s x.
Proof.
  intros Hwf Hperm. unfold GetForXuid, GetForXuid_in.
  rewrite (find_perm_unique _ entries (map_to_list (codes s))); [done|done|].
  intros e1 e2 H1 H2. rewrite Hperm in H1, H2. by apply (xuid_match_unique s x Hwf).
Qed.

Lemma GetForXuid_Ok_elem s x i :
  GetForXuid s x = Ok i -> exists k, codes s !! k = Some i /\ XUID i = x.
Proof.
  unfold GetForXuid, GetForXuid_in.
  destruct (List.find _ _) as [[k i']|] eqn:Hf; intros; simplify_eq.
  apply find_some_elem in Hf as [Hin Hx]. apply elem_of_map_to_list in Hin.
  apply string_eqb_true in Hx. eauto.
Qed.

Lemma GetForXuid_found s x k i :
  store_wf s -> codes s !! k = Some i -> XUID i = x -> GetForXuid s x = Ok i.
Proof.
  intros Hwf Hk Hx. unfold GetForXuid, GetForXuid_in.
  rewrite (find_elem_unique _ _ (k, i)); [done|by apply xuid_match_unique| |].
  - by apply elem_of_map_to_list.
  - by apply string_eqb_true.
Qed.

Lemma GetForXuid_none s x :
  (forall k i, codes s !! k = Some i -> XUID i <> x) ->
  GetForXuid s x = Err (EApp (NewApplicationError 40400 "There is no code for this XUID")).
Proof.
  intros Hno. unfold GetForXuid, GetForXuid_in.
  destruct (List.find _ _) as [[k i]|] eqn:Hf; [|done].
  apply find_some_elem in Hf as [Hin Hx]. apply elem_of_map_to_list in Hin.
  apply string_eqb_true in Hx. by destruct (Hno k i).
Qed.

Lemma GetForXuid_Err_none s x e :
  GetForXuid s x = Err e -> forall k i, codes s !! k = Some i -> XUID i <> x.
Proof.
  unfold GetForXuid, GetForXuid_in. intros He k i Hk Hx.
  destruct (List.find _ _) as [[k' i']|] eqn:Hf; simplify_eq.
  eapply find_none_elem in Hf; [|by apply elem_of_map_to_list].
  unfold xuid_is in Hf. simpl in Hf. by rewrite string_eqb_refl' in Hf.
Qed.

(** C32: in every iteration order of the Go map, on a well-formed
    store, the scan of [GetForXuid] returns an entry of the store for the
    subject when the subject has a code, and [errCodeMissing]'s 40400
    error exactly when it has none. *)
Theorem GetForXuid_in_spec s x entries :
  store_wf s -> entries ≡ₚ map_to_list (codes s) ->
  match GetForXuid_in entries x with
  | Ok i => exists k, codes s !! k = Some i /\ XUID i = x
  | Err e => e = EApp (NewApplicationError 40400 "There is no code for this XUID") /\
             forall k i, codes s !! k = Some i -> XUID i <> x
  end.
Proof.
  intros Hwf Hperm. rewrite (GetForXuid_order_irrelevant s x entries Hwf Hperm).
  destruct (GetForXuid s x) as [i|e] eqn:E.
  - by apply GetForXuid_Ok_elem.
  - split; [|by eapply GetForXuid_Err_none].
    unfold GetForXuid, GetForXuid_in in E. by destruct (List.find _ _) as [[??]|]; simplify_eq.
Qed.

Lemma generateCode_6_length src code rest :
  generateCode 6 src = Ok (code, rest) -> (length rest + 6 = length src)%nat.
Proof.
  intros (_ & buffer & -> & Hlen)%generateCode_valid. rewrite length_app. lia.
Qed.

(** The retry loop of [findFreeCode] terminates: with more rounds
    than bytes in the random source it always returns or panics. *)
Lemma findFreeCode_fuel_enough s f src :
  (length src < f)%nat -> is_Some (findFreeCode_fuel f s src).
Proof.
  revert src. induction f as [|f IH]; intros src Hf; [lia|]. simpl.
  destruct (generateCode 6 src) as [[g rest]|e] eqn:Hg; [|eauto].
  apply generateCode_6_length in Hg.
  destruct (GetInformation s g); [apply IH; lia|eauto].
Qed.

Lemma findFreeCode_fuel_irrelevant s f1 f2 src :
  (length src < f1)%nat -> (length src < f2)%nat ->
  findFreeCode_fuel f1 s src = findFreeCode_fuel f2 s src.
Proof.
  revert f2 src. induction f1 as [|f1 IH]; intros [|f2] src H1 H2; try lia. simpl.
  destruct (generateCode 6 src) as [[g rest]|e] eqn:Hg; [|done].
  apply generateCode_6_length in Hg.
  destruct (GetInformation s g); [apply IH; lia|done].
Qed.

(** The two equations of the loop: a free code is returned at once, a
    taken one makes the loop draw again from the rest of the source. *)
Lemma findFreeCode_free s src code rest :
  generateCode 6 src = Ok (code, rest) -> codes s !! code = None ->
  findFreeCode s src = Normal (code, rest).
Proof.
  intros Hg Hfree. unfold findFreeCode. simpl. rewrite Hg.
  unfold GetInformation. by rewrite Hfree.
Qed.

Lemma findFreeCode_taken s src code rest :
  generateCode 6 src = Ok (code, rest) -> is_Some (codes s !! code) ->
  findFreeCode s src = findFreeCode s rest.
Proof.
  intros Hg [i Hi]. unfold findFreeCode. simpl. rewrite Hg.
  unfold GetInformation at 1. rewrite Hi.
  apply generateCode_6_length in Hg.
  by rewrite (findFreeCode_fuel_irrelevant s (length src) (S (length rest))) by lia.
Qed.

Lemma findFreeCode_fuel_sound s f src r :
  findFreeCode_fuel f s src = Some r ->
  match r with
  | Normal (code, _) => codes s !! code = None /\ valid_code code = true
  | Panicking p => p = ERand
  end.
Proof.
  revert src. induction f as [|f IH]; intros src; [done|]. simpl.
  destruct (generateCode 6 src) as [[g rest]|e] eqn:Hg.
  - destruct (GetInformation s g) eqn:Hi; [apply IH|].
    intros [= <-]. apply GetInformation_Err in Hi as [Hn _].
    apply generateCode_valid in Hg as [Hv _]. done.
  - intros [= <-]. unfold generateCode, rand_Read in Hg.
    by case_decide; simplify_eq.
Qed.

Lemma findFreeCode_sound s src r :
  findFreeCode s src = r ->
  match r with
  | Normal (code, _) => codes s !! code = None /\ valid_code code = true
  | Panicking p => p = ERand
  end.
Proof.
  intros <-. unfold findFreeCode.
  destruct (findFreeCode_fuel_enough s (S (length src)) src) as [r Hr]; [lia|].
  rewrite Hr. by apply findFreeCode_fuel_sound in Hr.
Qed.

(** Inserting the entry of a code of the generated shape for a subject
    without a code keeps the invariant, even over an existing entry. *)
Lemma store_wf_insert_any s env c x :
  store_wf s -> valid_code c = true ->
  (forall k i, codes s !! k = Some i -> XUID i <> x) ->
  store_wf (mkStore (<[c := issued_info env c x]> (codes s))).
Proof.
  intros [Hkey Hx] Hv Hno. split; simpl.
  - by apply map_Forall_insert_2.
  - intros k1 k2 i1 i2 H1 H2 Heq.
    destruct (decide (c = k1)) as [<-|N1], (decide (c = k2)) as [<-|N2];
      simplify_map_eq; simpl in *.
    + done.
    + exfalso. eapply (Hno k2 i2); [done|congruence].
    + exfalso. eapply (Hno k1 i1); [done|congruence].
    + eauto.
Qed.

Lemma store_wf_insert s env c x :
  store_wf s -> codes s !! c = None -> valid_code c = true ->
  (forall k i, codes s !! k = Some i -> XUID i <> x) ->
  store_wf (mkStore (<[c := issued_info env c x]> (codes s))).
Proof. intros Hwf _. by apply store_wf_insert_any. Qed.

Lemma store_wf_delete s c : store_wf s -> store_wf (mkStore (delete c (codes s))).
Proof.
  intros [Hkey Hx]. split; simpl.
  - by apply map_Forall_delete.
  - intros k1 k2 i1 i2 H1 H2 Heq.
    apply lookup_delete_Some in H1 as [_ H1], H2 as [_ H2]. eauto.
Qed.

(** The three outcomes of [Issue] on a well-formed store. *)
Lemma Issue_cases s env x :
  store_wf s ->
  (exists k i, codes s !! k = Some i /\ XUID i = x /\
     Issue s env x = (Normal (Err (EApp (NewApplicationError 40000
                        ("Code " ++ k ++ " is already issued")%string))), s))
  \/ ((forall k i, codes s !! k = Some i -> XUID i <> x) /\
      (Issue s env x = (Panicking ERand, s)
       \/ exists c, codes s !! c = None /\ valid_code c = true /\
          let m := <[c := issued_info env c x]> (codes s) in
          Issue s env x = (Normal (Ok (m !! x)), mkStore m))).
Proof.
  intros Hwf. unfold Issue. destruct (GetForXuid s x) as [i|e] eqn:Hg.
  - left. destruct (GetForXuid_Ok_elem _ _ _ Hg) as (k & Hk & Hx).
    exists k, i. destruct (wf_key _ Hwf k i Hk) as [<- _]. done.
  - right. split; [by eapply GetForXuid_Err_none|].
    pose proof (findFreeCode_sound s (env_rand env) _ eq_refl) as Hs.
    destruct (findFreeCode s (env_rand env)) as [[c rest]|p]; [right|left].
    + destruct Hs. by exists c.
    + by subst.
Qed.

(** A successful [Issue] inserted the entry of a free code of the
    generated shape for a subject without a code, and returned the
    lookup of the subject. *)
Lemma Issue_Ok_inv s env x r s' :
  store_wf s -> Issue s env x = (Normal (Ok r), s') ->
  exists c, codes s !! c = None /\ valid_code c = true /\
    (forall k i, codes s !! k = Some i -> XUID i <> x) /\
    s' = mkStore (<[c := issued_info env c x]> (codes s)) /\ r = codes s' !! x.
Proof.
  intros Hwf HI.
  destruct (Issue_cases s env x Hwf) as [(k & i & _ & _ & H)|[Hno [H|(c & Hc & Hv & H)]]];
    rewrite H in HI; simplify_eq.
  by exists c.
Qed.

(** The entry inserted by [Issue] is what both lookups find. *)
Lemma issued_lookups s env c x :
  store_wf s -> codes s !! c = None -> valid_code c = true ->
  (forall k i, codes s !! k = Some i -> XUID i <> x) ->
  let s' := mkStore (<[c := issued_info env c x]> (codes s)) in
  GetInformation s' c = Ok (issued_info env c x) /\ GetForXuid s' x = Ok (issued_info env c x).
Proof.
  intros Hwf Hc Hv Hno s'. split.
  - apply GetInformation_Ok. simpl. by rewrite lookup_insert_eq.
  - eapply GetForXuid_found; [by apply store_wf_insert|simpl; by rewrite lookup_insert_eq|done].
Qed.

(** C22: issuing for a subject that already has a code fails with
    [40000] and a message that names the existing code; the store is
    unchanged. *)
Theorem Issue_conflict s env x k i :
  store_wf s -> codes s !! k = Some i -> XUID i = x ->
  Issue s env x = (Normal (Err (EApp (NewApplicationError 40000
                     ("Code " ++ k ++ " is already issued")%string))), s).
Proof.
  intros Hwf Hk Hx. unfold Issue.
  rewrite (GetForXuid_found s x k i) by done.
  by destruct (wf_key _ Hwf k i Hk) as [-> _].
Qed.

(** C23: a successful [Issue] adds exactly one entry, under a code
    that was free and has the generated shape, recording the subject, the
    first clock reading and the second one plus fifteen minutes; the
    subject had no code before and every other entry is untouched. *)
Theorem Issue_success s env x r s' :
  store_wf s -> Issue s env x = (Normal (Ok r), s') ->
  exists c, codes s !! c = None /\ valid_code c = true /\
    (forall k i, codes s !! k = Some i -> XUID i <> x) /\
    codes s' = <[c := issued_info env c x]> (codes s) /\
    GetInformation s' c = Ok (issued_info env c x) /\
    GetForXuid s' x = Ok (issued_info env c x).
Proof.
  intros Hwf HI. destruct (Issue_Ok_inv s env x r s' Hwf HI) as (c & Hc & Hv & Hno & -> & _).
  exists c. do 4 (split; [done|]). by apply issued_lookups.
Qed.

(** [Issue] preserves the invariant of the store (unique code keys of
    the generated shape, at most one code per subject). *)
Lemma Issue_wf s env x : store_wf s -> store_wf (Issue s env x).2.
Proof.
  intros Hwf.
  destruct (Issue_cases s env x Hwf) as [(k & i & _ & _ & H)|[Hno [H|(c & Hc & Hv & H)]]];
    rewrite H; [done|done|by apply store_wf_insert].
Qed.

(** C2: [Issue] returns [s.codes[xuid]], a lookup by the subject.  The
    keys of the map are generated codes, so for any subject that is not
    itself shaped like a code (a 16-digit XUID, ["XUID-1"]) the pointer
    returned on success is nil: the caller never receives the new code. *)
Theorem Issue_returns_nil s env x r s' :
  store_wf s -> valid_code x = false -> Issue s env x = (Normal (Ok r), s') -> r = None.
Proof.
  intros Hwf Hx HI.
  pose proof (Issue_wf s env x Hwf) as Hwf'. rewrite HI in Hwf'. simpl in Hwf'.
  destruct (Issue_Ok_inv s env x r s' Hwf HI) as (c & _ & _ & _ & _ & ->).
  destruct (codes s' !! x) as [i|] eqn:Hi; [|done].
  destruct (wf_key _ Hwf' x i Hi) as [_ Hv']. congruence.
Qed.

(** [Issue] panics only when the random source fails, and then leaves
    the store unchanged. *)
Lemma Issue_panic s env x p s' :
  Issue s env x = (Panicking p, s') -> p = ERand /\ s' = s.
Proof.
  unfold Issue. destruct (GetForXuid s x); [done|].
  pose proof (findFreeCode_sound s (env_rand env) _ eq_refl) as Hs.
  destruct (findFreeCode s (env_rand env)) as [[c rest]|p']; [done|].
  by intros [= -> ->].
Qed.

(** [Revoke] of a stored code succeeds, removes exactly that code,
    after which [GetInformation] and a second [Revoke] fail with [40400];
    [Revoke] of an absent code fails with [40400] and changes nothing. *)
Lemma Revoke_spec s c :
  match codes s !! c with
  | None => Revoke s c = (Err errCodeMissing, s)
  | Some _ =>
      let s' := (Revoke s c).2 in
      (Revoke s c).1 = Ok tt /\
      (forall k, k <> c -> codes s' !! k = codes s !! k) /\
      GetInformation s' c = Err errCodeMissing /\
      Revoke s' c = (Err errCodeMissing, s')
  end.
Proof.
  unfold Revoke, GetInformation. destruct (codes s !! c) as [i|] eqn:Hc; rewrite ?Hc; [|done].
  simpl. rewrite lookup_delete_eq.
  split_and!; [done|intros; by apply lookup_delete_ne|done|done].
Qed.

Lemma Revoke_wf s c : store_wf s -> store_wf (Revoke s c).2.
Proof.
  intros Hwf. unfold Revoke. destruct (GetInformation s c); [by apply store_wf_delete|done].
Qed.

(** ** What a client of the [CodeStore] interface relies on

    The binding flow of the chat command relies on these facts about
    [GetInformation] and [Revoke], on the states satisfying the store's
    invariant [cs_inv]; the default store provides them with [store_wf]. *)
Class CodeStoreLaws (S Env : Type) `{!CodeStore S Env} := {
  cs_inv : S -> Prop;
  cs_issue_inv s env x : cs_inv s -> cs_inv (cs_Issue s env x).2;
  cs_revoke_inv s c : cs_inv s -> cs_inv (cs_Revoke s c).2;
  cs_info_code s c i : cs_inv s -> cs_GetInformation s c = Ok i -> Code i = c;
  cs_revoke_found s c i :
    cs_GetInformation s c = Ok i ->
    (cs_Revoke s c).1 = Ok tt /\
    (exists e, cs_GetInformation (cs_Revoke s c).2 c = Err e) /\
    (forall c', c' <> c -> cs_GetInformation (cs_Revoke s c).2 c' = cs_GetInformation s c');
  cs_revoke_missing s c e :
    cs_GetInformation s c = Err e -> exists e', cs_Revoke s c = (Err e', s)
}.

#[export] Instance defaultCodeStore_laws : CodeStoreLaws defaultCodeStore IssueEnv.
Proof.
  refine {| cs_inv := store_wf |}; simpl.
  - apply Issue_wf.
  - apply Revoke_wf.
  - intros s c i Hwf Hc%GetInformation_Ok. by destruct (wf_key _ Hwf c i Hc).
  - intros s c i Hc%GetInformation_Ok. pose proof (Revoke_spec s c) as R. rewrite Hc in R.
    destruct R as (R1 & R2 & R3 & _). split_and!; [done|eauto|].
    intros c' Hne. unfold GetInformation. by rewrite R2.
  - intros s c e [Hc _]%GetInformation_Err. pose proof (Revoke_spec s c) as R.
    rewrite Hc in R. eauto.
Defined.

Lemma store_wfb_spec s : store_wfb s = true -> store_wf s.
Proof.
  unfold store_wfb. intros [Hall Hnd]%andb_true_iff.
  rewrite forallb_forall in Hall. apply bool_decide_eq_true in Hnd. split.
  - intros k i Hk. apply elem_of_map_to_list, list_elem_of_In in Hk.
    apply Hall in Hk as [Hc Hv]%andb_true_iff. by apply string_eqb_true in Hc.
  - intros k1 k2 i1 i2 H1 H2 Hx. apply elem_of_map_to_list in H1, H2.
    by assert ((k1, i1) = (k2, i2)) as [= -> _] by (eapply (NoDup_map_eq (fun e => XUID e.2)); eauto).
Qed.

(** C6: every store reachable through [Issue] and [Revoke] from a new
    store is well formed: entries are keyed by their own six-character code
    and no subject holds two codes. *)
Theorem reachable_store_wf s : cs_reachable s -> store_wf s.
Proof.
  induction 1 as [|s env x _ IH|s c _ IH].
  - apply store_wfb_spec. reflexivity.
  - by apply Issue_wf.
  - by apply Revoke_wf.
Qed.

(** C33: the retry loop of [findFreeCode]: a drawn code that is free
    is returned with the rest of the random bytes, a taken one makes it
    draw again from the rest, a failed read panics with its error; what
    it returns is always a free code of the generated shape, and it
    panics only with [ERand]. *)
Theorem findFreeCode_spec s src :
  (forall code rest, generateCode 6 src = Ok (code, rest) ->
     (codes s !! code = None -> findFreeCode s src = Normal (code, rest)) /\
     (is_Some (codes s !! code) -> findFreeCode s src = findFreeCode s rest)) /\
  (forall e, generateCode 6 src = Err e -> findFreeCode s src = Panicking e) /\
  match findFreeCode s src with
  | Normal (code, _) => codes s !! code = None /\ valid_code code = true
  | Panicking p => p = ERand
  end.
Proof.
  split_and!.
  - intros code rest Hg. split; [by apply findFreeCode_free|by apply findFreeCode_taken].
  - intros e Hg. unfold findFreeCode. simpl. by rewrite Hg.
  - by apply (findFreeCode_sound s src).
Qed.

(** C24: after a successful [Issue], the subject's code is found
    by [GetForXuid]; revoking it succeeds, after which [GetInformation] and a
    second [Revoke] of it fail with [40400]; revoking a code that was never
    issued fails with [40400] and changes nothing. *)
Theorem Issue_then_Revoke s env x r s1 :
  store_wf s -> Issue s env x = (Normal (Ok r), s1) ->
  exists c,
    GetForXuid s1 x = Ok (issued_info env c x) /\
    (Revoke s1 c).1 = Ok tt /\
    GetInformation (Revoke s1 c).2 c = Err errCodeMissing /\
    Revoke (Revoke s1 c).2 c = (Err errCodeMissing, (Revoke s1 c).2) /\
    (forall c', codes s1 !! c' = None -> Revoke s1 c' = (Err errCodeMissing, s1)).
Proof.
  intros Hwf HI. destruct (Issue_Ok_inv s env x r s1 Hwf HI) as (c & Hc & Hv & Hno & Hs1 & _).
  destruct (issued_lookups s env c x Hwf Hc Hv Hno) as [Hgi Hgx]. rewrite <-Hs1 in Hgi, Hgx.
  exists c. pose proof (Revoke_spec s1 c) as R. apply GetInformation_Ok in Hgi. rewrite Hgi in R.
  destruct R as (R1 & _ & R3 & R4). split_and!; try done.
  intros c' Hc'. pose proof (Revoke_spec s1 c') as R'. by rewrite Hc' in R'.
Qed.

(** ** Witnesses at concrete inputs *)

Lemma reachable_store_wf_witness : store_wf example_store.
Proof. apply reachable_store_wf. unfold example_store. constructor. constructor. Defined.

Lemma Issue_conflict_witness :
  Issue example_store example_env "XUID-1"%string =
  (Normal (Err (EApp (NewApplicationError 40000 ("Code 012345 is already issued")%string))),
   example_store).
Proof.
  apply (Issue_conflict example_store example_env "XUID-1" "012345"
           (issued_info example_env "012345" "XUID-1")).
  - apply store_wfb_spec. vm_compute. reflexivity.
  - vm_compute. reflexivity.
  - reflexivity.
Defined.

Lemma Issue_success_witness :
  exists c, codes newDefaultCodeStore !! c = None /\ valid_code c = true /\
    (forall k i, codes newDefaultCodeStore !! k = Some i -> XUID i <> "XUID-1"%string) /\
    codes example_store = <[c := issued_info example_env c "XUID-1"]> (codes newDefaultCodeStore) /\
    GetInformation example_store c = Ok (issued_info example_env c "XUID-1") /\
    GetForXuid example_store "XUID-1"%string = Ok (issued_info example_env c "XUID-1").
Proof.
  apply (Issue_success newDefaultCodeStore example_env "XUID-1" None example_store).
  - apply store_wfb_spec. reflexivity.
  - vm_compute. reflexivity.
Defined.

Lemma Issue_returns_nil_witness :
  exists r s', Issue newDefaultCodeStore example_env "XUID-1"%string = (Normal (Ok r), s') /\ r = None.
Proof.
  eexists _, _. split; [vm_compute; reflexivity|].
  eapply (Issue_returns_nil newDefaultCodeStore example_env "XUID-1").
  - apply store_wfb_spec. reflexivity.
  - reflexivity.
  - vm_compute. reflexivity.
Defined.


Lemma Issue_then_Revoke_witness :
  exists c,
    GetForXuid example_store "XUID-1"%string = Ok (issued_info example_env c "XUID-1") /\
    (Revoke example_store c).1 = Ok tt /\
    GetInformation (Revoke example_store c).2 c = Err errCodeMissing /\
    Revoke (Revoke example_store c).2 c = (Err errCodeMissing, (Revoke example_store c).2) /\
    (forall c', codes example_store !! c' = None -> Revoke example_store c' = (Err errCodeMissing, example_store)).
Proof.
  apply (Issue_then_Revoke newDefaultCodeStore example_env "XUID-1" None example_store).
  - apply store_wfb_spec. reflexivity.
  - vm_compute. reflexivity.
Defined.

Lemma GetForXuid_in_spec_witness :
  store_wf example_store /\ rev (map_to_list (codes example_store)) ≡ₚ map_to_list (codes example_store) /\
  match GetForXuid_in (rev (map_to_list (codes example_store))) "XUID-1"%string with
  | Ok i => exists k, codes example_store !! k = Some i /\ XUID i = "XUID-1"%string
  | Err e => e = EApp (NewApplicationError 40400 "There is no code for this XUID") /\
             forall k i, codes example_store !! k = Some i -> XUID i <> "XUID-1"%string
  end.
Proof.
  assert (Hwf : store_wf example_store) by (apply store_wfb_spec; vm_compute; reflexivity).
  assert (Hp : rev (map_to_list (codes example_store)) ≡ₚ map_to_list (codes example_store))
    by apply Permutation_sym, Permutation_rev.
  split_and!; [exact Hwf|exact Hp|].
  exact (GetForXuid_in_spec example_store "XUID-1" _ Hwf Hp).
Defined.
