(* ===== verification/Repository.v ===== *)
(** * User Repository: [src/server/repository.go]

    [defaultRepository] keeps the bindings in an SQLite table through gorm.
    [UserData] embeds [gorm.Model], so every row has an auto-incremented
    [ID] and a [DeletedAt] column, and gorm deletes softly: [Delete] marks
    the matching live rows, and every query skips marked rows.  The table
    is the list [rows] in insertion order, which is the order of [ID]
    ([db_wf]), so gorm's [First] ([ORDER BY id LIMIT 1]) is the first live
    match of the list.  Storage failures are not modelled: a query either
    finds a row or reports [ErrRecordNotFound]. *)

From S2P Require Import Prelude Errors.

Open Scope string_scope.

Module Repo.

(** [type User struct { Discord string; XUID string }] *)
Record User := mkUser { Discord : string; XUID : string }.

#[export] Instance User_eq_dec : EqDecision User.
Proof. solve_decision. Defined.

(** A row of [UserData]: [gorm.Model]'s [ID] and [DeletedAt] (only its
    validity matters to the queries), and the two columns. *)
Record UserData := mkUserData {
  row_id : N;
  row_deleted : bool;
  row_discord : string;
  row_xuid : string
}.

(** [func (u *UserData) ToUser() *User] *)
Definition ToUser (u : UserData) : User := mkUser (row_discord u) (row_xuid u).

(** The table and SQLite's next auto-increment value. *)
Record db := mkDb { rows : list UserData; next_id : N }.

(** The empty table of a fresh [test.db] after [AutoMigrate]. *)
Definition empty_db : db := mkDb [] 1.

Definition live (r : UserData) : bool := negb (row_deleted r).

(** [db.First(&user, cond)]: the live row of least [ID] satisfying [cond]. *)
Definition db_First (d : db) (cond : UserData -> bool) : res goerror UserData :=
  match List.find (fun r => live r && cond r) (rows d) with
  | Some r => Ok r
  | None => Err ERecordNotFound
  end.

(** [db.Create(&user)]: a new live row with the next [ID]. *)
Definition db_Create (d : db) (discordId xuid : string) : UserData * db :=
  let r := mkUserData (next_id d) false discordId xuid in
  (r, mkDb (rows d ++ [r])%list (next_id d + 1)%N).

(** [db.Delete(&UserData{}, cond)] under soft delete: every live row
    satisfying [cond] gets its [DeletedAt] set. *)
Definition db_Delete (d : db) (cond : UserData -> bool) : db :=
  mkDb (map (fun r => if live r && cond r
                      then mkUserData (row_id r) true (row_discord r) (row_xuid r)
                      else r) (rows d))
       (next_id d).

Definition by_discord (discordId : string) (r : UserData) : bool := String.eqb (row_discord r) discordId.
Definition by_xuid (xuid : string) (r : UserData) : bool := String.eqb (row_xuid r) xuid.

Definition errUserNotFound : goerror := EApp (NewApplicationError 40400 "User not found").

(** [errors.Is(err, gorm.ErrRecordNotFound)] *)
Definition is_record_not_found (e : goerror) : bool :=
  match e with ERecordNotFound => true | _ => false end.

(** [func (r *defaultRepository) GetUserByDiscord(discordId string)] *)
Definition GetUserByDiscord (d : db) (discordId : string) : res goerror User :=
  match db_First d (by_discord discordId) with
  | Ok r => Ok (ToUser r)
  | Err e => Err (if is_record_not_found e then errUserNotFound else e)
  end.

(** [func (r *defaultRepository) GetUserByXUID(xuid string)] *)
Definition GetUserByXUID (d : db) (xuid : string) : res goerror User :=
  match db_First d (by_xuid xuid) with
  | Ok r => Ok (ToUser r)
  | Err e => Err (if is_record_not_found e then errUserNotFound else e)
  end.

Definition errAlreadyBound : goerror :=
  EApp (NewApplicationError 40000 "Either discord or XUID are already bound").

(** [func (r *defaultRepository) CreateUser(discordId, xuid string)]:
    one query over both columns, then an insert. *)
Definition CreateUser (d : db) (discordId xuid : string) : res goerror User * db :=
  match db_First d (fun r => by_discord discordId r || by_xuid xuid r) with
  | Ok _ => (Err errAlreadyBound, d)
  | Err _ =>
      let '(row, d') := db_Create d discordId xuid in
      (Ok (ToUser row), d')
  end.

(** [func (r *defaultRepository) DeleteUserByDiscord(discordId string) error] *)
Definition DeleteUserByDiscord (d : db) (discordId : string) : res goerror unit * db :=
  match GetUserByDiscord d discordId with
  | Err e => (Err (if is_record_not_found e then errUserNotFound else e), d)
  | Ok user => (Ok tt, db_Delete d (by_discord (Discord user)))
  end.

(** [func (r *defaultRepository) DeleteUserByXUID(xuid string) error] *)
Definition DeleteUserByXUID (d : db) (xuid : string) : res goerror unit * db :=
  match GetUserByXUID d xuid with
  | Err e => (Err (if is_record_not_found e then errUserNotFound else e), d)
  | Ok user => (Ok tt, db_Delete d (by_xuid (XUID user)))
  end.

(** ** The contract of the repository (design notes, section 4.2)

    The observable state is the list of live bindings in [ID] order;
    soft-deleted rows and the [ID]s themselves are invisible. *)
Definition abs (d : db) : list User := map ToUser (List.filter live (rows d)).

Definition spec_get (B : list User) (p : User -> bool) : res goerror User :=
  match List.find p B with
  | Some u => Ok u
  | None => Err errUserNotFound
  end.

Definition has_discord (x : string) (u : User) : bool := String.eqb (Discord u) x.
Definition has_xuid (x : string) (u : User) : bool := String.eqb (XUID u) x.

(** [Create] fails with a conflict when either identity is bound. *)
Definition spec_create (B : list User) (discordId xuid : string) : res goerror User * list User :=
  if existsb (fun u => has_discord discordId u || has_xuid xuid u) B
  then (Err errAlreadyBound, B)
  else (Ok (mkUser discordId xuid), (B ++ [mkUser discordId xuid])%list).

(** [DeleteBy...] removes every binding with the identity, or fails. *)
Definition spec_delete (B : list User) (p : User -> bool) : res goerror unit * list User :=
  match List.find p B with
  | None => (Err errUserNotFound, B)
  | Some _ => (Ok tt, List.filter (fun u => negb (p u)) B)
  end.

(** The uniqueness invariant of section 3: a game identity maps to at most
    one chat identity and conversely. *)
Definition unique_bindings (B : list User) : Prop :=
  NoDup (map Discord B) /\ NoDup (map XUID B).

(** Two tables are equivalent when they have the same live bindings. *)
Definition db_equiv (d1 d2 : db) : Prop := abs d1 = abs d2.

(** Rows are stored in increasing [ID] order, below the next [ID]. *)
Fixpoint ids_increasing (l : list UserData) : Prop :=
  match l with
  | [] => True
  | r :: l' => Forall (fun r' => (row_id r < row_id r')%N) l' /\ ids_increasing l'
  end.

Definition db_wf (d : db) : Prop :=
  ids_increasing (rows d) /\ Forall (fun r => (row_id r < next_id d)%N) (rows d).

(** One call of an operation that changes the table. *)
Inductive repo_step : db -> db -> Prop :=
| step_create d discordId xuid : repo_step d (CreateUser d discordId xuid).2
| step_delete_discord d discordId : repo_step d (DeleteUserByDiscord d discordId).2
| step_delete_xuid d xuid : repo_step d (DeleteUserByXUID d xuid).2.

(** The tables reachable from the freshly migrated one. *)
Inductive reachable : db -> Prop :=
| reach_init : reachable empty_db
| reach_step d d' : reachable d -> repo_step d d' -> reachable d'.

(** A concrete table for the witnesses: ["disc-1"] bound to ["XUID-1"]. *)
Definition example_db : db := (CreateUser empty_db "disc-1" "XUID-1").2.

End Repo.

(** [type Repository interface { GetUserByDiscord; GetUserByXUID;
    CreateUser; DeleteUserByDiscord; DeleteUserByXUID }] *)
Class Repository (R : Type) := {
  repo_GetUserByDiscord : R -> string -> res goerror Repo.User;
  repo_GetUserByXUID : R -> string -> res goerror Repo.User;
  repo_CreateUser : R -> string -> string -> res goerror Repo.User * R;
  repo_DeleteUserByDiscord : R -> string -> res goerror unit * R;
  repo_DeleteUserByXUID : R -> string -> res goerror unit * R
}.

#[export] Instance defaultRepository_Repository : Repository Repo.db := {
  repo_GetUserByDiscord := Repo.GetUserByDiscord;
  repo_GetUserByXUID := Repo.GetUserByXUID;
  repo_CreateUser := Repo.CreateUser;
  repo_DeleteUserByDiscord := Repo.DeleteUserByDiscord;
  repo_DeleteUserByXUID := Repo.DeleteUserByXUID
}.

(** ** Facts about the default repository *)

Close Scope string_scope.
Import Repo.

Lemma abs_db_Create d dc xu :
  abs (db_Create d dc xu).2 = abs d ++ [mkUser dc xu].
Proof. unfold abs, db_Create. simpl. by rewrite List.filter_app, map_app. Qed.

Lemma abs_db_Delete d (p : User -> bool) :
  abs (db_Delete d (fun r => p (ToUser r))) = List.filter (fun u => negb (p u)) (abs d).
Proof.
  unfold abs, db_Delete. simpl. induction (rows d) as [|r l IH]; [done|]. simpl.
  destruct (live r) eqn:Hl; simpl; [|by rewrite Hl].
  destruct (p (ToUser r)) eqn:Hp; simpl; [exact IH|]. rewrite Hl. simpl. rewrite ?Hp. simpl. by rewrite IH.
Qed.

Lemma db_First_abs d (p : User -> bool) :
  option_map ToUser (match db_First d (fun r => p (ToUser r)) with Ok r => Some r | Err _ => None end)
  = List.find p (abs d).
Proof.
  unfold db_First, abs. rewrite find_map_filter.
  by destruct (List.find (fun r => live r && p (ToUser r)) (rows d)).
Qed.

Lemma db_First_not_found d cond e : db_First d cond = Err e -> e = ERecordNotFound.
Proof. unfold db_First. by destruct (List.find _ _); intros [=]. Qed.

(** The refinement of the contract, one lemma per operation. *)
Lemma GetUserByDiscord_refines d x : GetUserByDiscord d x = spec_get (abs d) (has_discord x).
Proof.
  unfold GetUserByDiscord, spec_get. rewrite <-db_First_abs.
  change (by_discord x) with (fun r => has_discord x (ToUser r)).
  destruct (db_First d _) eqn:E; [done|]. by apply db_First_not_found in E as ->.
Qed.

Lemma GetUserByXUID_refines d x : GetUserByXUID d x = spec_get (abs d) (has_xuid x).
Proof.
  unfold GetUserByXUID, spec_get. rewrite <-db_First_abs.
  change (by_xuid x) with (fun r => has_xuid x (ToUser r)).
  destruct (db_First d _) eqn:E; [done|]. by apply db_First_not_found in E as ->.
Qed.

Lemma CreateUser_refines d dc xu :
  ((CreateUser d dc xu).1, abs (CreateUser d dc xu).2) = spec_create (abs d) dc xu.
Proof.
  unfold CreateUser, spec_create. rewrite existsb_find.
  rewrite <-(db_First_abs d (fun u => has_discord dc u || has_xuid xu u)).
  change (fun r => by_discord dc r || by_xuid xu r)
    with (fun r => has_discord dc (ToUser r) || has_xuid xu (ToUser r)).
  destruct (db_First d _); [done|]. simpl. f_equal. exact (abs_db_Create d dc xu).
Qed.

Lemma DeleteUserByDiscord_refines d x :
  ((DeleteUserByDiscord d x).1, abs (DeleteUserByDiscord d x).2) = spec_delete (abs d) (has_discord x).
Proof.
  unfold DeleteUserByDiscord. rewrite GetUserByDiscord_refines. unfold spec_get, spec_delete.
  destruct (List.find (has_discord x) (abs d)) as [u|] eqn:Hf; [|done].
  apply find_some in Hf as [_ Hx]. apply string_eqb_true in Hx. simpl.
  change (by_discord (Discord u)) with (fun r => has_discord (Discord u) (ToUser r)).
  by rewrite abs_db_Delete, Hx.
Qed.

Lemma DeleteUserByXUID_refines d x :
  ((DeleteUserByXUID d x).1, abs (DeleteUserByXUID d x).2) = spec_delete (abs d) (has_xuid x).
Proof.
  unfold DeleteUserByXUID. rewrite GetUserByXUID_refines. unfold spec_get, spec_delete.
  destruct (List.find (has_xuid x) (abs d)) as [u|] eqn:Hf; [|done].
  apply find_some in Hf as [_ Hx]. apply string_eqb_true in Hx. simpl.
  change (by_xuid (XUID u)) with (fun r => has_xuid (XUID u) (ToUser r)).
  by rewrite abs_db_Delete, Hx.
Qed.

Lemma has_discord_self dc xu : has_discord dc (mkUser dc xu) = true.
Proof. apply string_eqb_refl'. Qed.

Lemma has_xuid_self dc xu : has_xuid xu (mkUser dc xu) = true.
Proof. apply string_eqb_refl'. Qed.

#[export] Hint Rewrite has_discord_self has_xuid_self : go_rw.

Lemma spec_create_unique B dc xu :
  unique_bindings B -> unique_bindings (spec_create B dc xu).2.
Proof.
  unfold spec_create. destruct (existsb _ B) eqn:He; [done|]. intros [Hd Hx]. simpl.
  assert (Hno : forall u, u ∈ B -> Discord u <> dc /\ XUID u <> xu).
  { intros u Hu. pose proof (existsb_false_forall _ B u He Hu) as Hf.
    apply orb_false_iff in Hf as [H1 H2].
    by split; [apply string_eqb_false in H1|apply string_eqb_false in H2]. }
  unfold unique_bindings. rewrite !map_app. simpl.
  split; apply NoDup_app; (split_and!; [done| |apply NoDup_singleton]);
    intros z Hz Hz'; apply list_elem_of_singleton in Hz' as ->;
    apply list_elem_of_fmap in Hz as (u & Hu & Hin); destruct (Hno u Hin); congruence.
Qed.

Lemma spec_delete_unique B p : unique_bindings B -> unique_bindings (spec_delete B p).2.
Proof.
  unfold spec_delete. destruct (List.find p B); [|done]. intros [Hd Hx].
  split; by apply NoDup_map_filter.
Qed.

Lemma ids_increasing_snoc l r :
  ids_increasing l -> Forall (fun r' => (row_id r' < row_id r)%N) l -> ids_increasing (l ++ [r]).
Proof.
  induction l as [|a l IH]; simpl; [done|]. intros [Ha Hl] Hlt.
  apply Forall_cons in Hlt as [Har Hlt]. split; [|by apply IH].
  apply Forall_app. split; [done|]. by constructor.
Qed.

Lemma ids_increasing_map (f : UserData -> UserData) l :
  (forall r, row_id (f r) = row_id r) -> ids_increasing l -> ids_increasing (map f l).
Proof.
  intros Hf. induction l as [|a l IH]; simpl; [done|]. intros [Ha Hl]. split; [|by apply IH].
  apply Forall_map. rewrite Hf. eapply Forall_impl; [done|]. intros r. by rewrite Hf.
Qed.

Lemma db_wf_create d dc xu : db_wf d -> db_wf (db_Create d dc xu).2.
Proof.
  intros [Hinc Hlt]. split; simpl.
  - by apply ids_increasing_snoc.
  - apply Forall_app. split; [|constructor; simpl; [lia|done]].
    eapply Forall_impl; [done|]. simpl. lia.
Qed.

Lemma db_wf_delete d cond : db_wf d -> db_wf (db_Delete d cond).
Proof.
  intros [Hinc Hlt]. split; simpl.
  - apply ids_increasing_map; [intros r; by destruct (live r && cond r)|done].
  - apply Forall_map. eapply Forall_impl; [done|]. intros r. by destruct (live r && cond r).
Qed.

Lemma repo_step_abs d d' :
  repo_step d d' ->
  (exists dc xu, abs d' = (spec_create (abs d) dc xu).2) \/
  (exists p, abs d' = (spec_delete (abs d) p).2).
Proof.
  intros []; [left|right|right].
  - exists discordId, xuid. by rewrite <-CreateUser_refines.
  - exists (has_discord discordId). by rewrite <-DeleteUserByDiscord_refines.
  - exists (has_xuid xuid). by rewrite <-DeleteUserByXUID_refines.
Qed.

Lemma repo_step_wf d d' : repo_step d d' -> db_wf d -> db_wf d'.
Proof.
  intros [] Hwf.
  - unfold CreateUser. destruct (db_First _ _); [done|]. by apply db_wf_create.
  - unfold DeleteUserByDiscord. destruct (GetUserByDiscord _ _); [by apply db_wf_delete|done].
  - unfold DeleteUserByXUID. destruct (GetUserByXUID _ _); [by apply db_wf_delete|done].
Qed.

Lemma repo_step_unique d d' : repo_step d d' -> unique_bindings (abs d) -> unique_bindings (abs d').
Proof.
  intros Hstep Hu. destruct (repo_step_abs d d' Hstep) as [(dc & xu & ->)|(p & ->)].
  - by apply spec_create_unique.
  - by apply spec_delete_unique.
Qed.

(** C5: in every table reachable through the repository's operations
    a chat identity is bound to at most one game identity and conversely,
    and the rows stay in increasing [ID] order (so that gorm's [First] is
    the first live match). *)
Theorem reachable_unique_bindings d : reachable d -> unique_bindings (abs d) /\ db_wf d.
Proof.
  induction 1 as [|d d' Hr [IHu IHw] Hstep].
  - split; [split; constructor|split; constructor].
  - split; [by eapply repo_step_unique|by eapply repo_step_wf].
Qed.

Lemma CreateUser_conflict d dc xu :
  existsb (fun u => has_discord dc u || has_xuid xu u) (abs d) = true ->
  CreateUser d dc xu = (Err errAlreadyBound, d).
Proof.
  rewrite existsb_find, <-(db_First_abs d (fun u => has_discord dc u || has_xuid xu u)).
  unfold CreateUser.
  change (fun r => by_discord dc r || by_xuid xu r)
    with (fun r => has_discord dc (ToUser r) || has_xuid xu (ToUser r)).
  by destruct (db_First d _).
Qed.

(** C21: after a binding of [dc] and [xu] is created, a second
    [CreateUser] with the same chat identity, or with the same game
    identity, fails with [40000] and leaves the table unchanged. *)
Theorem CreateUser_twice d dc xu u d1 other :
  CreateUser d dc xu = (Ok u, d1) ->
  CreateUser d1 dc other = (Err errAlreadyBound, d1) /\
  CreateUser d1 other xu = (Err errAlreadyBound, d1).
Proof.
  intros H. pose proof (CreateUser_refines d dc xu) as R. rewrite H in R.
  unfold spec_create in R. destruct (existsb _ (abs d)); [done|].
  injection R as _ Habs.
  split; apply CreateUser_conflict; rewrite Habs, existsb_app; simpl;
    autorewrite with go_rw; by rewrite ?orb_true_r.
Qed.

(** ** Live-row equivalence

    Soft-deleted rows and row [ID]s are invisible to every operation: the
    operations are morphisms for [db_equiv], so an equivalence between two
    tables can be rewritten under them. *)

#[export] Instance db_equiv_Equivalence : Equivalence db_equiv.
Proof. unfold db_equiv. split; repeat intro; congruence. Qed.

#[export] Instance GetUserByDiscord_Proper : Proper (db_equiv ==> eq ==> eq) GetUserByDiscord.
Proof. intros d1 d2 Hd x ? <-. by rewrite !GetUserByDiscord_refines, Hd. Qed.

#[export] Instance GetUserByXUID_Proper : Proper (db_equiv ==> eq ==> eq) GetUserByXUID.
Proof. intros d1 d2 Hd x ? <-. by rewrite !GetUserByXUID_refines, Hd. Qed.

Lemma refines_Proper {A} (op : db -> res goerror A * db) (spec : list User -> res goerror A * list User) d1 d2 :
  (forall d, ((op d).1, abs (op d).2) = spec (abs d)) -> db_equiv d1 d2 ->
  prod_relation eq db_equiv (op d1) (op d2).
Proof.
  intros Hr Hd. pose proof (Hr d1) as H1. pose proof (Hr d2) as H2.
  unfold db_equiv in *. rewrite Hd, <-H2 in H1. injection H1 as E1 E2. by split.
Qed.

#[export] Instance CreateUser_Proper :
  Proper (db_equiv ==> eq ==> eq ==> prod_relation eq db_equiv) CreateUser.
Proof.
  intros d1 d2 Hd x ? <- y ? <-.
  apply (refines_Proper (fun d => CreateUser d x y) (fun B => spec_create B x y)); [|done].
  intros d. apply CreateUser_refines.
Qed.

#[export] Instance DeleteUserByDiscord_Proper :
  Proper (db_equiv ==> eq ==> prod_relation eq db_equiv) DeleteUserByDiscord.
Proof.
  intros d1 d2 Hd x ? <-.
  apply (refines_Proper (fun d => DeleteUserByDiscord d x) (fun B => spec_delete B (has_discord x)));
    [|done].
  intros d. apply DeleteUserByDiscord_refines.
Qed.

#[export] Instance DeleteUserByXUID_Proper :
  Proper (db_equiv ==> eq ==> prod_relation eq db_equiv) DeleteUserByXUID.
Proof.
  intros d1 d2 Hd x ? <-.
  apply (refines_Proper (fun d => DeleteUserByXUID d x) (fun B => spec_delete B (has_xuid x)));
    [|done].
  intros d. apply DeleteUserByXUID_refines.
Qed.

(** Unbinding by the chat identity right after a
    successful bind succeeds and gives back a table equivalent to the one
    before the bind (only the soft-deleted row remains). *)
Lemma unbind_after_bind d dc xu u d1 :
  CreateUser d dc xu = (Ok u, d1) ->
  (DeleteUserByDiscord d1 dc).1 = Ok tt /\ db_equiv (DeleteUserByDiscord d1 dc).2 d.
Proof.
  intros H. pose proof (CreateUser_refines d dc xu) as R. rewrite H in R.
  unfold spec_create in R. destruct (existsb _ (abs d)) eqn:He; [done|].
  injection R as _ Habs.
  pose proof (DeleteUserByDiscord_refines d1 dc) as D. rewrite Habs in D.
  unfold spec_delete in D.
  rewrite find_app, (find_none_intro (has_discord dc) (abs d)) in D.
  2:{ intros v Hv. pose proof (existsb_false_forall _ _ v He Hv) as Hf.
      by apply orb_false_iff in Hf as [-> _]. }
  simpl in D. rewrite has_discord_self in D.
  injection D as -> D. split; [done|]. unfold db_equiv. rewrite D, List.filter_app.
  simpl. rewrite has_discord_self, app_nil_r.
  apply forallb_filter_id. apply forallb_forall. intros v Hv.
  apply list_elem_of_In in Hv. pose proof (existsb_false_forall _ _ v He Hv) as Hf.
  apply orb_false_iff in Hf as [-> _]. done.
Qed.

(** After [DeleteUserByDiscord x] succeeds on a table whose
    bindings are unique, neither the chat identity nor the game identity it
    was bound to has a binding any more. *)
Lemma DeleteUserByDiscord_unbinds d x u :
  unique_bindings (abs d) -> GetUserByDiscord d x = Ok u ->
  let d' := (DeleteUserByDiscord d x).2 in
  (DeleteUserByDiscord d x).1 = Ok tt /\
  GetUserByDiscord d' x = Err errUserNotFound /\
  GetUserByXUID d' (XUID u) = Err errUserNotFound.
Proof.
  intros [_ Huniq] Hg d'.
  rewrite GetUserByDiscord_refines in Hg. unfold spec_get in Hg.
  destruct (List.find _ _) as [u'|] eqn:Hf; [injection Hg as ->|done].
  pose proof (DeleteUserByDiscord_refines d x) as D. unfold spec_delete in D. rewrite Hf in D.
  injection D as -> D. subst d'.
  apply find_some_elem in Hf as [Hu Hux].
  rewrite GetUserByDiscord_refines, GetUserByXUID_refines, D. unfold spec_get.
  rewrite !find_none_intro; [done| |].
  - intros v [Hv Hnx]%elem_of_filter_bool. apply negb_true_iff in Hnx.
    unfold has_xuid. apply string_eqb_false. intros Hxv.
    assert (v = u) as -> by (by apply (NoDup_map_eq XUID (abs d))). congruence.
  - intros v [_ Hnx]%elem_of_filter_bool. by apply negb_true_iff in Hnx.
Qed.

(** C31: after a successful bind of [dc] and [xu] and the
    unbind of [dc], the repository answers every query as before the bind:
    lookups by either identity and later creations give the same results. *)
Theorem bind_unbind_observations d dc xu u d1 :
  CreateUser d dc xu = (Ok u, d1) ->
  let d2 := (DeleteUserByDiscord d1 dc).2 in
  (DeleteUserByDiscord d1 dc).1 = Ok tt /\
  (forall x, GetUserByXUID d2 x = GetUserByXUID d x) /\
  (forall x, GetUserByDiscord d2 x = GetUserByDiscord d x) /\
  (forall a b, (CreateUser d2 a b).1 = (CreateUser d a b).1).
Proof.
  intros H d2. destruct (unbind_after_bind d dc xu u d1 H) as [Hok Heq]. subst d2.
  split_and!; [done|intros x; by rewrite Heq|intros x; by rewrite Heq|].
  intros a b. by destruct (CreateUser_Proper _ _ Heq a a eq_refl b b eq_refl).
Qed.

(** C25: the default repository implements the contract of the design
    notes: each of its five operations, observed through the live
    bindings, is the corresponding operation on the list of bindings. *)
Theorem defaultRepository_refines d dc xu :
  GetUserByDiscord d dc = spec_get (abs d) (has_discord dc) /\
  GetUserByXUID d xu = spec_get (abs d) (has_xuid xu) /\
  ((CreateUser d dc xu).1, abs (CreateUser d dc xu).2) = spec_create (abs d) dc xu /\
  ((DeleteUserByDiscord d dc).1, abs (DeleteUserByDiscord d dc).2) = spec_delete (abs d) (has_discord dc) /\
  ((DeleteUserByXUID d xu).1, abs (DeleteUserByXUID d xu).2) = spec_delete (abs d) (has_xuid xu).
Proof.
  split_and!; [apply GetUserByDiscord_refines|apply GetUserByXUID_refines|apply CreateUser_refines
              |apply DeleteUserByDiscord_refines|apply DeleteUserByXUID_refines].
Qed.

(** ** What a client of the [Repository] interface relies on *)
Class RepositoryLaws (R : Type) `{!Repository R} := {
  repo_create_ok r dc xu u r' :
    repo_CreateUser r dc xu = (Ok u, r') ->
    u = mkUser dc xu /\ repo_GetUserByDiscord r' dc = Ok u /\ repo_GetUserByXUID r' xu = Ok u;
  repo_create_err r dc xu e r' :
    repo_CreateUser r dc xu = (Err e, r') -> r' = r
}.

Lemma spec_get_last B p u :
  (forall v, v ∈ B -> p v = false) -> p u = true -> spec_get (B ++ [u]) p = Ok u.
Proof.
  intros HB Hu. unfold spec_get. rewrite find_app, find_none_intro by done. simpl. by rewrite Hu.
Qed.

#[export] Instance defaultRepository_laws : RepositoryLaws Repo.db.
Proof.
  split; simpl.
  - intros r dc xu u r' H. pose proof (CreateUser_refines r dc xu) as R. rewrite H in R.
    unfold spec_create in R. destruct (existsb _ (abs r)) eqn:He; [done|].
    injection R as Hu Habs. subst u. split; [done|].
    rewrite GetUserByDiscord_refines, GetUserByXUID_refines, Habs.
    split; (apply spec_get_last; [|apply has_discord_self || apply has_xuid_self]);
      intros v Hv; pose proof (existsb_false_forall _ _ v He Hv) as Hf;
      apply orb_false_iff in Hf as [? ?]; done.
  - intros r dc xu e r'. unfold CreateUser. destruct (db_First _ _); [by intros [= _ <-]|].
    destruct (db_Create _ _ _). done.
Qed.

(** ** Witnesses at concrete inputs *)

Lemma reachable_unique_bindings_witness :
  unique_bindings (abs (DeleteUserByXUID example_db "XUID-1")%string.2) /\
  db_wf (DeleteUserByXUID example_db "XUID-1")%string.2.
Proof.
  apply reachable_unique_bindings. eapply reach_step; [|constructor].
  eapply reach_step; [constructor|constructor].
Defined.

Lemma CreateUser_twice_witness :
  CreateUser example_db "disc-1" "XUID-2" = (Err errAlreadyBound, example_db) /\
  CreateUser example_db "disc-2" "XUID-1" = (Err errAlreadyBound, example_db).
Proof.
  split.
  - apply (CreateUser_twice empty_db "disc-1" "XUID-1" (mkUser "disc-1" "XUID-1") example_db "XUID-2").
    reflexivity.
  - apply (CreateUser_twice empty_db "disc-1" "XUID-1" (mkUser "disc-1" "XUID-1") example_db "disc-2").
    reflexivity.
Defined.

Lemma bind_unbind_observations_witness :
  let d2 := (DeleteUserByDiscord example_db "disc-1").2 in
  (DeleteUserByDiscord example_db "disc-1").1 = Ok tt /\
  (forall x, GetUserByXUID d2 x = GetUserByXUID empty_db x) /\
  (forall x, GetUserByDiscord d2 x = GetUserByDiscord empty_db x) /\
  (forall a b, (CreateUser d2 a b).1 = (CreateUser empty_db a b).1).
Proof.
  apply (bind_unbind_observations empty_db "disc-1" "XUID-1" (mkUser "disc-1" "XUID-1") example_db).
  reflexivity.
Defined.
