(* ===== verification/Service.v ===== *)
(** * Binding Service: [src/server/service.go]

    [Service] is written once, against the two Go interfaces ([CodeStore],
    [Repository]); its theorems use only the interface laws.  A handler
    registered with [AddHandler] is a Go callback [func(user *User)]: its
    effect on the rest of the program is a function on an abstract world
    [W], threaded through [CreateUser]. *)

From S2P Require Import Prelude Errors CodeStore Repository.

Open Scope string_scope.

Section Service.
Context {CS Env R W : Type} `{!CodeStore CS Env} `{!Repository R}.

(** [type NewUserHandler func(user *User)] *)
Definition NewUserHandler : Type := Repo.User -> W -> W.

(** [type Service struct { repo Repository; codeStr CodeStore; handlers []NewUserHandler }] *)
Record Service := mkService {
  repo : R;
  codeStr : CS;
  handlers : list NewUserHandler
}.

(** [func NewService(repo Repository, codeStr CodeStore) *Service] *)
Definition NewService (r : R) (c : CS) : Service := mkService r c [].

(** [func (s *Service) AddHandler(handler NewUserHandler)]: append. *)
Definition AddHandler (s : Service) (h : NewUserHandler) : Service :=
  mkService (repo s) (codeStr s) (handlers s ++ [h])%list.

(** [func (s *Service) IssueCode(xuid string)]: refuse a bound game
    identity before touching the code store. *)
Definition IssueCode (s : Service) (env : Env) (xuid : string)
    : outcome goerror (res goerror (option CodeInformation)) * Service :=
  match repo_GetUserByXUID (repo s) xuid with
  | Ok existing =>
      (Normal (Err (EApp (NewApplicationError 40000
                ("Minecraft account is already bound to ID " ++ Repo.Discord existing)))), s)
  | Err _ =>
      let '(r, c') := cs_Issue (codeStr s) env xuid in
      (r, mkService (repo s) c' (handlers s))
  end.

(** [func (s *Service) CheckCode(code string)] *)
Definition CheckCode (s : Service) (code : string) : res goerror CodeInformation :=
  match cs_GetInformation (codeStr s) code with
  | Err e => Err e
  | Ok info => Ok info
  end.

(** [func (s *Service) RevokeCode(code string) error] *)
Definition RevokeCode (s : Service) (code : string) : res goerror unit * Service :=
  let '(r, c') := cs_Revoke (codeStr s) code in
  (r, mkService (repo s) c' (handlers s)).

(** [func (s *Service) GetUserByXUID(xuid string)] *)
Definition GetUserByXUID (s : Service) (xuid : string) : res goerror Repo.User :=
  repo_GetUserByXUID (repo s) xuid.

(** [func (s *Service) GetUserByDiscord(discord string)] *)
Definition GetUserByDiscord (s : Service) (discord : string) : res goerror Repo.User :=
  repo_GetUserByDiscord (repo s) discord.

(** [for _, handler := range s.handlers { handler(user) }] *)
Definition run_handlers (hs : list NewUserHandler) (u : Repo.User) (w : W) : W :=
  fold_left (fun w h => h u w) hs w.

(** [func (s *Service) CreateUser(discord, xuid string)]: the handlers
    run, in registration order, only after a successful creation. *)
Definition CreateUser (s : Service) (w : W) (discord xuid : string)
    : res goerror Repo.User * Service * W :=
  let '(r, repo') := repo_CreateUser (repo s) discord xuid in
  let s' := mkService repo' (codeStr s) (handlers s) in
  match r with
  | Err e => (Err e, s', w)
  | Ok user => (Ok user, s', run_handlers (handlers s) user w)
  end.

(** [func (s *Service) DeleteUserByDiscord(discord string) error] *)
Definition DeleteUserByDiscord (s : Service) (discord : string) : res goerror unit * Service :=
  let '(r, repo') := repo_DeleteUserByDiscord (repo s) discord in
  (r, mkService repo' (codeStr s) (handlers s)).

(** [func (s *Service) DeleteUserByXUID(xuid string) error] *)
Definition DeleteUserByXUID (s : Service) (xuid : string) : res goerror unit * Service :=
  let '(r, repo') := repo_DeleteUserByXUID (repo s) xuid in
  (r, mkService repo' (codeStr s) (handlers s)).

End Service.

Arguments Service : clear implicits.
Arguments NewUserHandler : clear implicits.

Close Scope string_scope.

Section ServiceFacts.
Context {CS Env R W : Type} `{!CodeStore CS Env} `{!Repository R}.
Implicit Types (s : Service CS R W) (w : W).

(** Registering one more handler appends its effect after the
    effects of the handlers registered before, and only when the binding
    is created: handlers run once each, in registration order, and never
    on failure. *)
Theorem CreateUser_AddHandler s h w dc xu :
  CreateUser (AddHandler s h) w dc xu =
    let '(r, s', w') := CreateUser s w dc xu in
    (r, AddHandler s' h, match r with Ok u => h u w' | Err _ => w' end).
Proof.
  unfold CreateUser, AddHandler. simpl.
  destruct (repo_CreateUser (repo s) dc xu) as [[u|e] r']; simpl; [|done].
  unfold run_handlers. by rewrite fold_left_app.
Qed.

End ServiceFacts.

Section DefaultService.
Context {W : Type}.
Implicit Types (s : Service Default.defaultCodeStore Repo.db W).
Import Default.

Lemma IssueCode_default_fresh s env xuid code rest :
  store_wf (codeStr s) ->
  (forall k i, codes (codeStr s) !! k = Some i -> XUID i <> xuid) ->
  (forall u, u ∈ Repo.abs (repo s) -> Repo.XUID u <> xuid) ->
  findFreeCode (codeStr s) (env_rand env) = Normal (code, rest) ->
  IssueCode s env xuid =
    (Normal (Ok (<[code := issued_info env code xuid]> (codes (codeStr s)) !! xuid)),
     mkService (repo s)
                      (mkStore (<[code := issued_info env code xuid]> (codes (codeStr s))))
                      (handlers s)).
Proof.
  intros Hwf Hno Hnb Hff. unfold IssueCode. simpl.
  rewrite GetUserByXUID_refines. unfold Repo.spec_get.
  rewrite find_none_intro by (intros u Hu; by apply string_eqb_false, Hnb).
  unfold Issue. rewrite GetForXuid_none by done. by rewrite Hff.
Qed.

Lemma CheckCode_default s c : CheckCode s c = GetInformation (codeStr s) c.
Proof. unfold CheckCode. simpl. by destruct (GetInformation _ _). Qed.

End DefaultService.
