(* ===== verification/Bot.v ===== *)
(** * Chat command layer: [src/server/bot.go]

    The two slash commands registered by [RegisterCommands] and the
    interaction callback that dispatches them.  The Discord session and
    the command registration are I/O and are not modelled; an interaction
    is the record of what the handlers read from it.  The handlers are
    written against [Service], so their theorems hold for every
    implementation satisfying the interface laws. *)

From S2P Require Import Prelude Errors CodeStore Repository Service.

Open Scope string_scope.

(** What the handlers read from [*discordgo.InteractionCreate]: the command
    name, the options in the order Discord sends them, and
    [i.Member.User.ID]; [i.Member] is nil for an interaction outside a guild. *)
Record InteractionCreate := mkInteraction {
  cmd_name : string;
  cmd_options : list (string * string);
  member_user_id : option string
}.

(** [optionMap[opt.Name] = opt] over the options: the last one wins. *)
Definition option_map_of (opts : list (string * string)) : gmap string string :=
  fold_left (fun m kv => <[kv.1 := kv.2]> m) opts ∅.

(** The reply for a failed call: [err.Error()] when [errors.As] finds an
    [ApplicationError], a fixed text otherwise. *)
Definition reply_error (e : goerror) : string :=
  match errors_As_ApplicationError e with
  | Some _ => Error e
  | None => "Something went wrong"
  end.

Section Bot.
Context {CS Env R W : Type} `{!CodeStore CS Env} `{!Repository R}.
Implicit Types (s : Service CS R W) (w : W).

(** The ["bind"] handler: [CheckCode], then [CreateUser] with the caller's
    chat identity and the code's game identity, then [RevokeCode] (its
    error is ignored).  [options["code"]] and [i.Member] are dereferenced
    where the Go code does: the option first, the member after the code
    check. *)
Definition bind_handler s w (member : option string) (code : option string)
    : outcome goerror string * Service CS R W * W :=
  match code with
  | None => (Panicking ENilDeref, s, w)
  | Some c =>
      match CheckCode s c with
      | Err e => (Normal (reply_error e), s, w)
      | Ok codeInfo =>
          match member with
          | None => (Panicking ENilDeref, s, w)
          | Some discordId =>
              let '(r, s1, w1) := CreateUser s w discordId (XUID codeInfo) in
              match r with
              | Err e => (Normal (reply_error e), s1, w1)
              | Ok _ =>
                  let '(_, s2) := RevokeCode s1 (Code codeInfo) in
                  (Normal "Binding has been created successfully", s2, w1)
              end
          end
      end
  end.

(** The ["unbind"] handler. *)
Definition unbind_handler s (member : option string) : outcome goerror string * Service CS R W :=
  match member with
  | None => (Panicking ENilDeref, s)
  | Some discordId =>
      let '(r, s') := DeleteUserByDiscord s discordId in
      match r with
      | Err e => (Normal (reply_error e), s')
      | Ok _ => (Normal "Binding has been removed successfully", s')
      end
  end.

(** The callback given to [b.api.AddHandler]: [None] when no handler has
    the command's name (no response is sent), otherwise the content of
    the response, or the panic of the handler. *)
Definition on_interaction s w (i : InteractionCreate)
    : option (outcome goerror string) * Service CS R W * W :=
  let optionMap := option_map_of (cmd_options i) in
  if String.eqb (cmd_name i) "bind" then
    let '(o, s', w') := bind_handler s w (member_user_id i) (optionMap !! "code") in
    (Some o, s', w')
  else if String.eqb (cmd_name i) "unbind" then
    let '(o, s') := unbind_handler s (member_user_id i) in
    (Some o, s', w)
  else (None, s, w).

End Bot.

(** Concrete services for the witnesses: the default implementations with
    the code ["012345"] issued for ["XUID-1"], over an empty table and over
    the table binding ["disc-1"] to ["XUID-1"]. *)
Definition example_service : Service Default.defaultCodeStore Repo.db unit :=
  NewService Repo.empty_db Default.example_store.

Definition example_bound_service : Service Default.defaultCodeStore Repo.db unit :=
  NewService Repo.example_db Default.example_store.

Close Scope string_scope.

Section BotFacts.
Context {CS Env R W : Type} `{!CodeStore CS Env} `{!CodeStoreLaws CS Env}
        `{!Repository R} `{!RepositoryLaws R}.
Implicit Types (s : Service CS R W) (w : W).

Lemma CreateUser_ok s w dc xu u s1 w1 :
  CreateUser s w dc xu = (Ok u, s1, w1) ->
  u = Repo.mkUser dc xu /\ codeStr s1 = codeStr s /\ handlers s1 = handlers s /\
  w1 = run_handlers (handlers s) u w /\
  GetUserByDiscord s1 dc = Ok u /\ GetUserByXUID s1 xu = Ok u.
Proof.
  unfold CreateUser. destruct (repo_CreateUser (repo s) dc xu) as [[u'|e] r'] eqn:Hc;
    intros; simplify_eq/=.
  apply repo_create_ok in Hc as (-> & H1 & H2). done.
Qed.

Lemma CreateUser_err s w dc xu e s1 w1 :
  CreateUser s w dc xu = (Err e, s1, w1) -> s1 = s /\ w1 = w.
Proof.
  unfold CreateUser. destruct (repo_CreateUser (repo s) dc xu) as [[u'|e'] r'] eqn:Hc;
    intros; simplify_eq/=.
  apply repo_create_err in Hc as ->. by destruct s.
Qed.

(** C3: a ["bind"] with a stored code, by a chat identity for which
    the binding can be created, answers success, binds the chat identity
    to the code's game identity, runs the handlers once, and consumes the
    code while every other code stays as it was. *)
Theorem bind_success s w member code info u s1 w1 :
  cs_inv (codeStr s) ->
  CheckCode s code = Ok info ->
  CreateUser s w member (XUID info) = (Ok u, s1, w1) ->
  exists s2,
    bind_handler s w (Some member) (Some code)
      = (Normal "Binding has been created successfully"%string, s2, w1) /\
    w1 = run_handlers (handlers s) u w /\
    u = Repo.mkUser member (XUID info) /\
    GetUserByDiscord s2 member = Ok u /\ GetUserByXUID s2 (XUID info) = Ok u /\
    (exists e, CheckCode s2 code = Err e) /\
    (forall c', c' <> code -> CheckCode s2 c' = CheckCode s c').
Proof.
  intros Hinv Hchk Hcre.
  assert (Hgi : cs_GetInformation (codeStr s) code = Ok info)
    by (unfold CheckCode in Hchk; by destruct (cs_GetInformation _ _)).
  pose proof (cs_info_code _ _ _ Hinv Hgi) as Hcode.
  destruct (CreateUser_ok _ _ _ _ _ _ _ Hcre) as (-> & Hc1 & Hh1 & Hw1 & Hd1 & Hx1).
  unfold bind_handler. rewrite Hchk, Hcre, Hcode.
  unfold RevokeCode. rewrite <-Hc1 in Hgi.
  destruct (cs_revoke_found _ _ _ Hgi) as (R1 & [e Re] & Rother).
  destruct (cs_Revoke (codeStr s1) code) as [r c'] eqn:Hrev. simpl in *.
  eexists. split_and!; [done|done|done| | |exists e| ].
  - exact Hd1.
  - exact Hx1.
  - unfold CheckCode. simpl. by rewrite Re.
  - intros c2 Hne. unfold CheckCode. simpl. rewrite (Rother c2 Hne), Hc1. done.
Qed.

(** C4: when the binding cannot be created (either identity
    already bound), the ["bind"] handler answers with the error and leaves
    every state as it was; in particular the code is not revoked, so the
    user may try again. *)
Theorem bind_create_fails s w member code info e s1 w1 :
  CheckCode s code = Ok info ->
  CreateUser s w member (XUID info) = (Err e, s1, w1) ->
  bind_handler s w (Some member) (Some code) = (Normal (reply_error e), s, w).
Proof.
  intros Hchk Hcre. unfold bind_handler. rewrite Hchk, Hcre.
  by destruct (CreateUser_err _ _ _ _ _ _ _ Hcre) as [-> ->].
Qed.

(** C39: [i.Member] is nil for an interaction outside a guild; a
    ["bind"] there with a valid code dereferences it and panics, and
    discordgo does not recover handler panics. *)
Theorem bind_outside_guild_panics s w code info opts :
  CheckCode s code = Ok info ->
  option_map_of opts !! "code"%string = Some code ->
  on_interaction s w (mkInteraction "bind" opts None) = (Some (Panicking ENilDeref), s, w).
Proof.
  intros Hchk Hopt. unfold on_interaction. simpl. rewrite Hopt.
  unfold bind_handler. by rewrite Hchk.
Qed.

End BotFacts.

Section EndToEnd.
Context {W : Type}.
Implicit Types (s : Service Default.defaultCodeStore Repo.db W) (w : W).
Import Default.

Lemma CreateUser_default_fresh (d : Repo.db) dc xu :
  (forall u, u ∈ Repo.abs d -> Repo.Discord u <> dc /\ Repo.XUID u <> xu) ->
  Repo.CreateUser d dc xu = (Ok (Repo.mkUser dc xu), (Repo.CreateUser d dc xu).2) /\
  Repo.abs (Repo.CreateUser d dc xu).2 = Repo.abs d ++ [Repo.mkUser dc xu].
Proof.
  intros Hfree. pose proof (CreateUser_refines d dc xu) as R. unfold Repo.spec_create in R.
  rewrite (proj2 (existsb_false_iff' _ _)) in R.
  - injection R as R1 R2. split; [|done]. by rewrite <-R1, <-surjective_pairing.
  - intros u Hu. destruct (Hfree u Hu) as [H1 H2].
    apply orb_false_iff. split; by apply string_eqb_false.
Qed.

Lemma bind_handler_default s w dc code info :
  codes (codeStr s) !! code = Some info -> Code info = code ->
  (forall u, u ∈ Repo.abs (repo s) -> Repo.Discord u <> dc /\ Repo.XUID u <> XUID info) ->
  bind_handler s w (Some dc) (Some code) =
    (Normal "Binding has been created successfully"%string,
     mkService (Repo.CreateUser (repo s) dc (XUID info)).2
               (mkStore (delete code (codes (codeStr s)))) (handlers s),
     run_handlers (handlers s) (Repo.mkUser dc (XUID info)) w).
Proof.
  intros Hc Hcode Hfree. unfold bind_handler, CheckCode. simpl.
  unfold GetInformation. rewrite Hc.
  destruct (CreateUser_default_fresh (repo s) dc (XUID info) Hfree) as [Hcre _].
  unfold CreateUser. simpl. rewrite Hcre. unfold RevokeCode. simpl.
  unfold Revoke, GetInformation. simpl. rewrite Hcode, Hc. done.
Qed.

(** C1: the scenario of the design notes, from any well-formed state in
    which the game identity has no code and neither identity is bound:
    [IssueCode] stores a fresh code [code] for the subject; ["bind"] with
    it by [discordId] succeeds, binds [discordId] to the subject, runs the
    handlers and consumes the code; a new [IssueCode] for the subject is
    refused with a message naming [discordId]; ["unbind"] by [discordId]
    succeeds, after which the subject has no binding. *)
Theorem bind_flow_end_to_end s w env env' xuid discordId code rest :
  store_wf (codeStr s) -> Repo.unique_bindings (Repo.abs (repo s)) ->
  (forall k i, codes (codeStr s) !! k = Some i -> XUID i <> xuid) ->
  (forall u, u ∈ Repo.abs (repo s) -> Repo.Discord u <> discordId /\ Repo.XUID u <> xuid) ->
  findFreeCode (codeStr s) (env_rand env) = Normal (code, rest) ->
  let s1 := (IssueCode s env xuid).2 in
  CheckCode s1 code = Ok (issued_info env code xuid) /\
  let '(o2, s2, w2) := bind_handler s1 w (Some discordId) (Some code) in
  o2 = Normal "Binding has been created successfully"%string /\
  w2 = run_handlers (handlers s) (Repo.mkUser discordId xuid) w /\
  GetUserByXUID s2 xuid = Ok (Repo.mkUser discordId xuid) /\
  CheckCode s2 code = Err errCodeMissing /\
  (IssueCode s2 env' xuid).1 = Normal (Err (EApp (NewApplicationError 40000
      ("Minecraft account is already bound to ID " ++ discordId)%string))) /\
  (unbind_handler s2 (Some discordId)).1 = Normal "Binding has been removed successfully"%string /\
  GetUserByXUID (unbind_handler s2 (Some discordId)).2 xuid = Err Repo.errUserNotFound.
Proof.
  intros Hwf Huniq Hno Hfree Hff s1.
  pose proof (IssueCode_default_fresh s env xuid code rest Hwf Hno) as Hissue.
  specialize (Hissue (fun u Hu => proj2 (Hfree u Hu)) Hff).
  subst s1. rewrite Hissue. cbn [snd].
  set (s1 := mkService (repo s) (mkStore (<[code:=issued_info env code xuid]> (codes (codeStr s))))
                       (handlers s)).
  split.
  { rewrite CheckCode_default. subst s1. unfold GetInformation. simpl. by rewrite lookup_insert_eq. }
  rewrite (bind_handler_default s1 w discordId code (issued_info env code xuid));
    [|subst s1; simpl; by rewrite lookup_insert_eq|done|subst s1; simpl; exact Hfree].
  subst s1. simpl.
  destruct (CreateUser_default_fresh (repo s) discordId xuid Hfree) as [_ Habs].
  set (d2 := (Repo.CreateUser (repo s) discordId xuid).2) in *.
  assert (Hu2 : Repo.unique_bindings (Repo.abs d2)).
  { pose proof (CreateUser_refines (repo s) discordId xuid) as R.
    apply (f_equal snd) in R. simpl in R. subst d2. rewrite R. by apply spec_create_unique. }
  assert (Hd2 : Repo.GetUserByDiscord d2 discordId = Ok (Repo.mkUser discordId xuid)).
  { rewrite GetUserByDiscord_refines, Habs. apply spec_get_last; [|apply has_discord_self].
    intros v Hv. by apply string_eqb_false, Hfree. }
  assert (Hx2 : Repo.GetUserByXUID d2 xuid = Ok (Repo.mkUser discordId xuid)).
  { rewrite GetUserByXUID_refines, Habs. apply spec_get_last; [|apply has_xuid_self].
    intros v Hv. by apply string_eqb_false, Hfree. }
  destruct (DeleteUserByDiscord_unbinds d2 discordId _ Hu2 Hd2) as (Hdel & _ & Hgone).
  split_and!; try done.
  - rewrite CheckCode_default. simpl. unfold GetInformation. simpl.
    by rewrite lookup_delete_eq.
  - unfold IssueCode. simpl. by rewrite Hx2.
  - unfold unbind_handler, DeleteUserByDiscord. simpl.
    destruct (Repo.DeleteUserByDiscord d2 discordId). simpl in *. by subst.
  - unfold unbind_handler, DeleteUserByDiscord. simpl.
    destruct (Repo.DeleteUserByDiscord d2 discordId). simpl in *. by subst.
Qed.

End EndToEnd.

(** ** Witnesses at concrete inputs *)

Lemma bind_success_witness :
  exists s2,
    bind_handler example_service tt (Some "disc-1") (Some "012345")
      = (Normal "Binding has been created successfully"%string, s2, tt) /\
    tt = run_handlers (handlers example_service) (Repo.mkUser "disc-1" "XUID-1") tt /\
    Repo.mkUser "disc-1" "XUID-1" = Repo.mkUser "disc-1" (XUID (Default.issued_info Default.example_env "012345" "XUID-1")) /\
    GetUserByDiscord s2 "disc-1" = Ok (Repo.mkUser "disc-1" "XUID-1") /\
    GetUserByXUID s2 (XUID (Default.issued_info Default.example_env "012345" "XUID-1"))
      = Ok (Repo.mkUser "disc-1" "XUID-1") /\
    (exists e, CheckCode s2 "012345" = Err e) /\
    (forall c', c' <> "012345"%string -> CheckCode s2 c' = CheckCode example_service c').
Proof.
  eapply (bind_success example_service tt "disc-1" "012345"
            (Default.issued_info Default.example_env "012345" "XUID-1")
            (Repo.mkUser "disc-1" "XUID-1")).
  - apply store_wfb_spec. vm_compute. reflexivity.
  - vm_compute. reflexivity.
  - vm_compute. reflexivity.
Defined.

Lemma bind_create_fails_witness :
  bind_handler example_bound_service tt (Some "disc-1") (Some "012345")
    = (Normal (reply_error Repo.errAlreadyBound), example_bound_service, tt).
Proof.
  eapply (bind_create_fails example_bound_service tt "disc-1" "012345"
            (Default.issued_info Default.example_env "012345" "XUID-1")).
  - vm_compute. reflexivity.
  - vm_compute. reflexivity.
Defined.

Lemma bind_outside_guild_panics_witness :
  on_interaction example_service tt (mkInteraction "bind" [("code", "012345")]%string None)
    = (Some (Panicking ENilDeref), example_service, tt).
Proof.
  apply (bind_outside_guild_panics example_service tt "012345"
           (Default.issued_info Default.example_env "012345" "XUID-1")).
  - vm_compute. reflexivity.
  - reflexivity.
Defined.

Lemma bind_flow_end_to_end_witness :
  let s : Service Default.defaultCodeStore Repo.db unit :=
    NewService Repo.empty_db Default.newDefaultCodeStore in
  let s1 := (IssueCode s Default.example_env "XUID-1").2 in
  CheckCode s1 "012345" = Ok (Default.issued_info Default.example_env "012345" "XUID-1") /\
  let '(o2, s2, w2) := bind_handler s1 tt (Some "disc-1") (Some "012345") in
  o2 = Normal "Binding has been created successfully"%string /\
  w2 = run_handlers (handlers s) (Repo.mkUser "disc-1" "XUID-1") tt /\
  GetUserByXUID s2 "XUID-1" = Ok (Repo.mkUser "disc-1" "XUID-1") /\
  CheckCode s2 "012345" = Err Default.errCodeMissing /\
  (IssueCode s2 Default.example_env "XUID-1").1 = Normal (Err (EApp (NewApplicationError 40000
      ("Minecraft account is already bound to ID " ++ "disc-1")%string))) /\
  (unbind_handler s2 (Some "disc-1")).1 = Normal "Binding has been removed successfully"%string /\
  GetUserByXUID (unbind_handler s2 (Some "disc-1")).2 "XUID-1" = Err Repo.errUserNotFound.
Proof.
  apply (bind_flow_end_to_end (NewService Repo.empty_db Default.newDefaultCodeStore) tt
           Default.example_env Default.example_env "XUID-1" "disc-1" "012345" []).
  - apply store_wfb_spec. reflexivity.
  - split; constructor.
  - intros k i Hk. simpl in Hk. rewrite lookup_empty in Hk. discriminate.
  - intros u Hu. simpl in Hu. by apply elem_of_nil in Hu.
  - vm_compute. reflexivity.
Defined.
