(* ===== verification/Discord.v ===== *)
(** * Discord session and command registration: [NewBot] and
    [RegisterCommands] of [src/server/bot.go]

    [NewBot] opens a session; [RegisterCommands] creates the two slash
    commands of the code at Discord, one after the other, keeps what
    Discord answers in [b.cmds], and adds one interaction handler to the
    session, which looks the command up in the table [handlers].  What
    Discord answers is explicit ([DiscordEnv]); a session is what the code
    reads from it ([State.User.ID]) and how many interaction handlers it
    holds.  The bot's [service] is the server's (the same pointer), so it
    is not a field of [Bot] here: the composed system of [System.v] holds
    it once. *)

From S2P Require Import Prelude Errors CodeStore Repository Service Bot.
From Stdlib Require Import Ascii.

Open Scope string_scope.
Open Scope go_scope.

(** discordgo's [ApplicationCommandOptionType] constants. *)
Inductive ApplicationCommandOptionType : Type :=
| ApplicationCommandOptionSubCommand
| ApplicationCommandOptionSubCommandGroup
| ApplicationCommandOptionString
| ApplicationCommandOptionInteger
| ApplicationCommandOptionBoolean
| ApplicationCommandOptionUser
| ApplicationCommandOptionChannel
| ApplicationCommandOptionRole
| ApplicationCommandOptionMentionable
| ApplicationCommandOptionNumber
| ApplicationCommandOptionAttachment.

(** The fields of [discordgo.ApplicationCommandOption] the code sets. *)
Record ApplicationCommandOption := mkOption {
  opt_Type : ApplicationCommandOptionType;
  opt_Name : string;
  opt_Description : string;
  opt_Required : bool
}.

(** The fields of [discordgo.ApplicationCommand] the code sets, and the
    [ID] Discord assigns. *)
Record ApplicationCommand := mkCommand {
  ac_ID : string;
  ac_Name : string;
  ac_Description : string;
  ac_Options : list ApplicationCommandOption
}.

(** The literal [cmds] of [RegisterCommands]. *)
Definition bind_command : ApplicationCommand :=
  mkCommand "" "bind" "Bind your minecraft to your discord account"
    [mkOption ApplicationCommandOptionString "code" "in-game minecraft account code" true].

Definition unbind_command : ApplicationCommand :=
  mkCommand "" "unbind" "Unbind your minecraft account from your discord account" [].

Definition commands : list ApplicationCommand := [bind_command; unbind_command].

(** What Discord answers: [discordgo.New("Bot " + token)], [api.Open()]
    (on success, the [State.User.ID] it fills in), and
    [ApplicationCommandCreate(appID, guildID, cmd)]. *)
Record DiscordEnv := mkDiscordEnv {
  discordgo_New : string -> res goerror unit;
  session_Open : res goerror string;
  ApplicationCommandCreate : string -> string -> ApplicationCommand -> res goerror ApplicationCommand
}.

(** [*discordgo.Session]: [State.User.ID], and the number of handlers
    added by [AddHandler] for [*discordgo.InteractionCreate]. *)
Record Session := mkSession {
  State_User_ID : string;
  interaction_handlers : nat
}.

(** [type Bot struct { api *discordgo.Session; service *Service; cmds []*discordgo.ApplicationCommand }]
    without the shared [service]. *)
Record Bot := mkBot {
  api : Session;
  cmds : list ApplicationCommand
}.

(** [func NewBot(discordToken string, service *Service) ([*]Bot, error)] *)
Definition NewBot (env : DiscordEnv) (discordToken : string) : res goerror Bot :=
  _ <- discordgo_New env ("Bot " ++ discordToken) ;;
  userID <- session_Open env ;;
  Ok (mkBot (mkSession userID 0) []).

(** [for _, cmd := range cmds { ... }]: create each command, panic with
    the first error, append what Discord answers to [b.cmds]. *)
Fixpoint register_loop (env : DiscordEnv) (guildId : string) (cs : list ApplicationCommand)
    (b : Bot) : outcome goerror Bot :=
  match cs with
  | [] => Normal b
  | cmd :: rest =>
      match ApplicationCommandCreate env (State_User_ID (api b)) guildId cmd with
      | Err err => Panicking err
      | Ok registeredCmd => register_loop env guildId rest (mkBot (api b) (cmds b ++ [registeredCmd]))
      end
  end.

(** [b.api.AddHandler(func(s, i) { ... })] *)
Definition AddHandler_interaction (sess : Session) : Session :=
  mkSession (State_User_ID sess) (S (interaction_handlers sess)).

(** [func (b *Bot) RegisterCommands(guildId string)]: [b.cmds] is reset,
    the commands are created, the handler is added.  A panic here is not
    recovered by any caller. *)
Definition RegisterCommands (env : DiscordEnv) (b : Bot) (guildId : string) : outcome goerror Bot :=
  match register_loop env guildId commands (mkBot (api b) []) with
  | Panicking err => Panicking err
  | Normal b' => Normal (mkBot (AddHandler_interaction (api b')) (cmds b'))
  end.

(** A traversal of a list in [res], stopping at the first error: the
    reference the registration loop is compared with. *)
Fixpoint mapM_res {E A B} (f : A -> res E B) (l : list A) : res E (list B) :=
  match l with
  | [] => Ok []
  | x :: rest => y <- f x ;; ys <- mapM_res f rest ;; Ok (y :: ys)
  end.

Section Handlers.
Context {CS Env R W : Type} `{!CodeStore CS Env} `{!Repository R}.

(** [type CustomCommandHandler func(i, options) string], in state-passing
    form: the service and the observers' world in and out, the caller's
    [i.Member.User.ID] and the option map. *)
Definition CustomCommandHandler : Type :=
  Service CS R W -> W -> option string -> gmap string string ->
  outcome goerror string * Service CS R W * W.

(** The table [handlers] of [RegisterCommands]. *)
Definition handlers_table : gmap string CustomCommandHandler :=
  <["bind" := fun s w member options => bind_handler s w member (options !! "code")]>
  {[ "unbind" := fun s w member _ => let '(o, s') := unbind_handler s member in (o, s', w) ]}.

(** An interaction delivered to a session with [n] handlers: discordgo
    calls each of them; here one after the other. *)
Fixpoint deliver (n : nat) (s : Service CS R W) (w : W) (i : InteractionCreate)
    : list (option (outcome goerror string)) * Service CS R W * W :=
  match n with
  | O => ([], s, w)
  | S n' =>
      let '(o, s1, w1) := on_interaction s w i in
      let '(os, s2, w2) := deliver n' s1 w1 i in
      (o :: os, s2, w2)
  end.

End Handlers.

(** An interaction fits a registered command when a command of that name
    exists and every required option of it is present. *)
Definition option_present (opts : list (string * string)) (o : ApplicationCommandOption) : bool :=
  negb (opt_Required o) || existsb (fun kv => String.eqb kv.1 (opt_Name o)) opts.

Definition conforms (registered : list ApplicationCommand) (i : InteractionCreate) : bool :=
  existsb (fun c => String.eqb (ac_Name c) (cmd_name i) &&
                    forallb (option_present (cmd_options i)) (ac_Options c)) registered.

(** What Discord's documentation promises of a created command: its name
    and options are the ones sent. *)
Definition echoes (env : DiscordEnv) : Prop :=
  forall appID guildId c r, ApplicationCommandCreate env appID guildId c = Ok r ->
    ac_Name r = ac_Name c /\ ac_Options r = ac_Options c.

(** A Discord that accepts everything and assigns the IDs ["1"], ["2"],
    by name; the session's user is ["bot"]. *)
Definition example_discord : DiscordEnv :=
  mkDiscordEnv (fun _ => Ok tt) (Ok "bot")
    (fun _ _ c => Ok (mkCommand (if String.eqb (ac_Name c) "bind" then "1" else "2")
                        (ac_Name c) (ac_Description c) (ac_Options c))).

(** A guild ID Discord accepts: empty (a global command) or a snowflake,
    a string of decimal digits. *)
Definition guild_id_ok (g : string) : bool :=
  String.eqb g "" ||
  forallb (fun c => Ascii.leb "0"%char c && Ascii.leb c "9"%char) (String.list_ascii_of_string g).

(** Discord's answer to a guild ID that is neither: an error. *)
Definition refuses_bad_guild (env : DiscordEnv) : Prop :=
  forall appID guildId c, guild_id_ok guildId = false ->
    exists e, ApplicationCommandCreate env appID guildId c = Err e.

(** The same Discord, refusing ill-formed guild IDs with [errBadGuild]. *)
Definition errBadGuild : goerror := EOther "HTTP 400 Bad Request, Invalid Form Body".

Definition strict_discord : DiscordEnv :=
  mkDiscordEnv (fun _ => Ok tt) (Ok "bot")
    (fun a g c => if guild_id_ok g then ApplicationCommandCreate example_discord a g c
                  else Err errBadGuild).

(** Concrete values for the witnesses: the bot [NewBot] opens at
    [example_discord], the same bot after registering at the guild
    ["123"], and a ["bind"] interaction with the code ["012345"] from the
    member ["disc-1"]. *)
Definition example_bot : Bot := mkBot (mkSession "bot" 0) [].

Definition example_registered_bot : Bot :=
  mkBot (mkSession "bot" 1)
    [mkCommand "1" "bind" (ac_Description bind_command) (ac_Options bind_command);
     mkCommand "2" "unbind" (ac_Description unbind_command) []].

Definition bind_interaction : InteractionCreate :=
  mkInteraction "bind" [("code", "012345")] (Some "disc-1").

(** A ["bind"] interaction with a code that was never issued. *)
Definition unknown_code_interaction : InteractionCreate :=
  mkInteraction "bind" [("code", "ZZZZZZ")] (Some "disc-1").

Close Scope string_scope.

(** ** Registration *)

Lemma register_loop_mapM env g cs b :
  register_loop env g cs b =
  match mapM_res (ApplicationCommandCreate env (State_User_ID (api b)) g) cs with
  | Ok l => Normal (mkBot (api b) (cmds b ++ l))
  | Err e => Panicking e
  end.
Proof.
  revert b. induction cs as [|c cs IH]; intros b; simpl.
  - destruct b; simpl. by rewrite app_nil_r.
  - destruct (ApplicationCommandCreate _ _ _ _) as [r|e]; simpl; [|done].
    rewrite IH. simpl. destruct (mapM_res _ cs); simpl; [|done].
    by rewrite <-app_assoc.
Qed.

(** C34: [RegisterCommands] is the traversal of the command list by
    [ApplicationCommandCreate]: when every creation succeeds, [b.cmds] is
    exactly what Discord answered, in the order of the list, and one
    interaction handler more is installed; otherwise it panics with the
    first error. *)
Theorem RegisterCommands_spec env b g :
  RegisterCommands env b g =
  match mapM_res (ApplicationCommandCreate env (State_User_ID (api b)) g) commands with
  | Ok l => Normal (mkBot (AddHandler_interaction (api b)) l)
  | Err e => Panicking e
  end.
Proof.
  unfold RegisterCommands. rewrite register_loop_mapM. cbn [api cmds].
  by destruct (mapM_res (ApplicationCommandCreate env (State_User_ID (api b)) g) commands).
Qed.

Lemma mapM_res_echoes env a g cs l :
  echoes env -> mapM_res (ApplicationCommandCreate env a g) cs = Ok l ->
  Forall2 (fun c r => ac_Name r = ac_Name c /\ ac_Options r = ac_Options c) cs l.
Proof.
  intros Hecho. revert l. induction cs as [|c cs IH]; intros l; simpl.
  - by intros [= <-].
  - destruct (ApplicationCommandCreate env a g c) as [r|e] eqn:E; simpl; [|done].
    destruct (mapM_res _ cs) as [rs|e] eqn:E'; simpl; [|done].
    intros [= <-]. constructor; [by apply (Hecho a g)|by apply IH].
Qed.

Lemma mapM_res_Err_member {E A B} (f : A -> res E B) l x e :
  x ∈ l -> f x = Err e -> exists e', mapM_res f l = Err e'.
Proof.
  induction l as [|y l IH]; simpl; [by intros ?%elem_of_nil|].
  intros [->|Hx]%elem_of_cons Hf.
  - rewrite Hf. eauto.
  - destruct (f y) as [b|e']; simpl; [|eauto].
    destruct (IH Hx Hf) as [e' ->]. simpl. eauto.
Qed.

(** The registration at a guild ID Discord refuses panics before any
    handler is installed. *)
Theorem RegisterCommands_bad_guild env b g :
  refuses_bad_guild env -> guild_id_ok g = false ->
  exists e, RegisterCommands env b g = Panicking e.
Proof.
  intros Hrefuse Hg. rewrite RegisterCommands_spec.
  destruct (Hrefuse (State_User_ID (api b)) g bind_command Hg) as [e He].
  destruct (mapM_res_Err_member _ commands bind_command e ltac:(by left) He) as [e' ->].
  eauto.
Qed.

(** [NewBot] succeeds exactly when both calls do, with a session holding
    no interaction handler and no command. *)
Lemma NewBot_spec env tok b :
  NewBot env tok = Ok b <->
  is_ok (discordgo_New env ("Bot " ++ tok)) = true /\
  session_Open env = Ok (State_User_ID (api b)) /\ interaction_handlers (api b) = 0%nat /\ cmds b = [].
Proof.
  unfold NewBot. destruct (discordgo_New _ _); simpl; [|naive_solver].
  destruct (session_Open env) as [u|e]; simpl; [|naive_solver].
  split; [by intros [= <-]|]. destruct b as [[u' n] l]; naive_solver.
Qed.

(** ** Dispatch *)

Lemma option_map_of_is_Some opts k :
  is_Some (option_map_of opts !! k) <-> existsb (fun kv => String.eqb kv.1 k) opts = true.
Proof.
  unfold option_map_of.
  assert (forall m : gmap string string, is_Some (fold_left (fun m kv => <[kv.1:=kv.2]> m) opts m !! k) <->
            is_Some (m !! k) \/ existsb (fun kv => String.eqb kv.1 k) opts = true) as Hgen.
  { induction opts as [|[k' v'] opts IH]; intros m; simpl; [naive_solver|].
    rewrite IH, orb_true_iff, string_eqb_true.
    destruct (decide (k' = k)) as [->|Hne].
    - rewrite lookup_insert_eq. naive_solver.
    - rewrite lookup_insert_ne by done. naive_solver. }
  rewrite Hgen, lookup_empty. naive_solver.
Qed.

Section Dispatch.
Context {CS Env R W : Type} `{!CodeStore CS Env} `{!Repository R}.
Implicit Types (s : Service CS R W) (w : W).

(** The chain of tests of [on_interaction] is the lookup in [handlers]. *)
Lemma on_interaction_handlers s w i :
  on_interaction s w i =
  match (handlers_table (CS := CS) (Env := Env) (R := R) (W := W)) !! cmd_name i with
  | Some h => let '(o, s', w') := h s w (member_user_id i) (option_map_of (cmd_options i)) in (Some o, s', w')
  | None => (None, s, w)
  end.
Proof.
  unfold on_interaction, handlers_table.
  destruct (String.eqb (cmd_name i) "bind") eqn:Eb.
  { apply string_eqb_true in Eb. rewrite Eb, lookup_insert_eq. done. }
  apply string_eqb_false in Eb. rewrite lookup_insert_ne by congruence.
  destruct (String.eqb (cmd_name i) "unbind") eqn:Eu.
  { apply string_eqb_true in Eu. rewrite Eu, lookup_singleton_eq. simpl.
    by destruct (unbind_handler s (member_user_id i)). }
  apply string_eqb_false in Eu. by rewrite lookup_singleton_ne by congruence.
Qed.

(** With a code and a member, the ["bind"] handler answers. *)
Lemma bind_handler_answers s w d c :
  exists o s' w', bind_handler s w (Some d) (Some c) = (Normal o, s', w').
Proof.
  unfold bind_handler. destruct (CheckCode s c); [|eauto].
  destruct (CreateUser s w d _) as [[[u|e] s1] w1]; [|eauto].
  destruct (RevokeCode s1 _). eauto.
Qed.

Lemma unbind_handler_answers s d : exists o s', unbind_handler s (Some d) = (Normal o, s').
Proof.
  unfold unbind_handler. destruct (DeleteUserByDiscord s d) as [[u|e] s']; eauto.
Qed.

(** C18: the propagation policy of the design notes at the chat
    boundary.  When the service call of a command fails ([CheckCode] or
    [CreateUser] for ["bind"], [DeleteUserByDiscord] for ["unbind"]), the
    answer is the message of the error when it is an [ApplicationError]
    and the fixed text ["Something went wrong"] for any other error: an
    internal error's text never reaches the user. *)
Theorem chat_error_replies s w i d e :
  member_user_id i = Some d ->
  (cmd_name i = "unbind" /\ (DeleteUserByDiscord s d).1 = Err e) \/
  (cmd_name i = "bind" /\ exists c, option_map_of (cmd_options i) !! "code" = Some c /\
     (CheckCode s c = Err e \/
      exists info, CheckCode s c = Ok info /\ (CreateUser s w d (XUID info)).1.1 = Err e)) ->
  (on_interaction s w i).1.1 =
    Some (Normal (match errors_As_ApplicationError e with
                  | Some a => ApplicationError_Error a
                  | None => "Something went wrong"
                  end)).
Proof.
  intros Hmem [[Hn Hdel]|[Hn (c & Hc & Hcall)]]; unfold on_interaction; rewrite Hn, Hmem; simpl.
  - unfold unbind_handler. destruct (DeleteUserByDiscord s d) as [r s'].
    simpl in Hdel. subst r. unfold reply_error. by destruct e.
  - rewrite Hc. unfold bind_handler.
    destruct Hcall as [He|(info & Hi & Hcr)].
    + rewrite He. unfold reply_error. by destruct e.
    + rewrite Hi. destruct (CreateUser s w d (XUID info)) as [[r s1] w1].
      simpl in Hcr. subst r. unfold reply_error. by destruct e.
Qed.

(** The commands Discord answered, when it echoes what was sent. *)
Lemma registered_shape env b g b' :
  echoes env -> RegisterCommands env b g = Normal b' ->
  exists r1 r2, cmds b' = [r1; r2] /\ interaction_handlers (api b') = S (interaction_handlers (api b)) /\
    ac_Name r1 = "bind" /\ ac_Options r1 = ac_Options bind_command /\
    ac_Name r2 = "unbind" /\ ac_Options r2 = [].
Proof.
  intros Hecho. rewrite RegisterCommands_spec.
  destruct (mapM_res _ commands) as [l|e] eqn:E; [|done]. intros [= <-].
  apply mapM_res_echoes in E; [|done].
  inversion E as [|c1 r1 ? l1 [H1n H1o] E1]; subst.
  inversion E1 as [|c2 r2 ? l2 [H2n H2o] E2]; subst.
  inversion E2; subst. exists r1, r2. simpl. naive_solver.
Qed.

End Dispatch.

Section Conformance.
Context {CS Env R W : Type} `{!CodeStore CS Env} `{!Repository R}.
Implicit Types (s : Service CS R W) (w : W).

(** The typing discipline of the chat layer.  After a registration
    at a Discord that keeps the commands as sent, every interaction that
    fits one of the registered commands (its name, and the required
    ["code"] option for ["bind"]) and comes from a guild member is
    dispatched to a handler and answered: neither [options["code"]] nor
    [i.Member] is dereferenced nil. *)
Theorem registered_interaction_answered env b g b' s w i d :
  echoes env -> RegisterCommands env b g = Normal b' ->
  conforms (cmds b') i = true -> member_user_id i = Some d ->
  exists o s' w', on_interaction s w i = (Some (Normal o), s', w').
Proof.
  intros Hecho Hreg Hconf Hmem.
  destruct (registered_shape env b g b' Hecho Hreg) as (r1 & r2 & Hcmds & _ & Hn1 & Ho1 & Hn2 & Ho2).
  rewrite Hcmds in Hconf. cbn [conforms existsb] in Hconf.
  rewrite Hn1, Ho1, Hn2, Ho2, orb_false_r in Hconf.
  cbn [bind_command ac_Options forallb option_present opt_Required opt_Name negb orb] in Hconf.
  rewrite on_interaction_handlers, Hmem. unfold handlers_table.
  apply orb_true_iff in Hconf as [Hb|Hu].
  - rewrite andb_true_r in Hb. apply andb_true_iff in Hb as [Hname Hcode%option_map_of_is_Some].
    apply string_eqb_true in Hname as <-. rewrite lookup_insert_eq.
    destruct Hcode as [c ->]. destruct (bind_handler_answers s w d c) as (o & s' & w' & ->). eauto.
  - rewrite andb_true_r in Hu. apply string_eqb_true in Hu as <-.
    rewrite lookup_insert_ne by done. rewrite lookup_singleton_eq.
    destruct (unbind_handler_answers s d) as (o & s' & ->). eauto.
Qed.

End Conformance.

Lemma strict_discord_refuses : refuses_bad_guild strict_discord.
Proof. intros a g c Hg. simpl. rewrite Hg. eauto. Qed.

(** ** Witnesses at concrete inputs *)

Lemma example_discord_echoes : echoes example_discord.
Proof. by intros a g c r [= <-]. Qed.

Lemma registered_interaction_answered_witness :
  exists o s' w', on_interaction example_service tt bind_interaction = (Some (Normal o), s', w').
Proof.
  apply (registered_interaction_answered example_discord example_bot "123" example_registered_bot
           _ _ _ "disc-1").
  - exact example_discord_echoes.
  - reflexivity.
  - reflexivity.
  - reflexivity.
Defined.

Lemma chat_error_replies_witness :
  (on_interaction example_service tt unknown_code_interaction).1.1 =
    Some (Normal (match errors_As_ApplicationError Default.errCodeMissing with
                  | Some a => ApplicationError_Error a
                  | None => "Something went wrong"
                  end)).
Proof.
  apply (chat_error_replies example_service tt unknown_code_interaction "disc-1" Default.errCodeMissing).
  - reflexivity.
  - right. split; [reflexivity|]. exists "ZZZZZZ". split; [reflexivity|]. left.
    vm_compute. reflexivity.
Defined.
