(* ===== verification/Http.v ===== *)
(** * HTTP API server: [src/server/server.go]

    The gin engine built by [GetHttpHandler]: its route table, the two
    middlewares of the code ([recoveryMiddleware] around [authMiddleware])
    and the five route handlers, written against [Service] and so against
    the two interfaces.  The library behaviour the code relies on is
    modelled as the libraries document it: gin's router (segment
    matching, a parameter never empty, the trailing-slash redirect that
    runs no middleware, 404 through the global middlewares, its
    [responseWriter.WriteHeader] ignoring a status [<= 0] and rendering no
    body for 1xx, 204 and 304), and net/http's [WriteHeader], which panics
    on a status outside 100..999; a panic that leaves the handler chain
    makes net/http drop the connection.  The logging middleware and the JSON text are not
    modelled: a response is its status and its [Payload] value. *)

From S2P Require Import Prelude Errors CodeGen CodeStore Repository Service.
From Stdlib Require Import Ascii.

Open Scope string_scope.

(** [type ErrorInformation struct { Code int; Message string }] *)
Record ErrorInformation := mkErrorInformation {
  EI_Code : Z;
  EI_Message : string
}.

(** The dynamic values the handlers put in [Payload.Data]: a nil
    interface or pointer, a [*CodeInformation], a [*User]. *)
Inductive PayloadData : Type :=
| DataNil
| DataCodeInformation (info : CodeInformation)
| DataUser (u : Repo.User).

(** [type Payload struct { Error *ErrorInformation; Data interface{} }] *)
Record Payload := mkPayload {
  Payload_Error : option ErrorInformation;
  Payload_Data : PayloadData
}.

(** [func SuccessPayload(data interface{}) Payload] *)
Definition SuccessPayload (data : PayloadData) : Payload := mkPayload None data.

(** [func FailurePayload(err ApplicationError) Payload] *)
Definition FailurePayload (err : ApplicationError) : Payload :=
  mkPayload (Some (mkErrorInformation (ErrorCode err) (ApplicationError_Error err))) DataNil.

(** A [*CodeInformation] as [interface{}]: nil stays nil. *)
Definition data_of_code_info (info : option CodeInformation) : PayloadData :=
  match info with
  | Some i => DataCodeInformation i
  | None => DataNil
  end.

Definition StatusOK : Z := 200.
Definition StatusMovedPermanently : Z := 301.
Definition StatusTemporaryRedirect : Z := 307.
Definition StatusUnauthorized : Z := 401.
Definition StatusNotFound : Z := 404.
Definition StatusInternalServerError : Z := 500.

(** What the client receives: [c.String], [c.JSON] and
    [AbortWithStatusJSON], [AbortWithStatus] (empty body), gin's
    trailing-slash redirect, or nothing when a panic escapes the chain. *)
Inductive Response : Type :=
| RString (status : Z) (body : string)
| RJSON (status : Z) (p : Payload)
| RStatus (status : Z)
| RRedirect (status : Z) (location : string)
| RConnectionAborted.

Definition status_of (r : Response) : option Z :=
  match r with
  | RString st _ | RJSON st _ | RStatus st | RRedirect st _ => Some st
  | RConnectionAborted => None
  end.

(** net/http [checkWriteHeaderCode]: a status outside 100..999 panics. *)
Definition valid_status (code : Z) : bool := ((100 <=? code) && (code <=? 999))%Z.

(** gin's [bodyAllowedForStatus]: no body for 1xx, 204 and 304. *)
Definition bodyAllowedForStatus (code : Z) : bool :=
  negb (((100 <=? code) && (code <=? 199)) || (code =? 204) || (code =? 304))%Z.

(** [c.AbortWithStatusJSON(code, obj)]: gin's [responseWriter.WriteHeader]
    ignores a code [<= 0] (the status stays [200]); otherwise the code is
    the status, which net/http's [WriteHeader] checks when the response
    is written.  The body is rendered when [bodyAllowedForStatus code]. *)
Definition AbortWithStatusJSON (code : Z) (p : Payload) : Response :=
  let status := if (0 <? code)%Z then code else StatusOK in
  if negb (valid_status status) then RConnectionAborted
  else if bodyAllowedForStatus code then RJSON status p else RStatus status.

(** An HTTP request as the handlers see it: method, URL path, the
    [Authorization] header ([""] when absent, as [c.GetHeader] returns)
    and the raw body. *)
Record Request := mkRequest {
  req_method : string;
  req_path : string;
  req_authorization : string;
  req_body : string
}.

(** The [/]-separated segments of a path; ["/test"] is [[""; "test"]]. *)
Fixpoint path_segments_aux (s : string) (cur : list ascii) : list string :=
  match s with
  | EmptyString => [String.string_of_list_ascii (rev cur)]
  | String c s' =>
      if Ascii.eqb c "/" then String.string_of_list_ascii (rev cur) :: path_segments_aux s' []
      else path_segments_aux s' (c :: cur)
  end.

Definition path_segments (p : string) : list string := path_segments_aux p [].

(** The routes registered by [GetHttpHandler]. *)
Inductive Route : Type :=
| RouteTest
| RouteCodesIssue
| RouteCodesCheck
| RouteCodesRevoke
| RouteUsersDiscord (id : string)
| RouteUsersXuid (xuid : string).

(** gin's lookup in the method's tree: [GET /test], [POST /codes/issue],
    [POST /codes/check], [POST /codes/revoke], [GET /users/discord/:id],
    [GET /users/xuid/:xuid]; a parameter matches one non-empty segment. *)
Definition route (method path : string) : option Route :=
  match path_segments path with
  | [root; a] =>
      if String.eqb root "" && String.eqb method "GET" && String.eqb a "test"
      then Some RouteTest else None
  | [root; a; b] =>
      if String.eqb root "" && String.eqb method "POST" && String.eqb a "codes" then
        if String.eqb b "issue" then Some RouteCodesIssue
        else if String.eqb b "check" then Some RouteCodesCheck
        else if String.eqb b "revoke" then Some RouteCodesRevoke
        else None
      else None
  | [root; a; b; p] =>
      if String.eqb root "" && String.eqb method "GET" && String.eqb a "users"
         && negb (String.eqb p "") then
        if String.eqb b "discord" then Some (RouteUsersDiscord p)
        else if String.eqb b "xuid" then Some (RouteUsersXuid p)
        else None
      else None
  | _ => None
  end.

(** The path without its trailing slash, when it has one (and is not ["/"]). *)
Definition strip_trailing_slash (p : string) : option string :=
  match rev (String.list_ascii_of_string p) with
  | c :: rest =>
      if Ascii.eqb c "/" && negb (String.eqb p "/")
      then Some (String.string_of_list_ascii (rev rest)) else None
  | [] => None
  end.

(** gin's [RedirectTrailingSlash]: 301 for [GET], 307 otherwise, without
    running the middlewares. *)
Definition trailing_slash_redirect (method path : string) : option Response :=
  match strip_trailing_slash path with
  | Some p' =>
      match route method p' with
      | Some _ => Some (RRedirect (if String.eqb method "GET" then StatusMovedPermanently
                                   else StatusTemporaryRedirect) p')
      | None => None
      end
  | None => None
  end.

(** The answer to a request without the access token: gin's redirect
    if the path only lacks its trailing slash, 401 otherwise. *)
Definition denied_response (method path : string) : Response :=
  match route method path with
  | Some _ => RStatus StatusUnauthorized
  | None => match trailing_slash_redirect method path with
            | Some r => r
            | None => RStatus StatusUnauthorized
            end
  end.

(** [info, err := ...; utils.ErrorPanic(err)]: a non-nil [err] is the panic value. *)
Definition must {A} (r : res goerror A) : outcome goerror A :=
  match r with
  | Ok a => Normal a
  | Err e => Panicking e
  end.

Definition outcome_bind {P A B} (o : outcome P A) (k : A -> outcome P B) : outcome P B :=
  match o with
  | Normal a => k a
  | Panicking p => Panicking p
  end.

Section Server.
Context {CS Env R W : Type} `{!CodeStore CS Env} `{!Repository R}.

(** [type Server struct { accessToken; discordBotToken; opts; service; bot }]:
    the fields the HTTP handler reads. *)
Record Server := mkServer {
  accessToken : string;
  service : Service CS R W
}.

(** The route handlers of [GetHttpHandler]; [env] is what [Issue]
    reads from the outside world during this request. *)
Definition handle (svc : Service CS R W) (env : Env) (rt : Route) (body : string)
    : outcome goerror Response * Service CS R W :=
  match rt with
  | RouteTest => (Normal (RString StatusOK "hello world!"), svc)
  | RouteCodesIssue =>
      let xuid := body in
      let '(o, svc') := IssueCode svc env xuid in
      (outcome_bind o (fun r => outcome_bind (must r) (fun info =>
         Normal (RJSON StatusOK (SuccessPayload (data_of_code_info info))))), svc')
  | RouteCodesCheck =>
      let code := body in
      (outcome_bind (must (CheckCode svc code)) (fun info =>
         Normal (RJSON StatusOK (SuccessPayload (DataCodeInformation info)))), svc)
  | RouteCodesRevoke =>
      let code := body in
      let '(r, svc') := RevokeCode svc code in
      (outcome_bind (must r) (fun _ => Normal (RJSON StatusOK (SuccessPayload DataNil))), svc')
  | RouteUsersDiscord discordId =>
      if String.eqb discordId "" then
        (Panicking (EApp (NewApplicationError 40000 "Discord ID is not specified")), svc)
      else
        (outcome_bind (must (GetUserByDiscord svc discordId)) (fun user =>
           Normal (RJSON StatusOK (SuccessPayload (DataUser user)))), svc)
  | RouteUsersXuid xuid =>
      if String.eqb xuid "" then
        (Panicking (EApp (NewApplicationError 40000 "XUID is not specified")), svc)
      else
        (outcome_bind (must (GetUserByXUID svc xuid)) (fun user =>
           Normal (RJSON StatusOK (SuccessPayload (DataUser user)))), svc)
  end.

(** [func (s *Server) authMiddleware(c *gin.Context)]: [next] is [c.Next()]. *)
Definition authMiddleware (srv : Server) (req : Request)
    (next : unit -> outcome goerror Response * Service CS R W)
    : outcome goerror Response * Service CS R W :=
  if negb (String.eqb (req_authorization req) (accessToken srv))
  then (Normal (RStatus StatusUnauthorized), service srv)
  else next tt.

(** The deferred function of [recoveryMiddleware]: a value of [goerror]
    is always an [error], so the [rawErr.(error)] assertion succeeds; an
    [ApplicationError] is answered with the first three digits of its
    code, anything else with 500.  A panic of [GetNumberFirstDigits] or of
    [WriteHeader] inside the deferred call escapes to net/http. *)
Definition recoveryMiddleware (o : outcome goerror Response) : Response :=
  match o with
  | Normal r => r
  | Panicking rawErr =>
      match errors_As_ApplicationError rawErr with
      | None => RStatus StatusInternalServerError
      | Some appError =>
          match Utils.GetNumberFirstDigits (ErrorCode appError) 3 with
          | Panicking _ => RConnectionAborted
          | Normal accordingErrorCode => AbortWithStatusJSON accordingErrorCode (FailurePayload appError)
          end
      end
  end.

(** The engine's [ServeHTTP]: the matched route's chain (logger,
    recovery, auth, handler), else the trailing-slash redirect, else
    gin's 404 through the same global middlewares. *)
Definition ServeHTTP (srv : Server) (env : Env) (req : Request) : Response * Server :=
  let chain (h : unit -> outcome goerror Response * Service CS R W) :=
    let '(o, svc') := authMiddleware srv req h in
    (recoveryMiddleware o, mkServer (accessToken srv) svc') in
  match route (req_method req) (req_path req) with
  | Some rt => chain (fun _ => handle (service srv) env rt (req_body req))
  | None =>
      match trailing_slash_redirect (req_method req) (req_path req) with
      | Some r => (r, srv)
      | None => chain (fun _ => (Normal (RString StatusNotFound "404 page not found"), service srv))
      end
  end.

(** Requests served one after the other, each with its environment. *)
Fixpoint serve_all (srv : Server) (reqs : list (Env * Request)) : list Response * Server :=
  match reqs with
  | [] => ([], srv)
  | (env, req) :: rest =>
      let '(r, srv1) := ServeHTTP srv env req in
      let '(rs, srv2) := serve_all srv1 rest in
      (r :: rs, srv2)
  end.

End Server.

Arguments Server : clear implicits.

(** A URL path segment a parameter can match: non-empty, without ['/']. *)
Definition segment_ok (x : string) : bool :=
  negb (String.eqb x "") && forallb (fun c => negb (Ascii.eqb c "/")) (String.list_ascii_of_string x).

(** The error discipline the recovery middleware relies on: an
    [ApplicationError] carries one of the codes [C]. *)
Definition err_in (C : list Z) (e : goerror) : Prop :=
  match errors_As_ApplicationError e with
  | Some a => ErrorCode a ∈ C
  | None => True
  end.

(** The statuses the server answers with whatever the handlers return:
    200 from the handlers, gin's redirects, 401 from [authMiddleware],
    gin's 404 and the 500 of [recoveryMiddleware]. *)
Definition plain_statuses : list Z := [200; 301; 307; 401; 404; 500]%Z.

(** The request a client sends with the right token. *)
Definition authorized (token method path body : string) : Request :=
  mkRequest method path token body.

(** A server over the default implementations, with ["disc-1"] bound to
    ["XUID-1"] and no code issued. *)
Definition example_server : Server Default.defaultCodeStore Repo.db unit :=
  mkServer "secret" (NewService Repo.example_db Default.newDefaultCodeStore).

Definition example_fresh_server : Server Default.defaultCodeStore Repo.db unit :=
  mkServer "secret" (NewService Repo.empty_db Default.newDefaultCodeStore).

Close Scope string_scope.

(** ** The router *)

Lemma string_of_list_ascii_app l1 l2 :
  String.string_of_list_ascii (l1 ++ l2) =
    (String.string_of_list_ascii l1 ++ String.string_of_list_ascii l2)%string.
Proof. induction l1 as [|a l1 IH]; [done|]. simpl. by rewrite IH. Qed.

Lemma path_segments_last x cur :
  forallb (fun c => negb (Ascii.eqb c "/")) (String.list_ascii_of_string x) = true ->
  path_segments_aux x cur = [(String.string_of_list_ascii (rev cur) ++ x)%string].
Proof.
  revert cur; induction x as [|c x IH]; intros cur Hx; simpl in *.
  - by rewrite string_app_nil_r.
  - apply andb_true_iff in Hx as [Hc Hx]. rewrite negb_true_iff in Hc. rewrite Hc.
    rewrite IH by done.
    simpl. rewrite string_of_list_ascii_app. by rewrite <-string_app_assoc.
Qed.

Lemma string_app_cons c (s1 s2 : string) : (String c s1 ++ s2)%string = String c (s1 ++ s2)%string.
Proof. done. Qed.

Lemma string_app_nil_l (s : string) : ("" ++ s)%string = s.
Proof. done. Qed.

(** Computes [path_segments] on a literal prefix followed by one segment. *)
Ltac path_prefix Hx :=
  unfold route, trailing_slash_redirect, path_segments;
  rewrite ?string_app_cons, ?string_app_nil_l; simpl;
  rewrite path_segments_last by exact Hx; simpl; rewrite ?string_app_nil_l.

(** The two parameterised routes match the paths that end in a segment a
    parameter accepts, with that segment as the parameter. *)
Lemma route_users_discord x :
  segment_ok x = true -> route "GET" ("/users/discord/" ++ x)%string = Some (RouteUsersDiscord x).
Proof.
  intros Hx. apply andb_true_iff in Hx as [Hne Hx].
  path_prefix Hx. by rewrite Hne.
Qed.

Lemma route_users_xuid x :
  segment_ok x = true -> route "GET" ("/users/xuid/" ++ x)%string = Some (RouteUsersXuid x).
Proof. intros Hx. apply andb_true_iff in Hx as [Hne Hx]. path_prefix Hx. by rewrite Hne. Qed.

(** ** The middlewares *)

Section Middleware.
Context {CS Env R W : Type} `{!CodeStore CS Env} `{!Repository R}.
Implicit Types (srv : Server CS R W).

Lemma authMiddleware_denied srv req h :
  req_authorization req <> accessToken srv ->
  authMiddleware srv req h = (Normal (RStatus StatusUnauthorized), service srv).
Proof. intros H. unfold authMiddleware. by rewrite (proj2 (string_eqb_false _ _) H). Qed.

Lemma authMiddleware_granted srv req h :
  req_authorization req = accessToken srv -> authMiddleware srv req h = h tt.
Proof. intros H. unfold authMiddleware. by rewrite H, string_eqb_refl'. Qed.

Lemma trailing_slash_redirect_inv m p r :
  trailing_slash_redirect m p = Some r -> exists st loc, r = RRedirect st loc.
Proof. unfold trailing_slash_redirect. repeat case_match; intros; simplify_eq; eauto. Qed.

Lemma ServeHTTP_denied srv env req :
  req_authorization req <> accessToken srv ->
  ServeHTTP srv env req = (denied_response (req_method req) (req_path req), srv).
Proof.
  intros H. unfold ServeHTTP, denied_response.
  destruct (route (req_method req) (req_path req)) as [rt|];
    [|destruct (trailing_slash_redirect (req_method req) (req_path req)) as [r|]];
    rewrite ?authMiddleware_denied by done; by destruct srv.
Qed.

(** C10: a request whose [Authorization] header is not the server's
    access token never reaches a handler: the answer is 401 (or gin's
    trailing-slash redirect, which runs no handler) and the state of the
    server is unchanged. *)
Theorem ServeHTTP_unauthorized srv env req :
  req_authorization req <> accessToken srv ->
  (ServeHTTP srv env req).2 = srv /\
  ((ServeHTTP srv env req).1 = RStatus StatusUnauthorized \/
   exists st loc, (ServeHTTP srv env req).1 = RRedirect st loc).
Proof.
  intros H. rewrite ServeHTTP_denied by done. split; [done|]. simpl.
  unfold denied_response. repeat case_match; eauto using trailing_slash_redirect_inv.
Qed.

(** An authorised request on a route runs the route's handler inside
    the recovery middleware. *)
Lemma ServeHTTP_routed srv env req rt :
  route (req_method req) (req_path req) = Some rt ->
  req_authorization req = accessToken srv ->
  ServeHTTP srv env req =
    (recoveryMiddleware (handle (service srv) env rt (req_body req)).1,
     mkServer (accessToken srv) (handle (service srv) env rt (req_body req)).2).
Proof.
  intros Hr Ha. unfold ServeHTTP. rewrite Hr, authMiddleware_granted by done.
  by destruct (handle _ _ _ _).
Qed.

End Middleware.

(** An [ApplicationError] with a five-digit code that reaches the
    recovery middleware is answered with the code's first three digits as
    HTTP status, with the error as [FailurePayload] when that status
    allows a body. *)
Lemma recovery_five_digit_status a :
  (10000 <= ErrorCode a <= 99999)%Z ->
  recoveryMiddleware (Panicking (EApp a)) =
    if bodyAllowedForStatus (ErrorCode a / 100) then RJSON (ErrorCode a / 100) (FailurePayload a)
    else RStatus (ErrorCode a / 100).
Proof.
  intros H. simpl. rewrite GetNumberFirstDigits_five by done.
  unfold AbortWithStatusJSON, valid_status.
  pose proof (Z.div_mod (ErrorCode a) 100 ltac:(lia)).
  pose proof (Z.mod_pos_bound (ErrorCode a) 100 ltac:(lia)).
  replace (0 <? ErrorCode a / 100)%Z with true by (symmetry; apply Z.ltb_lt; lia).
  replace (_ && _) with true; [done|]. symmetry. apply andb_true_intro; split; apply Z.leb_le; lia.
Qed.

Lemma recovery_five_digit_code a :
  (10000 <= ErrorCode a <= 99999)%Z -> bodyAllowedForStatus (ErrorCode a / 100) = true ->
  recoveryMiddleware (Panicking (EApp a)) = RJSON (ErrorCode a / 100) (FailurePayload a).
Proof. intros H Hb. rewrite recovery_five_digit_status by done. by rewrite Hb. Qed.

(** C36: an [ApplicationError] code outside the five-digit range is
    not answered as the design notes' status: with fewer than three
    characters in [-9..99] the slice of [GetNumberFirstDigits] panics
    inside the recovery middleware and net/http drops the connection;
    with a code of at most [-10] the first characters parse to a value
    [<= 0], which gin's [WriteHeader] ignores, so the failure is answered
    with status [200]. *)
Theorem recovery_code_out_of_range a :
  ((-10 < ErrorCode a < 100)%Z -> recoveryMiddleware (Panicking (EApp a)) = RConnectionAborted) /\
  ((Strconv.int64_min <= ErrorCode a <= -10)%Z ->
     recoveryMiddleware (Panicking (EApp a)) = RJSON StatusOK (FailurePayload a)).
Proof.
  split; intros H; simpl.
  - destruct (decide (0 <= ErrorCode a)%Z).
    + by destruct (GetNumberFirstDigits_short (ErrorCode a)) as (len & _ & ->); [lia|].
    + by destruct (GetNumberFirstDigits_neg_short (ErrorCode a)) as (len & ->); [lia|].
  - destruct (GetNumberFirstDigits_neg_long (ErrorCode a)) as (v & Hv & ->); [done|].
    unfold AbortWithStatusJSON, bodyAllowedForStatus.
    replace (0 <? v)%Z with false by (symmetry; apply Z.ltb_ge; lia).
    replace (100 <=? v)%Z with false by (symmetry; apply Z.leb_gt; lia).
    replace (v =? 204)%Z with false by (symmetry; apply Z.eqb_neq; lia).
    replace (v =? 304)%Z with false by (symmetry; apply Z.eqb_neq; lia).
    done.
Qed.

(** ** Every answer has a status

    Under the error discipline that every [ApplicationError] the
    components return carries a five-digit code of [C], no request makes
    the server drop the connection, and the status is one of
    [plain_statuses] or the first three digits of a code of [C]. *)

Section ErrorDiscipline.
Context {CS Env R W : Type} `{!CodeStore CS Env} `{!Repository R}.
Variable C : list Z.
Hypothesis C_five : forall c, c ∈ C -> (10000 <= c <= 99999)%Z.
Hypothesis C_bad_request : 40000%Z ∈ C.
Hypothesis info_err : forall s x e, cs_GetInformation s x = Err e -> err_in C e.
Hypothesis issue_err : forall s env x e s', cs_Issue s env x = (Normal (Err e), s') -> err_in C e.
Hypothesis issue_panic : forall s env x p s', cs_Issue s env x = (Panicking p, s') -> err_in C p.
Hypothesis revoke_err : forall s x e s', cs_Revoke s x = (Err e, s') -> err_in C e.
Hypothesis discord_err : forall r x e, repo_GetUserByDiscord r x = Err e -> err_in C e.
Hypothesis xuid_err : forall r x e, repo_GetUserByXUID r x = Err e -> err_in C e.

Definition good_status (st : Z) : Prop :=
  st ∈ plain_statuses \/ exists c, c ∈ C /\ st = (c / 100)%Z.

Lemma must_bind_outcome {A} (r : res goerror A) (k : A -> outcome goerror Response) :
  (forall a, match k a with Normal resp => status_of resp = Some 200%Z | Panicking _ => False end) ->
  (forall e, r = Err e -> err_in C e) ->
  match outcome_bind (must r) k with
  | Normal resp => status_of resp = Some 200%Z
  | Panicking p => err_in C p
  end.
Proof.
  intros Hk He. destruct r as [a|e]; simpl; [|by apply He].
  specialize (Hk a). by destruct (k a).
Qed.

Lemma handle_outcome (svc : Service CS R W) env rt body :
  match (handle svc env rt body).1 with
  | Normal resp => status_of resp = Some 200%Z
  | Panicking p => err_in C p
  end.
Proof.
  destruct rt as [| | | |id|x]; simpl.
  - done.
  - unfold IssueCode. destruct (repo_GetUserByXUID _ _) as [u|e]; simpl; [done|].
    destruct (cs_Issue (codeStr svc) env body) as [[[info|e']|p] c'] eqn:Hi; simpl;
      [done|by eapply issue_err|by eapply issue_panic].
  - apply must_bind_outcome; [done|]. unfold CheckCode. intros e.
    destruct (cs_GetInformation _ _) eqn:Hg; intros [= <-]; by eapply info_err.
  - unfold RevokeCode. destruct (cs_Revoke (codeStr svc) body) as [r c'] eqn:Hr. simpl.
    apply must_bind_outcome; [done|]. intros e ->. by eapply revoke_err.
  - destruct (String.eqb id ""); simpl; [done|].
    apply must_bind_outcome; [done|]. intros e. apply discord_err.
  - destruct (String.eqb x ""); simpl; [done|].
    apply must_bind_outcome; [done|]. intros e. apply xuid_err.
Qed.

Lemma recovery_good o :
  match o with
  | Normal resp => exists st, status_of resp = Some st /\ st ∈ plain_statuses
  | Panicking p => err_in C p
  end ->
  exists st, status_of (recoveryMiddleware o) = Some st /\ good_status st.
Proof.
  destruct o as [resp|p].
  - intros (st & Hst & Hin). exists st. split; [done|by left].
  - unfold err_in. destruct p as [a| | | | | | |]; intros Ha; cbn [errors_As_ApplicationError] in Ha;
      try (exists StatusInternalServerError; split; [done|left; compute; set_solver]).
    rewrite recovery_five_digit_status by auto. eexists; split; [by case_match|]. right. eauto.
Qed.

Lemma ServeHTTP_good_status (srv : Server CS R W) env req :
  exists st, status_of (ServeHTTP srv env req).1 = Some st /\ good_status st.
Proof.
  unfold ServeHTTP.
  destruct (route (req_method req) (req_path req)) as [rt|];
    [|destruct (trailing_slash_redirect (req_method req) (req_path req)) as [r|] eqn:E].
  - unfold authMiddleware. destruct (negb _).
    + exists StatusUnauthorized. split; [done|]. left. compute. set_solver.
    + pose proof (handle_outcome (service srv) env rt (req_body req)) as Ho.
      destruct (handle _ _ _ _) as [o svc']. apply recovery_good. simpl in Ho.
      destruct o; [|done]. eexists; split; [done|]. compute. set_solver.
  - simpl. unfold trailing_slash_redirect in E. repeat case_match; simplify_eq;
      eexists; (split; [done|]); left; compute; set_solver.
  - unfold authMiddleware. destruct (negb _); eexists; (split; [done|]); left; compute; set_solver.
Qed.

End ErrorDiscipline.

(** ** The server over the default implementations *)

Section DefaultServer.
Context {W : Type}.
Import Default.

Lemma elem_of_default_codes c : c ∈ [40000; 40400]%Z <-> c = 40000%Z \/ c = 40400%Z.
Proof. rewrite !elem_of_cons, elem_of_nil. tauto. Qed.

Lemma default_info_err s x e :
  cs_GetInformation s x = Err e -> err_in [40000; 40400]%Z e.
Proof. simpl. intros [_ ->]%GetInformation_Err. apply elem_of_default_codes. by right. Qed.

Lemma default_issue_err s env x e s' :
  cs_Issue s env x = (Normal (Err e), s') -> err_in [40000; 40400]%Z e.
Proof.
  simpl. unfold Issue. destruct (GetForXuid s x).
  - intros [= <- _]. apply elem_of_default_codes. by left.
  - by destruct (findFreeCode s (env_rand env)) as [[c rest]|p].
Qed.

Lemma default_issue_panic s env x p s' :
  cs_Issue s env x = (Panicking p, s') -> err_in [40000; 40400]%Z p.
Proof. simpl. by intros [-> _]%Issue_panic. Qed.

Lemma default_revoke_err s x e s' :
  cs_Revoke s x = (Err e, s') -> err_in [40000; 40400]%Z e.
Proof.
  simpl. unfold Revoke. destruct (GetInformation s x); intros [= <- _].
  apply elem_of_default_codes. by right.
Qed.

Lemma default_lookup_err B p e :
  Repo.spec_get B p = Err e -> err_in [40000; 40400]%Z e.
Proof.
  unfold Repo.spec_get. destruct (List.find p B); intros [= <-].
  apply elem_of_default_codes. by right.
Qed.

(** C17: the server built on the default code store and repository
    answers every request, authorised or not, routed or not, with one of
    the statuses 200, 301, 307, 400, 401, 404, 500: the recovery
    middleware never panics and the connection is never dropped. *)
Theorem ServeHTTP_default_status (srv : Server defaultCodeStore Repo.db W) env req :
  exists st, status_of (ServeHTTP srv env req).1 = Some st /\
    st ∈ [200; 301; 307; 400; 401; 404; 500]%Z.
Proof.
  destruct (ServeHTTP_good_status (W := W) [40000; 40400]%Z) with (srv := srv) (env := env) (req := req)
    as (st & Hst & [Hin|(c & Hc & ->)]).
  - intros c [-> | ->]%elem_of_default_codes; lia.
  - apply elem_of_default_codes. by left.
  - exact default_info_err.
  - exact default_issue_err.
  - exact default_issue_panic.
  - exact default_revoke_err.
  - intros r x e. simpl. rewrite GetUserByDiscord_refines. apply default_lookup_err.
  - intros r x e. simpl. rewrite GetUserByXUID_refines. apply default_lookup_err.
  - exists st. split; [done|]. unfold plain_statuses in Hin. set_solver.
  - exists (c / 100)%Z. split; [done|]. apply elem_of_default_codes in Hc as [-> | ->]; set_solver.
Qed.

Lemma recovery_bad_request msg :
  recoveryMiddleware (Panicking (EApp (NewApplicationError 40000 msg))) =
    RJSON 400 (FailurePayload (NewApplicationError 40000 msg)).
Proof. by rewrite recovery_five_digit_code by (simpl; try lia; reflexivity). Qed.

Lemma recovery_not_found msg :
  recoveryMiddleware (Panicking (EApp (NewApplicationError 40400 msg))) =
    RJSON 404 (FailurePayload (NewApplicationError 40400 msg)).
Proof. by rewrite recovery_five_digit_code by (simpl; try lia; reflexivity). Qed.

(** C9: the design notes' issuing scenario over HTTP, from
    any well-formed state where the game identity (not itself shaped
    like a code) has no code and no binding: the first [POST
    /codes/issue] stores a fresh code but answers 200 with a null
    [data] (the lookup by subject of [Issue]); a second one answers 400
    naming the code; [POST /codes/check] with the code answers 200 with
    its information. *)
Theorem http_issue_flow (srv : Server defaultCodeStore Repo.db W) env env' x c rest :
  store_wf (codeStr (service srv)) -> valid_code x = false ->
  (forall k i, codes (codeStr (service srv)) !! k = Some i -> XUID i <> x) ->
  (forall u, u ∈ Repo.abs (repo (service srv)) -> Repo.XUID u <> x) ->
  findFreeCode (codeStr (service srv)) (env_rand env) = Normal (c, rest) ->
  (serve_all srv [(env, authorized (accessToken srv) "POST" "/codes/issue" x);
                  (env', authorized (accessToken srv) "POST" "/codes/issue" x);
                  (env', authorized (accessToken srv) "POST" "/codes/check" c)]%string).1 =
    [RJSON 200 (SuccessPayload DataNil);
     RJSON 400 (FailurePayload (NewApplicationError 40000 ("Code " ++ c ++ " is already issued")));
     RJSON 200 (SuccessPayload (DataCodeInformation (issued_info env c x)))]%string.
Proof.
  intros Hwf Hx Hno Hnb Hff.
  pose proof (findFreeCode_sound _ _ _ Hff) as [Hc Hv]. simpl in Hc, Hv.
  destruct srv as [tok [r0 cs0 hs]]. cbn [service codeStr repo accessToken] in *.
  set (m := <[c:=issued_info env c x]> (codes cs0)).
  set (s1 := mkServer tok (mkService r0 (mkStore m) hs) : Server defaultCodeStore Repo.db W).
  assert (Hnil : m !! x = None).
  { subst m. rewrite lookup_insert_ne by congruence.
    destruct (codes cs0 !! x) as [i|] eqn:Hi; [|done].
    destruct (wf_key _ Hwf x i Hi) as [_ Hv']. congruence. }
  destruct (issued_lookups _ env c x Hwf Hc Hv Hno) as [Hgi Hgx]. fold m in Hgi, Hgx.
  assert (Hunbound : Repo.GetUserByXUID r0 x = Err Repo.errUserNotFound).
  { rewrite GetUserByXUID_refines. unfold Repo.spec_get.
    by rewrite find_none_intro by (intros u Hu; by apply string_eqb_false, Hnb). }
  assert (S1 : ServeHTTP (mkServer tok (mkService r0 cs0 hs)) env
                 (authorized tok "POST" "/codes/issue" x) = (RJSON 200 (SuccessPayload DataNil), s1)).
  { rewrite (ServeHTTP_routed _ _ _ RouteCodesIssue) by done. cbn [handle authorized req_body service].
    rewrite (IssueCode_default_fresh (mkService r0 cs0 hs) env x c rest Hwf Hno Hnb Hff).
    simpl. fold m. by rewrite Hnil. }
  assert (S2 : ServeHTTP s1 env' (authorized tok "POST" "/codes/issue" x) =
                 (RJSON 400 (FailurePayload (NewApplicationError 40000
                    ("Code " ++ c ++ " is already issued"))), s1)).
  { rewrite (ServeHTTP_routed _ _ _ RouteCodesIssue) by done. cbn [handle authorized req_body service].
    unfold IssueCode. cbn [repo codeStr repo_GetUserByXUID defaultRepository_Repository s1 service].
    rewrite Hunbound. cbn [cs_Issue defaultCodeStore_CodeStore]. unfold Issue. rewrite Hgx.
    cbn -[recoveryMiddleware]. by rewrite recovery_bad_request. }
  assert (S3 : ServeHTTP s1 env' (authorized tok "POST" "/codes/check" c) =
                 (RJSON 200 (SuccessPayload (DataCodeInformation (issued_info env c x))), s1)).
  { rewrite (ServeHTTP_routed _ _ _ RouteCodesCheck) by done. cbn [handle authorized req_body service].
    unfold CheckCode. cbn [cs_GetInformation defaultCodeStore_CodeStore codeStr s1 service].
    by rewrite Hgi. }
  cbn [serve_all]. rewrite S1. cbv beta iota. rewrite S2. cbv beta iota. rewrite S3. done.
Qed.

Lemma spec_get_Err B p e : Repo.spec_get B p = Err e -> e = Repo.errUserNotFound.
Proof. unfold Repo.spec_get. by destruct (List.find p B); intros [= <-]. Qed.

Lemma segment_ok_nonempty x : segment_ok x = true -> String.eqb x "" = false.
Proof. unfold segment_ok. by intros [?%negb_true_iff _]%andb_true_iff. Qed.

Definition lookup_response (r : res goerror Repo.User) : Response :=
  match r with
  | Ok u => RJSON 200 (SuccessPayload (DataUser u))
  | Err _ => RJSON 404 (FailurePayload (NewApplicationError 40400 "User not found"))
  end.

Lemma lookup_response_must B p :
  recoveryMiddleware (outcome_bind (must (Repo.spec_get B p))
    (fun user => Normal (RJSON StatusOK (SuccessPayload (DataUser user))))) =
  lookup_response (Repo.spec_get B p).
Proof.
  destruct (Repo.spec_get B p) as [u|e] eqn:E; [done|].
  apply spec_get_Err in E as ->. apply recovery_not_found.
Qed.

(** C26: [GET /users/xuid/<x>] and [GET /users/discord/<x>],
    for every segment [x] a parameter accepts, answer the repository
    contract's lookup by that identity (200 with the user, or 404
    ["User not found"]) and change nothing. *)
Theorem http_user_lookup (srv : Server defaultCodeStore Repo.db W) env b x :
  segment_ok x = true ->
  ServeHTTP srv env (authorized (accessToken srv) "GET" ("/users/xuid/" ++ x) b) =
    (lookup_response (Repo.spec_get (Repo.abs (repo (service srv))) (Repo.has_xuid x)), srv) /\
  ServeHTTP srv env (authorized (accessToken srv) "GET" ("/users/discord/" ++ x) b) =
    (lookup_response (Repo.spec_get (Repo.abs (repo (service srv))) (Repo.has_discord x)), srv).
Proof.
  intros Hx. pose proof (segment_ok_nonempty x Hx) as Hne. split.
  - rewrite (ServeHTTP_routed _ _ _ (RouteUsersXuid x)) by first [exact (route_users_xuid x Hx) | reflexivity].
    cbn [handle authorized req_body]. rewrite Hne. cbn [fst snd].
    unfold GetUserByXUID. cbn [repo_GetUserByXUID defaultRepository_Repository].
    rewrite GetUserByXUID_refines, lookup_response_must. by destruct srv.
  - rewrite (ServeHTTP_routed _ _ _ (RouteUsersDiscord x)) by first [exact (route_users_discord x Hx) | reflexivity].
    cbn [handle authorized req_body]. rewrite Hne. cbn [fst snd].
    unfold GetUserByDiscord. cbn [repo_GetUserByDiscord defaultRepository_Repository].
    rewrite GetUserByDiscord_refines, lookup_response_must. by destruct srv.
Qed.

(** What one request may change in the default server: only the code
    store, and only through [Issue] or [Revoke]. *)
Definition server_inv (srv0 srv : Server defaultCodeStore Repo.db W) : Prop :=
  accessToken srv = accessToken srv0 /\ repo (service srv) = repo (service srv0) /\
  handlers (service srv) = handlers (service srv0) /\ store_wf (codeStr (service srv)).

Lemma handle_default_inv (svc : Service defaultCodeStore Repo.db W) env rt b :
  store_wf (codeStr svc) ->
  let svc' := (handle svc env rt b).2 in
  repo svc' = repo svc /\ handlers svc' = handlers svc /\ store_wf (codeStr svc').
Proof.
  intros Hwf. destruct rt; cbn [handle]; try (destruct (String.eqb _ _)); try done.
  - unfold IssueCode. destruct (repo_GetUserByXUID _ _); [done|].
    pose proof (Issue_wf (codeStr svc) env b Hwf) as H.
    cbn [cs_Issue defaultCodeStore_CodeStore]. destruct (Issue _ _ _) as [o c'] eqn:E.
    simpl in *. done.
  - unfold RevokeCode. pose proof (Revoke_wf (codeStr svc) b Hwf) as H.
    cbn [cs_Revoke defaultCodeStore_CodeStore]. destruct (Revoke _ _) as [r c'] eqn:E.
    simpl in *. done.
Qed.

Lemma ServeHTTP_default_inv (srv : Server defaultCodeStore Repo.db W) env req :
  store_wf (codeStr (service srv)) -> server_inv srv (ServeHTTP srv env req).2.
Proof.
  intros Hwf. unfold ServeHTTP, server_inv, authMiddleware.
  destruct (route _ _) as [rt|];
    [destruct (negb _)|destruct (trailing_slash_redirect _ _); [done|destruct (negb _)]];
    cbn; try done.
  pose proof (handle_default_inv (service srv) env rt (req_body req) Hwf) as H.
  destruct (handle _ _ _ _) as [o svc']. simpl in *. naive_solver.
Qed.

(** C27: over any sequence of requests, authorised or not, the
    HTTP API never changes the bindings, the registered handlers or the
    access token, and the code store stays well-formed: the only way to
    bind is the chat command. *)
Theorem serve_all_invariant (srv : Server defaultCodeStore Repo.db W) reqs :
  store_wf (codeStr (service srv)) -> server_inv srv (serve_all srv reqs).2.
Proof.
  revert srv; induction reqs as [|[env req] reqs IH]; intros srv Hwf; [done|].
  cbn [serve_all]. pose proof (ServeHTTP_default_inv srv env req Hwf) as H1.
  destruct (ServeHTTP srv env req) as [r srv1]. simpl in H1.
  destruct H1 as (T1 & R1 & H1 & W1). specialize (IH srv1 W1).
  destruct (serve_all srv1 reqs) as [rs srv2]. destruct IH as (T2 & R2 & H2 & W2).
  unfold server_inv. simpl in *. by rewrite T2, R2, H2.
Qed.

End DefaultServer.

(** ** Witnesses at concrete inputs *)

Lemma ServeHTTP_unauthorized_witness :
  (ServeHTTP example_server Default.example_env
     (mkRequest "POST" "/codes/issue" "" "XUID-1")).2 = example_server /\
  ((ServeHTTP example_server Default.example_env
      (mkRequest "POST" "/codes/issue" "" "XUID-1")).1 = RStatus StatusUnauthorized \/
   exists st loc, (ServeHTTP example_server Default.example_env
      (mkRequest "POST" "/codes/issue" "" "XUID-1")).1 = RRedirect st loc).
Proof. apply ServeHTTP_unauthorized. simpl. discriminate. Defined.

Lemma recovery_code_out_of_range_witness :
  recoveryMiddleware (Panicking (EApp (NewApplicationError 42 "teapot"))) = RConnectionAborted /\
  recoveryMiddleware (Panicking (EApp (NewApplicationError (-40000) "negative"))) =
    RJSON StatusOK (FailurePayload (NewApplicationError (-40000) "negative")).
Proof.
  split; [apply (recovery_code_out_of_range (NewApplicationError 42 "teapot")); simpl; lia|].
  apply (recovery_code_out_of_range (NewApplicationError (-40000) "negative")).
  simpl. unfold Strconv.int64_min. lia.
Defined.

Lemma http_issue_flow_witness :
  (serve_all example_fresh_server
     [(Default.example_env, authorized "secret" "POST" "/codes/issue" "XUID-1");
      (Default.example_env, authorized "secret" "POST" "/codes/issue" "XUID-1");
      (Default.example_env, authorized "secret" "POST" "/codes/check" "012345")]%string).1 =
    [RJSON 200 (SuccessPayload DataNil);
     RJSON 400 (FailurePayload (NewApplicationError 40000 ("Code " ++ "012345" ++ " is already issued")));
     RJSON 200 (SuccessPayload (DataCodeInformation
                  (Default.issued_info Default.example_env "012345" "XUID-1")))]%string.
Proof.
  apply (http_issue_flow example_fresh_server Default.example_env Default.example_env
           "XUID-1" "012345" []).
  - apply store_wfb_spec. reflexivity.
  - vm_compute. reflexivity.
  - intros k i Hk. simpl in Hk. rewrite lookup_empty in Hk. discriminate.
  - intros u Hu. simpl in Hu. by apply elem_of_nil in Hu.
  - vm_compute. reflexivity.
Defined.

Lemma http_user_lookup_witness :
  ServeHTTP example_server Default.example_env
    (authorized (accessToken example_server) "GET" ("/users/xuid/" ++ "XUID-1") "") =
    (lookup_response (Repo.spec_get (Repo.abs (repo (service example_server))) (Repo.has_xuid "XUID-1")),
     example_server) /\
  ServeHTTP example_server Default.example_env
    (authorized (accessToken example_server) "GET" ("/users/discord/" ++ "XUID-1") "") =
    (lookup_response (Repo.spec_get (Repo.abs (repo (service example_server))) (Repo.has_discord "XUID-1")),
     example_server).
Proof. apply http_user_lookup. reflexivity. Defined.

Lemma serve_all_invariant_witness :
  server_inv example_server
    (serve_all example_server
       [(Default.example_env, authorized "secret" "POST" "/codes/issue" "XUID-2");
        (Default.example_env, authorized "secret" "POST" "/codes/revoke" "012345")]%string).2.
Proof. apply serve_all_invariant. apply store_wfb_spec. reflexivity. Defined.
