(* ===== verification/Opts.v ===== *)
(** * Wiring: [src/server/opts.go] and [NewServer] in [src/server/server.go]

    [Opts] carries the three dependencies of a server; [FillEmptyOpts]
    fills the missing ones with the defaults, in place, and [NewServer]
    builds the service and the bot from the filled options.  The
    interfaces are instantiated with their default implementations; the
    logger is present or absent, its configuration not modelled.  What
    the outside world answers is explicit: the table [NewDefaultRepository]
    finds in [database.db] (or its error), and what Discord answers to
    [NewBot] ([Discord.v]). *)

From S2P Require Import Prelude Errors CodeGen CodeStore Repository Service Discord Http.

(** [type Opts struct { Logger *slog.Logger; Repo Repository; CodeStr CodeStore }];
    [None] is a nil field. *)
Record Opts := mkOpts {
  Logger : option unit;
  Repo : option Repo.db;
  CodeStr : option Default.defaultCodeStore
}.

(** What the start-up reads from the outside world: the result of
    [NewDefaultRepository()] (the table already in [database.db] after
    [AutoMigrate], or the error of [gorm.Open] or [AutoMigrate]), and the
    Discord that [NewBot] talks to. *)
Record WiringEnv := mkWiringEnv {
  env_repository : res goerror Repo.db;
  env_discord : DiscordEnv
}.

(** [func FillEmptyOpts(opts *Opts)]: the fields are filled in order
    [Logger], [Repo] (through [utils.ErrorPanic]), [CodeStr]. *)
Definition FillEmptyOpts (wenv : WiringEnv) (opts : Opts) : outcome goerror Opts :=
  let logger := match Logger opts with Some l => l | None => tt end in
  match Repo opts with
  | Some r => Normal (mkOpts (Some logger) (Some r)
                       (Some (default Default.newDefaultCodeStore (CodeStr opts))))
  | None =>
      match env_repository wenv with
      | Err e => Panicking e
      | Ok r => Normal (mkOpts (Some logger) (Some r)
                         (Some (default Default.newDefaultCodeStore (CodeStr opts))))
      end
  end.

(** [func DefaultOpts() *Opts] *)
Definition DefaultOpts (wenv : WiringEnv) : outcome goerror Opts :=
  FillEmptyOpts wenv (mkOpts None None None).

(** [func NewServer(accessToken, discordBotToken string, opts *Opts) *Server]:
    the fields the HTTP handler reads, the [bot] field, and the options
    as [FillEmptyOpts] left them.  The bot's [service] is the server's. *)
Definition NewServer {W : Type} (wenv : WiringEnv) (accessToken discordBotToken : string) (opts : Opts)
    : outcome goerror (Server Default.defaultCodeStore Repo.db W * Bot * Opts) :=
  match FillEmptyOpts wenv opts with
  | Panicking p => Panicking p
  | Normal opts' =>
      match Repo opts', CodeStr opts' with
      | Some r, Some c =>
          let service := NewService r c in
          match NewBot (env_discord wenv) discordBotToken with
          | Err e => Panicking e
          | Ok bot => Normal (mkServer accessToken service, bot, opts')
          end
      | _, _ => Panicking ENilDeref
      end
  end.

(** The example server's start-up: token ["aaaa-bbb-cc"], a logger, and
    nothing else. *)
Definition example_server_opts : Opts := mkOpts (Some tt) None None.

(** ** Facts *)

(** [FillEmptyOpts] keeps every field that was set and fills
    every nil one, and panics exactly when it must open the default
    repository and that fails. *)
Theorem FillEmptyOpts_spec wenv opts :
  match FillEmptyOpts wenv opts with
  | Normal opts' =>
      is_Some (Logger opts') /\ is_Some (Repo opts') /\ is_Some (CodeStr opts') /\
      (forall l, Logger opts = Some l -> Logger opts' = Some l) /\
      (forall r, Repo opts = Some r -> Repo opts' = Some r) /\
      (forall c, CodeStr opts = Some c -> CodeStr opts' = Some c) /\
      FillEmptyOpts wenv opts' = Normal opts'
  | Panicking p => Repo opts = None /\ env_repository wenv = Err p
  end.
Proof.
  destruct opts as [[l|] [r|] [c|]]; unfold FillEmptyOpts; simpl;
    try destruct (env_repository wenv) as [r|e]; simpl; split_and!;
    by (eauto || naive_solver).
Qed.

(** When both outside calls succeed, [NewServer] serves
    with the given token a service with no handler, the repository of
    the options or the one opened from disk, and the store of the
    options or, by default, the empty store; its bot is the one [NewBot]
    opened. *)
Theorem NewServer_spec {W} wenv tok dtok opts r b :
  NewBot (env_discord wenv) dtok = Ok b ->
  (Repo opts = Some r \/ (Repo opts = None /\ env_repository wenv = Ok r)) ->
  exists opts', NewServer (W := W) wenv tok dtok opts =
    Normal (mkServer tok (NewService r (default Default.newDefaultCodeStore (CodeStr opts))), b, opts').
Proof.
  intros Hbot Hr. unfold NewServer, FillEmptyOpts.
  destruct Hr as [Hr|[Hr He]]; rewrite Hr; [|rewrite He]; simpl; rewrite Hbot; eauto.
Qed.

(** ** Witnesses at concrete inputs *)

Lemma NewServer_example :
  exists opts', NewServer (W := unit) (mkWiringEnv (Ok Repo.empty_db) example_discord) "aaaa-bbb-cc" "token"
                  example_server_opts =
    Normal (mkServer "aaaa-bbb-cc" (NewService Repo.empty_db
              (default Default.newDefaultCodeStore (CodeStr example_server_opts))), example_bot, opts').
Proof. apply NewServer_spec; [reflexivity|right; split; reflexivity]. Defined.
