(* ===== verification/Client.v ===== *)
(** * HTTP API client: [src/client/api.go]

    Each method of [Api] is split into the request it builds and the
    function that turns the server's answer into its result, so that a
    call is the composition [Api_call] with the server model of
    [Http.ServeHTTP].  The libraries it calls are modelled as documented:
    resty's [SetPathParams] ([strings.Replace] of ["{" + key + "}"] by
    [url.PathEscape(value)]; resty sends no header the code does not
    set), [encoding/json] (the server's [Payload] as a JSON value and
    [json.Unmarshal] into [server.Payload], field names matched
    case-insensitively) and [mapstructure.Decode] (a struct input is read
    as the map of its field names, matched with [strings.EqualFold]).
    The JSON text and the encoding of [time.Time] are not modelled: a
    body is a JSON value, and times are encoded by an arbitrary
    [time_json]. *)

From S2P Require Import Prelude Errors CodeStore Repository Service Http.
From Stdlib Require Import Ascii.

Open Scope string_scope.
Open Scope go_scope.

(** A JSON document. *)
Inductive jvalue : Type :=
| JNull
| JNumber (z : Z)
| JString (s : string)
| JObject (fields : list (string * jvalue)).

(** The errors the client returns: transport failure, [json.Unmarshal]
    failures, [errors.New(responsePayload.Error.Message)], and
    [errors.New(fmt.Sprintf("can't access %s", host))]. *)
Inductive client_error : Type :=
| CTransport
| CJsonSyntax (what : string)
| CJsonType
| CServer (message : string)
| CCantAccess (host : string).

(** [type Api struct { host string; accessToken string }] *)
Record Api := mkApi {
  host : string;
  api_accessToken : string
}.

(** ASCII case folding, which is what [strings.EqualFold] does on the
    ASCII field names compared here. *)
Definition ascii_lower (c : ascii) : ascii :=
  let n := nat_of_ascii c in
  if (65 <=? n)%nat && (n <=? 90)%nat then ascii_of_nat (n + 32)%nat else c.

Definition EqualFold (a b : string) : bool :=
  String.eqb (String.string_of_list_ascii (map ascii_lower (String.list_ascii_of_string a)))
             (String.string_of_list_ascii (map ascii_lower (String.list_ascii_of_string b))).

(** The value of the first key matching [name] case-insensitively. *)
Definition field_fold {V} (kvs : list (string * V)) (name : string) : option V :=
  option_map snd (List.find (fun kv => EqualFold kv.1 name) kvs).

(** [strings.Replace(s, old, new, -1)] for a non-empty [old]: every
    non-overlapping occurrence, left to right; each round consumes at
    least one character, so [length s] rounds suffice. *)
Fixpoint replace_all_fuel (fuel : nat) (s old new : string) : string :=
  match fuel with
  | O => s
  | S f =>
      if String.prefix old s && negb (String.eqb old "") then
        new ++ replace_all_fuel f (String.substring (String.length old)
                                    (String.length s - String.length old) s) old new
      else match s with
           | EmptyString => EmptyString
           | String c s' => String c (replace_all_fuel f s' old new)
           end
  end.

Definition replace_all (s old new : string) : string :=
  replace_all_fuel (String.length s) s old new.

(** [url.PathEscape]: the bytes a path segment keeps are letters,
    digits and [-_.~$&+:=@]; every other byte becomes [%XX]. *)
Definition path_keeps (c : ascii) : bool :=
  let n := nat_of_ascii c in
  ((48 <=? n) && (n <=? 57))%nat || ((65 <=? n) && (n <=? 90))%nat || ((97 <=? n) && (n <=? 122))%nat ||
  existsb (Ascii.eqb c) ["-"; "_"; "."; "~"; "$"; "&"; "+"; ":"; "="; "@"]%char.

Definition hex_digit (n : nat) : ascii :=
  if (n <? 10)%nat then ascii_of_nat (48 + n)%nat else ascii_of_nat (55 + n)%nat.

Definition escape_char (c : ascii) : list ascii :=
  if path_keeps c then [c]
  else ["%"%char; hex_digit (nat_of_ascii c / 16)%nat; hex_digit (nat_of_ascii c mod 16)%nat].

Definition PathEscape (s : string) : string :=
  String.string_of_list_ascii (concat (map escape_char (String.list_ascii_of_string s))).

(** [url.PathUnescape], which net/http applies to the request path
    before routing: [%XX] with two hex digits of either case, else an
    error. *)
Definition unhex (c : ascii) : option nat :=
  let n := nat_of_ascii c in
  if ((48 <=? n) && (n <=? 57))%nat then Some (n - 48)%nat
  else if ((65 <=? n) && (n <=? 70))%nat then Some (n - 55)%nat
  else if ((97 <=? n) && (n <=? 102))%nat then Some (n - 87)%nat
  else None.

Fixpoint unescape_chars (l : list ascii) : option (list ascii) :=
  match l with
  | [] => Some []
  | c :: rest =>
      if Ascii.eqb c "%" then
        match rest with
        | h :: lo :: rest' =>
            match unhex h, unhex lo with
            | Some a, Some b => option_map (cons (ascii_of_nat (16 * a + b))) (unescape_chars rest')
            | _, _ => None
            end
        | _ => None
        end
      else option_map (cons c) (unescape_chars rest)
  end.

Definition PathUnescape (s : string) : option string :=
  option_map String.string_of_list_ascii (unescape_chars (String.list_ascii_of_string s)).

(** resty's [SetPathParams] applied to the URL path. *)
Definition SetPathParams (params : list (string * string)) (path : string) : string :=
  fold_left (fun p kv => replace_all p ("{" ++ kv.1 ++ "}") (PathEscape kv.2)) params path.

(** [getRequest()] is [resty.New().R()]: no [Authorization] header. *)
Definition getRequest (method path body : string) : Request :=
  mkRequest method path "" body.

(** What [json.Unmarshal] makes of the body into [server.Payload]. *)
Record ClientPayload := mkClientPayload {
  cp_Error : option (Z * string);
  cp_Data : jvalue
}.

(** [mapstructure.Decode(responsePayload, &response)]: a struct input is
    read as the map from its field names [Error] and [Data] to their
    values; each field of the target takes the value of the key equal to
    its name up to case, and keeps its zero value when there is none. *)
Definition payload_as_map (p : ClientPayload) : list (string * jvalue) :=
  [("Error", match cp_Error p with
             | None => JNull
             | Some (c, m) => JObject [("Code", JNumber c); ("Message", JString m)]
             end);
   ("Data", cp_Data p)].

Definition decode_string (v : option jvalue) : res client_error string :=
  match v with
  | None => Ok ""
  | Some (JString s) => Ok s
  | Some _ => Err CJsonType
  end.

(** The zero [time.Time] as a clock reading. *)
Definition zero_time : Z := 0.

Definition decode_time (v : option jvalue) : res client_error Z :=
  match v with
  | None => Ok zero_time
  | Some _ => Err CJsonType
  end.

Definition decode_CodeInformation (m : list (string * jvalue)) : res client_error CodeInformation :=
  c <- decode_string (field_fold m "Code") ;;
  x <- decode_string (field_fold m "XUID") ;;
  i <- decode_time (field_fold m "Issued") ;;
  e <- decode_time (field_fold m "Expires") ;;
  Ok (mkCodeInformation c x i e).

Definition decode_User (m : list (string * jvalue)) : res client_error Repo.User :=
  d <- decode_string (field_fold m "Discord") ;;
  x <- decode_string (field_fold m "XUID") ;;
  Ok (Repo.mkUser d x).

Section Client.
(** [time.Time]'s JSON encoding. *)
Variable time_json : Z -> jvalue.

(** [json.Marshal] of the server's [Payload]: tags [error] and [data];
    [ErrorInformation], [CodeInformation] and [User] have none. *)
Definition data_json (d : PayloadData) : jvalue :=
  match d with
  | DataNil => JNull
  | DataCodeInformation i =>
      JObject [("Code", JString (Code i)); ("XUID", JString (XUID i));
               ("Issued", time_json (Issued i)); ("Expires", time_json (Expires i))]
  | DataUser u => JObject [("Discord", JString (Repo.Discord u)); ("XUID", JString (Repo.XUID u))]
  end.

Definition payload_json (p : Payload) : jvalue :=
  JObject [("error", match Payload_Error p with
                     | None => JNull
                     | Some ei => JObject [("Code", JNumber (EI_Code ei)); ("Message", JString (EI_Message ei))]
                     end);
           ("data", data_json (Payload_Data p))].

(** The body the client reads: JSON for [c.JSON], text for [c.String]
    (["hello world!"] and ["404 page not found"], neither of which is
    JSON), nothing for [AbortWithStatus]; a dropped connection, or a
    redirect (never produced for the paths the client uses), is a
    transport error of resty. *)
Definition response_body (r : Response) : res client_error (option jvalue) :=
  match r with
  | RJSON _ p => Ok (Some (payload_json p))
  | RString _ body => Err (CJsonSyntax body)
  | RStatus _ => Ok None
  | RRedirect _ _ | RConnectionAborted => Err CTransport
  end.

(** [json.Unmarshal(resp.Body(), &responsePayload)]. *)
Definition Unmarshal_Payload (body : option jvalue) : res client_error ClientPayload :=
  match body with
  | None => Err (CJsonSyntax "unexpected end of JSON input")
  | Some JNull => Ok (mkClientPayload None JNull)
  | Some (JObject kvs) =>
      let data := match field_fold kvs "data" with Some d => d | None => JNull end in
      match field_fold kvs "error" with
      | None | Some JNull => Ok (mkClientPayload None data)
      | Some (JObject e) =>
          match field_fold e "Code", field_fold e "Message" with
          | Some (JNumber c), Some (JString m) => Ok (mkClientPayload (Some (c, m)) data)
          | Some (JNumber c), None => Ok (mkClientPayload (Some (c, "")) data)
          | None, Some (JString m) => Ok (mkClientPayload (Some (0%Z, m)) data)
          | None, None => Ok (mkClientPayload (Some (0%Z, "")) data)
          | _, _ => Err CJsonType
          end
      | Some _ => Err CJsonType
      end
  | Some _ => Err CJsonType
  end.

(** The common tail of the five methods: unmarshal, refuse a payload
    with an error, [mapstructure.Decode] the payload itself. *)
Definition handle_payload {A} (decode : list (string * jvalue) -> res client_error A)
    (resp : Response) : res client_error A :=
  body <- response_body resp ;;
  responsePayload <- Unmarshal_Payload body ;;
  match cp_Error responsePayload with
  | Some (_, msg) => Err (CServer msg)
  | None => decode (payload_as_map responsePayload)
  end.

(** [func (a *Api) Test() bool] *)
Definition Test_request (a : Api) : Request := getRequest "GET" "/test" "".
Definition Test_response (resp : Response) : bool :=
  match resp with
  | RConnectionAborted | RRedirect _ _ => false
  | _ => match status_of resp with Some st => Z.eqb st StatusOK | None => false end
  end.

(** [IssueCode], [CheckCode], [RevokeCode]: the body is the raw string. *)
Definition IssueCode_request (a : Api) (xuid : string) : Request :=
  getRequest "POST" "/codes/issue" xuid.
Definition CheckCode_request (a : Api) (code : string) : Request :=
  getRequest "POST" "/codes/check" code.
Definition RevokeCode_request (a : Api) (code : string) : Request :=
  getRequest "POST" "/codes/revoke" code.

(** [GetUserByDiscord]: the path parameter is set under the key
    ["{discord}"]. *)
Definition GetUserByDiscord_request (a : Api) (discordId : string) : Request :=
  getRequest "GET" (SetPathParams [("{discord}", discordId)] "/users/discord/{discord}") "".

(** [GetUserByXUID]: the path parameter is set under the key ["xuid"]. *)
Definition GetUserByXUID_request (a : Api) (xuid : string) : Request :=
  getRequest "GET" (SetPathParams [("xuid", xuid)] "/users/xuid/{xuid}") "".

Context {CS Env R W : Type} `{!CodeStore CS Env} `{!Repository R}.

(** One client call against the server model: net/http unescapes the
    path (a malformed escape is answered [400 Bad Request] before any
    handler), the request goes to [ServeHTTP], the answer to the
    method's response handling. *)
Definition Api_call {A} (srv : Server CS R W) (env : Env) (req : Request) (k : Response -> A)
    : A * Server CS R W :=
  match PathUnescape (req_path req) with
  | None => (k (RString 400 "400 Bad Request"), srv)
  | Some p =>
      let '(resp, srv') := ServeHTTP srv env (mkRequest (req_method req) p (req_authorization req) (req_body req)) in
      (k resp, srv')
  end.

(** [func NewApi(host, accessToken string)]: the [Test] probe decides. *)
Definition NewApi (srv : Server CS R W) (env : Env) (h tok : string) : res client_error Api * Server CS R W :=
  let inst := mkApi h tok in
  let '(ok, srv') := Api_call srv env (Test_request inst) Test_response in
  (if ok then Ok inst else Err (CCantAccess h), srv').

Definition Api_IssueCode srv env a xuid : res client_error CodeInformation * Server CS R W :=
  Api_call srv env (IssueCode_request a xuid) (handle_payload decode_CodeInformation).
Definition Api_CheckCode srv env a code : res client_error CodeInformation * Server CS R W :=
  Api_call srv env (CheckCode_request a code) (handle_payload decode_CodeInformation).
Definition Api_RevokeCode srv env a code : res client_error CodeInformation * Server CS R W :=
  Api_call srv env (RevokeCode_request a code) (handle_payload decode_CodeInformation).
Definition Api_GetUserByDiscord srv env a discordId : res client_error Repo.User * Server CS R W :=
  Api_call srv env (GetUserByDiscord_request a discordId) (handle_payload decode_User).
Definition Api_GetUserByXUID srv env a xuid : res client_error Repo.User * Server CS R W :=
  Api_call srv env (GetUserByXUID_request a xuid) (handle_payload decode_User).

End Client.

(** The example plugin's client, and a server over the default
    implementations with the empty access token and ["disc-1"] bound to
    ["XUID-1"]. *)
Definition example_api : Api := mkApi "http://127.0.0.1:8080" "aaaa-bbb-cc".

Definition example_open_server : Server Default.defaultCodeStore Repo.db unit :=
  mkServer "" (NewService Repo.example_db Default.newDefaultCodeStore).

(** Times as JSON numbers, for the witnesses. *)
Definition time_as_number (t : Z) : jvalue := JNumber t.

Definition zero_CodeInformation : CodeInformation := mkCodeInformation "" "" zero_time zero_time.
Definition zero_User : Repo.User := Repo.mkUser "" "".

Close Scope string_scope.

(** ** Escaping *)

Lemma unhex_hex_digit n : (n < 16)%nat -> unhex (hex_digit n) = Some n.
Proof. intros H. do 16 (destruct n as [|n]; [reflexivity|]). lia. Qed.

Lemma path_keeps_percent : path_keeps "%"%char = false.
Proof. reflexivity. Qed.

Lemma unescape_escape l : unescape_chars (concat (map escape_char l)) = Some l.
Proof.
  induction l as [|c l IH]; [done|]. cbn [map concat]. unfold escape_char at 1.
  destruct (path_keeps c) eqn:Hk.
  - assert (Hc : Ascii.eqb c "%" = false).
    { apply Ascii.eqb_neq. intros ->. by rewrite path_keeps_percent in Hk. }
    cbn [app unescape_chars]. by rewrite Hc, IH.
  - pose proof (nat_ascii_bounded c) as Hb. cbn [app unescape_chars Ascii.eqb].
    rewrite !unhex_hex_digit by (apply Nat.Div0.div_lt_upper_bound || apply Nat.mod_upper_bound; lia).
    rewrite IH. cbn [option_map]. do 2 f_equal.
    rewrite <-(Nat.div_mod_eq (nat_of_ascii c) 16). apply ascii_nat_embedding.
Qed.

(** net/http's unescaping of the path inverts [url.PathEscape]. *)
Lemma PathUnescape_PathEscape s : PathUnescape (PathEscape s) = Some s.
Proof.
  unfold PathUnescape, PathEscape.
  rewrite String.list_ascii_of_string_of_list_ascii, unescape_escape. simpl.
  by rewrite String.string_of_list_ascii_of_string.
Qed.

(** ** Requests *)

Lemma SetPathParams_discord a discordId :
  GetUserByDiscord_request a discordId = getRequest "GET" "/users/discord/{discord}" "".
Proof. unfold GetUserByDiscord_request, SetPathParams, replace_all. vm_compute. reflexivity. Qed.

Lemma replace_all_xuid n :
  replace_all "/users/xuid/{xuid}" "{xuid}" n = ("/users/xuid/" ++ (n ++ ""))%string.
Proof. vm_compute. reflexivity. Qed.

Lemma SetPathParams_xuid a xuid :
  GetUserByXUID_request a xuid = getRequest "GET" ("/users/xuid/" ++ PathEscape xuid) "".
Proof.
  unfold GetUserByXUID_request, SetPathParams. cbn [fold_left fst snd].
  by rewrite replace_all_xuid, string_app_nil_r.
Qed.

(** ** Calls against the server *)

Section Calls.
Context {CS Env R W : Type} `{!CodeStore CS Env} `{!Repository R}.
Variable time_json : Z -> jvalue.
Implicit Types (srv : Server CS R W).

Lemma Api_call_fst {A} srv env req (k : Response -> A) :
  exists resp, (Api_call srv env req k).1 = k resp.
Proof.
  unfold Api_call. destruct (PathUnescape _); [|eauto].
  destruct (ServeHTTP _ _ _). eauto.
Qed.

(** Without the access token, the call reaches no handler. *)
Lemma Api_call_denied {A} srv env req (k : Response -> A) :
  accessToken srv <> "" -> req_authorization req = "" ->
  Api_call srv env req k =
    match PathUnescape (req_path req) with
    | None => (k (RString 400 "400 Bad Request"), srv)
    | Some p => (k (denied_response (req_method req) p), srv)
    end.
Proof.
  intros Htok Hauth. unfold Api_call. destruct (PathUnescape _) as [p|]; [|done].
  rewrite ServeHTTP_denied by (simpl; congruence). done.
Qed.

Lemma handle_payload_denied {A} (dec : list (string * jvalue) -> res client_error A) m p :
  exists e, handle_payload time_json dec (denied_response m p) = Err e.
Proof.
  unfold denied_response. destruct (route m p); [eexists; reflexivity|].
  destruct (trailing_slash_redirect m p) as [r|] eqn:E; [|eexists; reflexivity].
  apply trailing_slash_redirect_inv in E as (st & loc & ->). eexists; reflexivity.
Qed.

Lemma handle_payload_bad_request {A} (dec : list (string * jvalue) -> res client_error A) :
  exists e, handle_payload time_json dec (RString 400 "400 Bad Request") = Err e.
Proof. eexists; reflexivity. Qed.

Lemma Api_call_denied_err {A} srv env req (dec : list (string * jvalue) -> res client_error A) :
  accessToken srv <> "" -> req_authorization req = "" ->
  exists e, Api_call srv env req (handle_payload time_json dec) = (Err e, srv).
Proof.
  intros Htok Hauth. rewrite Api_call_denied by done.
  destruct (PathUnescape _) as [p|].
  - destruct (handle_payload_denied dec (req_method req) p) as [e ->]. eauto.
  - destruct (handle_payload_bad_request dec) as [e ->]. eauto.
Qed.

(** C13: the client never sends the access token, so against a
    server configured with one, [NewApi]'s [/test] probe gets 401 and
    [NewApi] fails with ["can't access <host>"], whatever token it was
    given; the example plugin panics at start-up. *)
Theorem NewApi_unauthorized srv env h tok :
  accessToken srv <> "" -> NewApi srv env h tok = (Err (CCantAccess h), srv).
Proof.
  intros Htok. unfold NewApi. rewrite Api_call_denied by done. reflexivity.
Qed.

(** Against a server configured with an access token, every
    method of the client fails and leaves the server unchanged. *)
Theorem client_methods_unauthorized srv env a x :
  accessToken srv <> "" ->
  (exists e, Api_IssueCode time_json srv env a x = (Err e, srv)) /\
  (exists e, Api_CheckCode time_json srv env a x = (Err e, srv)) /\
  (exists e, Api_RevokeCode time_json srv env a x = (Err e, srv)) /\
  (exists e, Api_GetUserByDiscord time_json srv env a x = (Err e, srv)) /\
  (exists e, Api_GetUserByXUID time_json srv env a x = (Err e, srv)).
Proof. intros Htok. split_and!; apply Api_call_denied_err; done. Qed.

Lemma decode_CodeInformation_payload p :
  decode_CodeInformation (payload_as_map p) = Ok zero_CodeInformation.
Proof. destruct p as [[[c m]|] d]; reflexivity. Qed.

Lemma decode_User_payload p : decode_User (payload_as_map p) = Ok zero_User.
Proof. destruct p as [[[c m]|] d]; reflexivity. Qed.

Lemma handle_payload_zero {A} (dec : list (string * jvalue) -> res client_error A) z resp v :
  (forall p, dec (payload_as_map p) = Ok z) ->
  handle_payload time_json dec resp = Ok v -> v = z.
Proof.
  intros Hdec. unfold handle_payload.
  destruct (response_body _ _) as [body|]; simpl; [|done].
  destruct (Unmarshal_Payload body) as [p|]; simpl; [|done].
  destruct (cp_Error p) as [[c m]|]; [done|]. rewrite Hdec. congruence.
Qed.

(** C14: [mapstructure.Decode] is given the whole [Payload] (fields
    [Error] and [Data]) instead of its [Data], so no field of the target
    matches: whatever the server and its answer, a successful call of
    any method returns the zero [CodeInformation] or the zero [User],
    never the code or the binding the server sent. *)
Theorem client_results_zero srv env a x :
  (forall v, (Api_IssueCode time_json srv env a x).1 = Ok v -> v = zero_CodeInformation) /\
  (forall v, (Api_CheckCode time_json srv env a x).1 = Ok v -> v = zero_CodeInformation) /\
  (forall v, (Api_RevokeCode time_json srv env a x).1 = Ok v -> v = zero_CodeInformation) /\
  (forall v, (Api_GetUserByDiscord time_json srv env a x).1 = Ok v -> v = zero_User) /\
  (forall v, (Api_GetUserByXUID time_json srv env a x).1 = Ok v -> v = zero_User).
Proof.
  split_and!; intros v; unfold Api_IssueCode, Api_CheckCode, Api_RevokeCode,
    Api_GetUserByDiscord, Api_GetUserByXUID;
    match goal with |- (Api_call ?s ?e ?r ?k).1 = _ -> _ =>
      destruct (Api_call_fst s e r k) as [resp ->] end;
    apply handle_payload_zero;
    first [exact decode_CodeInformation_payload | exact decode_User_payload].
Qed.

(** [json.Unmarshal] of what [json.Marshal] wrote for a [Payload] gives
    back its error and its data: the envelope round-trips. *)
Lemma Unmarshal_payload_json p :
  Unmarshal_Payload (Some (payload_json time_json p)) =
  Ok (mkClientPayload (option_map (fun ei => (EI_Code ei, EI_Message ei)) (Payload_Error p))
                      (data_json time_json (Payload_Data p))).
Proof. destruct p as [[[c m]|] d]; reflexivity. Qed.

(** An [ApplicationError] the server answers with reaches the caller as
    its message, whatever the decoder. *)
Lemma handle_payload_failure {A} (dec : list (string * jvalue) -> res client_error A) st a :
  handle_payload time_json dec (RJSON st (FailurePayload a)) = Err (CServer (ApplicationError_Error a)).
Proof. unfold handle_payload. cbn [response_body res_bind]. by rewrite Unmarshal_payload_json. Qed.

End Calls.

Section DefaultCalls.
Context {W : Type}.
Variable time_json : Z -> jvalue.

(** C28: the client sets the path parameter under the key
    ["{discord}"], so resty looks for ["{{discord}}"] and leaves the
    placeholder in the URL: against the default server (with the empty
    access token the client can pass), [GetUserByDiscord] asks for the
    chat identity ["{discord}"] and answers ["User not found"] for every
    identity, bound or not. *)
Theorem client_GetUserByDiscord_literal (srv : Server Default.defaultCodeStore Repo.db W) env a discordId :
  accessToken srv = "" ->
  (forall u, u ∈ Repo.abs (repo (service srv)) -> Repo.Discord u <> "{discord}") ->
  Api_GetUserByDiscord time_json srv env a discordId = (Err (CServer "User not found"), srv).
Proof.
  intros Htok Hnb. unfold Api_GetUserByDiscord. rewrite SetPathParams_discord.
  unfold Api_call. cbn [req_path req_method req_authorization req_body getRequest].
  change (PathUnescape "/users/discord/{discord}") with (Some "/users/discord/{discord}").
  cbv iota beta.
  rewrite (ServeHTTP_routed _ _ _ (RouteUsersDiscord "{discord}"));
    [|reflexivity|simpl; by rewrite Htok].
  cbn [handle]. change (String.eqb "{discord}" "") with false. cbn [fst snd].
  unfold GetUserByDiscord. cbn [repo_GetUserByDiscord defaultRepository_Repository].
  rewrite GetUserByDiscord_refines, lookup_response_must.
  unfold Repo.spec_get.
  rewrite find_none_intro by (intros u Hu; by apply string_eqb_false, Hnb).
  destruct srv; reflexivity.
Qed.

End DefaultCalls.

(** ** Witnesses at concrete inputs *)

Lemma NewApi_unauthorized_witness :
  NewApi example_server Default.example_env "http://127.0.0.1:8080" "aaaa-bbb-cc"
    = (Err (CCantAccess "http://127.0.0.1:8080"), example_server).
Proof. apply NewApi_unauthorized. discriminate. Defined.

Lemma client_methods_unauthorized_witness :
  (exists e, Api_IssueCode time_as_number example_server Default.example_env example_api "XUID-1" = (Err e, example_server)) /\
  (exists e, Api_CheckCode time_as_number example_server Default.example_env example_api "XUID-1" = (Err e, example_server)) /\
  (exists e, Api_RevokeCode time_as_number example_server Default.example_env example_api "XUID-1" = (Err e, example_server)) /\
  (exists e, Api_GetUserByDiscord time_as_number example_server Default.example_env example_api "XUID-1" = (Err e, example_server)) /\
  (exists e, Api_GetUserByXUID time_as_number example_server Default.example_env example_api "XUID-1" = (Err e, example_server)).
Proof. apply client_methods_unauthorized. discriminate. Defined.

Lemma client_GetUserByDiscord_literal_witness :
  Api_GetUserByDiscord time_as_number example_open_server Default.example_env example_api "disc-1"
    = (Err (CServer "User not found"), example_open_server).
Proof.
  apply client_GetUserByDiscord_literal; [reflexivity|].
  intros u Hu. vm_compute in Hu. apply list_elem_of_singleton in Hu as ->. discriminate.
Defined.

Lemma list_ascii_of_string_app (s1 s2 : string) :
  String.list_ascii_of_string (s1 ++ s2) = String.list_ascii_of_string s1 ++ String.list_ascii_of_string s2.
Proof.
  induction s1 as [|c s1 IH]; [done|].
  change (c :: String.list_ascii_of_string (s1 ++ s2) =
          c :: String.list_ascii_of_string s1 ++ String.list_ascii_of_string s2). by rewrite IH.
Qed.

(** The path [GetUserByXUID] sends, once net/http has unescaped
    it, is ["/users/xuid/"] followed by exactly the XUID the caller gave,
    whatever bytes it holds: the escaping round-trips. *)
Theorem GetUserByXUID_path_roundtrip a xuid :
  PathUnescape (req_path (GetUserByXUID_request a xuid)) = Some ("/users/xuid/" ++ xuid)%string.
Proof.
  rewrite SetPathParams_xuid. cbn [req_path getRequest].
  unfold PathUnescape. rewrite list_ascii_of_string_app.
  unfold PathEscape. rewrite String.list_ascii_of_string_of_list_ascii.
  cbn [String.list_ascii_of_string app unescape_chars Ascii.eqb]. simpl.
  rewrite unescape_escape. simpl. by rewrite String.string_of_list_ascii_of_string.
Qed.
