(* ===== verification/Race.v ===== *)
(** * Concurrent requests: [src/server/codes.go], [src/server/repository.go]

    The HTTP server runs each request in its own goroutine and discordgo
    runs each interaction handler in its own goroutine; neither
    [defaultCodeStore] nor [defaultRepository] takes a lock.  Each call is
    modelled here as a thread whose steps are the statements of the Go
    method that touch the shared state, each step atomic (sequential
    consistency at statement granularity):

    - [Issue]: the [GetForXuid] check, the [findFreeCode] loop (its map
      reads as one step), the map write;
    - [CreateUser]: the [First] query and the [Create] insert, two SQL
      statements outside any transaction.

    A configuration is the shared state and the list of threads; a step
    runs one step of one thread ([sched_step]); [run_schedule] executes a
    given schedule.  The theorems: a [CreateUser] thread run alone
    computes the atomic operation of [Repository.v]; two concurrent [Issue]s for one subject, or two concurrent
    [CreateUser]s sharing an identity, can both succeed and break the
    invariants the sequential model keeps; concurrent [Issue]s for
    pairwise distinct subjects keep the store well-formed.  Go's runtime
    detection of concurrent map accesses (which may abort the process)
    is not modelled. *)

From S2P Require Import Prelude Errors CodeGen CodeStore Repository.

Open Scope string_scope.

(** ** A scheduler over threads sharing a state *)

Section Scheduler.
Context {S T : Type} (tstep : S -> T -> option (S * T)).

(** One step of thread [i]; [tstep] is [None] on a finished thread. *)
Inductive sched_step : S * list T -> S * list T -> Prop :=
| sched_step_run s ts i t s' t' :
    ts !! i = Some t -> tstep s t = Some (s', t') ->
    sched_step (s, ts) (s', <[i := t']> ts).

(** The executable counterpart: run the threads in the order the
    schedule names them; a finished or absent thread does nothing. *)
Fixpoint run_schedule (sched : list nat) (c : S * list T) : S * list T :=
  match sched with
  | [] => c
  | i :: rest =>
      match c.2 !! i with
      | Some t =>
          match tstep c.1 t with
          | Some (s', t') => run_schedule rest (s', <[i := t']> c.2)
          | None => run_schedule rest c
          end
      | None => run_schedule rest c
      end
  end.

End Scheduler.

(** ** Concurrent [Issue] *)

Module IssueRace.
Import Default.

(** Where a goroutine running [Issue] stands. *)
Inductive issue_thread : Type :=
| IStart (env : IssueEnv) (x : string)
| IChecked (env : IssueEnv) (x : string)
| IGenerated (env : IssueEnv) (x : string) (code : string)
| IDone (r : outcome goerror (res goerror (option CodeInformation))).

(** One statement of [Issue] on the shared map. *)
Definition issue_step (s : defaultCodeStore) (t : issue_thread)
    : option (defaultCodeStore * issue_thread) :=
  match t with
  | IStart env x =>
      match GetForXuid s x with
      | Ok existing =>
          Some (s, IDone (Normal (Err (EApp (NewApplicationError 40000
                    ("Code " ++ Code existing ++ " is already issued"))))))
      | Err _ => Some (s, IChecked env x)
      end
  | IChecked env x =>
      match findFreeCode s (env_rand env) with
      | Panicking p => Some (s, IDone (Panicking p))
      | Normal (generatedCode, _) => Some (s, IGenerated env x generatedCode)
      end
  | IGenerated env x generatedCode =>
      let s' := mkStore (<[generatedCode := issued_info env generatedCode x]> (codes s)) in
      Some (s', IDone (Normal (Ok (codes s' !! x))))
  | IDone _ => None
  end.

Definition istep := sched_step issue_step.

(** The subject of a thread that has not finished. *)
Definition active_subject (t : issue_thread) : option string :=
  match t with
  | IStart _ x | IChecked _ x | IGenerated _ x _ => Some x
  | IDone _ => None
  end.

(** The invariant of interleaved [Issue]s for distinct subjects: the
    store is well-formed, the unfinished threads have pairwise distinct
    subjects, a thread past its check has a subject without a code, and
    a generated code has the generated shape. *)
Definition thread_ok (s : defaultCodeStore) (t : issue_thread) : Prop :=
  match t with
  | IStart _ _ | IDone _ => True
  | IChecked _ x => forall k i, codes s !! k = Some i -> XUID i <> x
  | IGenerated _ x c => valid_code c = true /\ forall k i, codes s !! k = Some i -> XUID i <> x
  end.

Definition distinct_subjects (ts : list issue_thread) : Prop :=
  forall i j t1 t2 x, ts !! i = Some t1 -> ts !! j = Some t2 ->
    active_subject t1 = Some x -> active_subject t2 = Some x -> i = j.

Definition issue_inv (c : defaultCodeStore * list issue_thread) : Prop :=
  store_wf c.1 /\ distinct_subjects c.2 /\ forall i t, c.2 !! i = Some t -> thread_ok c.1 t.

(** Two goroutines issuing for ["XUID-1"] from the empty store, drawing
    the bytes [0..5] and [6..11]. *)
Definition env_a : IssueEnv :=
  mkIssueEnv [Byte.x00; Byte.x01; Byte.x02; Byte.x03; Byte.x04; Byte.x05] 100 200.
Definition env_b : IssueEnv :=
  mkIssueEnv [Byte.x06; Byte.x07; Byte.x08; Byte.x09; Byte.x0a; Byte.x0b] 100 200.

Definition two_issuers : defaultCodeStore * list issue_thread :=
  (newDefaultCodeStore, [IStart env_a "XUID-1"; IStart env_b "XUID-1"]).

(** Both check before either writes. *)
Definition check_check_schedule : list nat := [0; 1; 0; 1; 0; 1]%nat.

(** Two goroutines for different subjects drawing the same bytes. *)
Definition two_subjects_same_bytes : defaultCodeStore * list issue_thread :=
  (newDefaultCodeStore, [IStart env_a "XUID-1"; IStart env_a "XUID-2"]).

End IssueRace.

(** ** Concurrent [CreateUser] *)

Module CreateRace.
Import Repo.

(** Where a goroutine running [CreateUser] stands. *)
Inductive create_thread : Type :=
| CStart (discordId xuid : string)
| CChecked (discordId xuid : string)
| CDone (r : res goerror User).

(** One SQL statement of [CreateUser]. *)
Definition create_step (d : db) (t : create_thread) : option (db * create_thread) :=
  match t with
  | CStart discordId xuid =>
      match db_First d (fun r => by_discord discordId r || by_xuid xuid r) with
      | Ok _ => Some (d, CDone (Err errAlreadyBound))
      | Err _ => Some (d, CChecked discordId xuid)
      end
  | CChecked discordId xuid =>
      let '(row, d') := db_Create d discordId xuid in Some (d', CDone (Ok (ToUser row)))
  | CDone _ => None
  end.

Definition cstep := sched_step create_step.

(** Two chat identities binding the same game identity at once, as two
    ["bind"] commands with two codes issued for it would. *)
Definition two_binders : db * list create_thread :=
  (empty_db, [CStart "disc-1" "XUID-1"; CStart "disc-2" "XUID-1"]).

Definition check_check_create : list nat := [0; 1; 0; 1]%nat.

End CreateRace.

Close Scope string_scope.

(** ** The scheduler *)

Lemma run_schedule_rtc {S T} (tstep : S -> T -> option (S * T)) sched c :
  rtc (sched_step tstep) c (run_schedule tstep sched c).
Proof.
  revert c; induction sched as [|i rest IH]; intros [s ts]; simpl; [done|].
  destruct (ts !! i) as [t|] eqn:Ht; [|apply IH].
  destruct (tstep s t) as [[s' t']|] eqn:Hs; [|apply IH].
  eapply rtc_l; [by econstructor|apply IH].
Qed.

(** ** [Issue] *)

Module IssueRaceFacts.
Import Default IssueRace.

(** C7: from the empty store, two goroutines issuing for the
    same subject can both pass the [GetForXuid] check before either
    writes: both succeed and the store ends with two codes for one
    subject, which no sequence of atomic [Issue]s reaches. *)
Theorem race_issue_two_codes :
  store_wf two_issuers.1 /\
  exists c, rtc istep two_issuers c /\
    c.2 = [IDone (Normal (Ok None)); IDone (Normal (Ok None))] /\
    ~ store_wf c.1.
Proof.
  split; [apply store_wfb_spec; reflexivity|].
  exists (run_schedule issue_step check_check_schedule two_issuers).
  split_and!; [apply run_schedule_rtc|vm_compute; reflexivity|].
  intros Hwf. pose proof (wf_xuid _ Hwf "6789AB" "012345") as H.
  vm_compute in H. discriminate (H _ _ eq_refl eq_refl eq_refl).
Qed.

(** C29: two goroutines issuing for different subjects that
    draw the same bytes both see the code free and both succeed, but the
    second write replaces the first entry: the first subject was told
    its code was issued and has none. *)
Theorem race_issue_lost_code :
  exists c, rtc istep two_subjects_same_bytes c /\
    c.2 = [IDone (Normal (Ok None)); IDone (Normal (Ok None))] /\
    (exists e, GetForXuid c.1 "XUID-1" = Err e) /\
    (exists i, GetForXuid c.1 "XUID-2" = Ok i).
Proof.
  exists (run_schedule issue_step check_check_schedule two_subjects_same_bytes).
  split_and!; [apply run_schedule_rtc|vm_compute; reflexivity|eexists; vm_compute; reflexivity..].
Qed.

Lemma distinct_insert ts i t t' :
  distinct_subjects ts -> ts !! i = Some t ->
  active_subject t' = None \/ active_subject t' = active_subject t ->
  distinct_subjects (<[i := t']> ts).
Proof.
  intros Hd Hi Ht' j k t1 t2 y Hj Hk H1 H2.
  apply list_lookup_insert_Some in Hj as [(<- & <- & _)|(Nj & Hj)],
                                      Hk as [(<- & <- & _)|(Nk & Hk)]; [done|..];
    destruct Ht' as [Ht'|Ht']; try congruence.
  - by apply (Hd i k t t2 y); [| |congruence|].
  - by apply (Hd j i t1 t y); [| | |congruence].
  - by apply (Hd j k t1 t2 y).
  - by apply (Hd j k t1 t2 y).
Qed.

(** Another unfinished thread's subject differs from this one's. *)
Lemma distinct_other ts i j t1 t2 x y :
  distinct_subjects ts -> ts !! i = Some t1 -> ts !! j = Some t2 -> i <> j ->
  active_subject t1 = Some x -> active_subject t2 = Some y -> x <> y.
Proof. intros Hd H1 H2 Hij Hx Hy ->. by apply Hij, (Hd i j t1 t2 y). Qed.

Lemma thread_ok_insert s env c x t2 y :
  thread_ok s t2 -> active_subject t2 = Some y -> x <> y ->
  thread_ok (mkStore (<[c := issued_info env c x]> (codes s))) t2.
Proof.
  intros Hok Hy Hxy. simpl.
  assert (Hfresh : forall k i, <[c := issued_info env c x]> (codes s) !! k = Some i ->
                     (forall k i, codes s !! k = Some i -> XUID i <> y) -> XUID i <> y).
  { intros k i Hk Hno. apply lookup_insert_Some in Hk as [(<- & <-)|(_ & Hk)]; [done|eauto]. }
  destruct t2; simpl in *; simplify_eq; naive_solver.
Qed.

(** One step of any thread keeps the invariant. *)
Lemma istep_inv c c' : issue_inv c -> istep c c' -> issue_inv c'.
Proof.
  intros (Hwf & Hd & Hok) Hst. destruct Hst as [s ts i t s' t' Hi Hs]. simpl in *.
  pose proof (Hok i t Hi) as Hti.
  assert (Hdone : forall r, (forall j t2, <[i := IDone r]> ts !! j = Some t2 -> thread_ok s t2)).
  { intros r j t2 [(<- & <- & _)|(_ & Hj)]%list_lookup_insert_Some; [done|eauto]. }
  destruct t as [env x|env x|env x c|r]; simpl in Hs; [..|discriminate].
  - destruct (GetForXuid s x) as [e|e] eqn:Hg; injection Hs as <- <-;
      (split; [done|split; [apply (distinct_insert _ _ _ _ Hd Hi); auto|]]); [apply Hdone|].
    intros j t2 [(<- & <- & _)|(_ & Hj)]%list_lookup_insert_Some; [|eauto].
    exact (GetForXuid_Err_none s x e Hg).
  - pose proof (findFreeCode_sound s (env_rand env) _ eq_refl) as Hs'.
    destruct (findFreeCode s (env_rand env)) as [[c rest]|p]; injection Hs as <- <-;
      (split; [done|split; [apply (distinct_insert _ _ _ _ Hd Hi); auto|]]); [|apply Hdone].
    intros j t2 [(<- & <- & _)|(_ & Hj)]%list_lookup_insert_Some; [|eauto].
    simpl. split; [by destruct Hs'|exact Hti].
  - destruct Hti as [Hv Hno]. injection Hs as <- <-. split_and!.
    + by apply store_wf_insert_any.
    + apply (distinct_insert _ _ _ _ Hd Hi). auto.
    + intros j t2 [(<- & <- & _)|(Nij & Hj)]%list_lookup_insert_Some; [done|].
      destruct (active_subject t2) as [y|] eqn:Hy.
      * apply (thread_ok_insert _ _ _ _ _ y); [eauto|done|].
        by apply (distinct_other ts i j (IGenerated env x c) t2).
      * destruct t2; simpl in *; try discriminate. done.
Qed.

(** C19: concurrent [Issue]s for pairwise distinct subjects
    (none of which is mid-way) keep the store well-formed under every
    interleaving: what breaks the invariant is two requests for the
    same subject. *)
Theorem interleaved_distinct_wf s ts c :
  store_wf s -> Forall (fun t => exists env x, t = IStart env x) ts ->
  distinct_subjects ts -> rtc istep (s, ts) c -> store_wf c.1.
Proof.
  intros Hwf Hstart Hd Hrtc.
  assert (Hinv : issue_inv (s, ts)).
  { split_and!; [done|done|]. intros i t Hi. simpl.
    eapply Forall_lookup_1 in Hstart as (env & x & ->); done. }
  induction Hrtc as [c|c1 c2 c3 H12 _ IH] in Hinv |- *; [by destruct Hinv|].
  apply IH. by eapply istep_inv.
Qed.

End IssueRaceFacts.

(** ** [CreateUser] *)

Module CreateRaceFacts.
Import Repo CreateRace.

(** A goroutine running [CreateUser] with no other
    goroutine interleaved computes exactly the atomic [CreateUser] of
    [Repository.v]. *)
Theorem create_thread_alone d dc xu :
  run_schedule create_step [0; 0]%nat (d, [CStart dc xu]) =
    ((CreateUser d dc xu).2, [CDone (CreateUser d dc xu).1]).
Proof.
  unfold CreateUser. simpl.
  destruct (db_First d _); simpl; [done|]. by destruct (db_Create d dc xu).
Qed.

(** C8: from the empty table, two goroutines binding two chat
    identities to the same game identity can both pass the [First] query
    before either inserts: both succeed and the game identity ends bound
    twice, which no sequence of atomic [CreateUser]s reaches (the table
    has no unique constraint to stop it). *)
Theorem race_create_duplicate :
  unique_bindings (abs two_binders.1) /\
  exists c, rtc cstep two_binders c /\
    c.2 = [CDone (Ok (mkUser "disc-1" "XUID-1")); CDone (Ok (mkUser "disc-2" "XUID-1"))] /\
    ~ unique_bindings (abs c.1).
Proof.
  split; [split; constructor|].
  exists (run_schedule create_step check_check_create two_binders).
  split_and!; [apply run_schedule_rtc|vm_compute; reflexivity|].
  intros [_ Hx]. vm_compute in Hx. apply NoDup_cons in Hx as [Hx _]. set_solver.
Qed.

End CreateRaceFacts.

(** ** Witnesses at concrete inputs *)

Lemma interleaved_distinct_wf_witness :
  Default.store_wf (run_schedule IssueRace.issue_step IssueRace.check_check_schedule
              IssueRace.two_subjects_same_bytes).1.
Proof.
  apply (IssueRaceFacts.interleaved_distinct_wf Default.newDefaultCodeStore
           [IssueRace.IStart IssueRace.env_a "XUID-1"; IssueRace.IStart IssueRace.env_a "XUID-2"]%string).
  - apply store_wfb_spec. reflexivity.
  - repeat constructor; eauto.
  - intros [|[|i]] [|[|j]] t1 t2 y; simpl; intros H1 H2 Hy1 Hy2; simplify_eq; try done;
      rewrite <-Hy1 in Hy2; discriminate.
  - apply run_schedule_rtc.
Defined.
