(* ===== verification/Plugin.v ===== *)
(** * The example game plugin: [src/examples/dragonfly.go]

    The plugin's start-up ([main]: [client.NewApi], panicking on error)
    and its [/bind] command ([BindCommand.Run]: [apiInstance.IssueCode]
    for the player's XUID, then either the error or ["Your code is
    <code>"]), composed with the client of [Client.v] and the server of
    [Http.v]; the rest of [main] ([cmd.Register], [readConfig] over an
    explicit file system, [logger.Fatalln] on its error).  The Dragonfly
    server itself (the TOML format, [Listen]/[Accept]), the logger and
    the chat plumbing are I/O and not modelled; the command's output is
    the text passed to [output.Printf] (an error is printed as its
    [Error()] text, kept here as the error value). *)

From S2P Require Import Prelude Errors CodeStore Repository Service Discord Http Opts Client.

Open Scope string_scope.



(** [func main()]'s first statement: [client.NewApi("http://127.0.0.1:8080",
    "aaaa-bbb-cc")], and [panic(err)] on failure. *)
Definition plugin_start {CS Env R W} `{!CodeStore CS Env} `{!Repository R}
    (srv : Server CS R W) (env : Env) : outcome client_error Api * Server CS R W :=
  let '(r, srv') := NewApi srv env "http://127.0.0.1:8080" "aaaa-bbb-cc" in
  match r with
  | Err e => (Panicking e, srv')
  | Ok api => (Normal api, srv')
  end.

Section Plugin.
Context {CS Env R W : Type} `{!CodeStore CS Env} `{!Repository R}.
Variable time_json : Z -> jvalue.


End Plugin.

(** The two example programs together: the server of
    [src/examples/server.go] after start-up, with the table found on disk
    and Discord reachable. *)
Definition example_started_server (d : Repo.db)
    : outcome goerror (Server Default.defaultCodeStore Repo.db unit * Bot * Opts) :=
  NewServer (mkWiringEnv (Ok d) example_discord) "aaaa-bbb-cc" "token" example_server_opts.

(** The files the plugin sees, by path, and the error, if any, that
    [os.WriteFile] and [os.ReadFile] return. *)
Record FileSystem := mkFileSystem {
  fs_files : gmap string string;
  fs_write_error : option goerror;
  fs_read_error : option goerror
}.

Section Config.
(** Dragonfly's [server.UserConfig] and [server.Config], TOML's encoder
    and decoder ([toml.Unmarshal(data, &c)] decodes into [c], keeping the
    fields [data] does not set), [server.DefaultConfig()], and
    [c.Config(log)]. *)
Variables (UserConfig Config : Type).
Variable DefaultConfig : UserConfig.
Variable toml_Marshal : UserConfig -> res goerror string.
Variable toml_Unmarshal : string -> UserConfig -> res goerror UserConfig.
Variable UserConfig_Config : UserConfig -> res goerror Config.

(** [fmt.Errorf(prefix + ": %v", err)] *)
Definition wrap (prefix : string) (err : goerror) : goerror := EOther (prefix ++ ": " ++ Error err).

(** [func readConfig(log server.Logger) (server.Config, error)]: create
    [config.toml] with the default configuration when it does not exist,
    otherwise decode it over the default. *)
Definition readConfig (fs : FileSystem) : res goerror Config * FileSystem :=
  let c := DefaultConfig in
  match fs_files fs !! "config.toml" with
  | None =>
      match toml_Marshal c with
      | Err err => (Err (wrap "encode default config" err), fs)
      | Ok data =>
          match fs_write_error fs with
          | Some err => (Err (wrap "create default config" err), fs)
          | None => (UserConfig_Config c,
                     mkFileSystem (<["config.toml" := data]> (fs_files fs)) None (fs_read_error fs))
          end
      end
  | Some data =>
      match fs_read_error fs with
      | Some err => (Err (wrap "read config" err), fs)
      | None =>
          match toml_Unmarshal data c with
          | Err err => (Err (wrap "decode config" err), fs)
          | Ok c' => (UserConfig_Config c', fs)
          end
      end
  end.

(** How [main] ends: the panic of [NewApi], [logger.Fatalln] (exit
    status 1) with the error of [readConfig], or the Dragonfly server
    accepting players with the commands registered and the client. *)
Inductive PluginExit : Type :=
| ExitPanic (e : client_error)
| ExitFatal (msg : string)
| Serving (conf : Config) (commands : list string) (apiInstance : Api).

(** [func main()] of the plugin, up to [srv.Listen()]. *)
Definition plugin_main {CS Env R W} `{!CodeStore CS Env} `{!Repository R}
    (srv : Server CS R W) (env : Env) (fs : FileSystem) : PluginExit * Server CS R W * FileSystem :=
  match plugin_start srv env with
  | (Panicking e, srv') => (ExitPanic e, srv', fs)
  | (Normal api, srv') =>
      let commands := ["bind"] in
      match readConfig fs with
      | (Err err, fs') => (ExitFatal (Error err), srv', fs')
      | (Ok conf, fs') => (Serving conf commands api, srv', fs')
      end
  end.

End Config.

Arguments readConfig {UserConfig Config} DefaultConfig toml_Marshal toml_Unmarshal UserConfig_Config fs.
Arguments plugin_main {UserConfig Config} DefaultConfig toml_Marshal toml_Unmarshal UserConfig_Config
  {CS Env R W _ _} srv env fs.

(** A file system without [config.toml] where writes and reads succeed. *)
Definition empty_fs : FileSystem := mkFileSystem ∅ None None.

Close Scope string_scope.

(** ** Facts *)

(** C15: the two examples cannot work together: the example
    server is started with the access token ["aaaa-bbb-cc"], the plugin's
    client never sends it, so the plugin's start-up panics with
    ["can't access http://127.0.0.1:8080"]. *)
Theorem examples_plugin_start_panics d srv bot opts env :
  example_started_server d = Normal (srv, bot, opts) ->
  plugin_start srv env = (Panicking (CCantAccess "http://127.0.0.1:8080"), srv).
Proof.
  unfold example_started_server, NewServer. simpl. intros [= <- _ _].
  unfold plugin_start. rewrite NewApi_unauthorized by discriminate. done.
Qed.


Section ConfigFacts.
Variables (UserConfig Config : Type) (DefaultConfig : UserConfig).
Variable toml_Marshal : UserConfig -> res goerror string.
Variable toml_Unmarshal : string -> UserConfig -> res goerror UserConfig.
Variable UserConfig_Config : UserConfig -> res goerror Config.
Local Abbreviation read := (readConfig DefaultConfig toml_Marshal toml_Unmarshal UserConfig_Config).

(** The first start writes the encoded default to [config.toml] and uses
    the default; when decoding the encoded default over the default gives
    it back, the second start reads the file and ends with the same
    configuration, changing nothing. *)
Theorem readConfig_second_start fs data :
  fs_files fs !! "config.toml" = None -> fs_write_error fs = None -> fs_read_error fs = None ->
  toml_Marshal DefaultConfig = Ok data -> toml_Unmarshal data DefaultConfig = Ok DefaultConfig ->
  let '(r1, fs1) := read fs in
  fs_files fs1 = <["config.toml" := data]> (fs_files fs) /\ r1 = UserConfig_Config DefaultConfig /\
  read fs1 = (r1, fs1).
Proof.
  intros Hnone Hw Hr Henc Hdec. unfold readConfig.
  rewrite Hnone, Henc, Hw. cbn [fs_files fs_read_error]. rewrite lookup_insert_eq, Hr, Hdec. done.
Qed.

(** The errors of [readConfig]: a wrapped error of one of its four steps,
    with the files untouched, or the error of [c.Config(log)]. *)
Lemma readConfig_Err fs e fs' :
  read fs = (Err e, fs') ->
  (exists p err, e = wrap p err /\
     p ∈ ["encode default config"; "create default config"; "read config"; "decode config"] /\ fs' = fs) \/
  (exists c, UserConfig_Config c = Err e).
Proof.
  unfold readConfig. intros H.
  repeat (case_match; simplify_eq/=).
  all: first [right; by eauto | left; eexists _, _; split_and!; [done|set_solver|done]].
Qed.

End ConfigFacts.

(** ** Witnesses at concrete inputs *)

Lemma examples_plugin_start_panics_witness :
  let srv := mkServer "aaaa-bbb-cc" (NewService Repo.empty_db Default.newDefaultCodeStore) in
  example_started_server Repo.empty_db = Normal (srv, example_bot, mkOpts (Some tt) (Some Repo.empty_db)
                                                  (Some Default.newDefaultCodeStore)) /\
  plugin_start srv Default.example_env = (Panicking (CCantAccess "http://127.0.0.1:8080"), srv).
Proof.
  split; [reflexivity|].
  apply (examples_plugin_start_panics Repo.empty_db _ example_bot
           (mkOpts (Some tt) (Some Repo.empty_db) (Some Default.newDefaultCodeStore))).
  reflexivity.
Defined.


Lemma readConfig_second_start_witness :
  let read := readConfig (Config := string) "default" (fun c => Ok c) (fun d _ => Ok d) (fun c => Ok c) in
  let '(r1, fs1) := read empty_fs in
  fs_files fs1 = <["config.toml" := "default"]> (fs_files empty_fs) /\ r1 = Ok "default" /\
  read fs1 = (r1, fs1).
Proof. apply readConfig_second_start; reflexivity. Defined.
