(* ===== verification/System.v ===== *)
(** * The running program: the HTTP server and the Discord bot over one
    service, and the example main of [src/examples/server.go]

    [NewServer] gives the service to both the HTTP handler and the bot
    (the same [*Service]), so a request and an interaction act on one
    store and one table.  [System] holds that service once; an [Event] is
    an HTTP request or an interaction delivered to the bot's session, and
    [run_events] plays a sequence of them.  net/http recovers a panic of a
    request (the connection is dropped); discordgo runs an interaction
    handler without [recover], so a panic there ends the process, and
    [run_events] stops with it.  The table is on disk and outlives the
    process; the code store does not. *)

From S2P Require Import Prelude Errors CodeGen CodeStore Repository Service Bot Discord Http Opts.

Open Scope string_scope.

Section System.
Context {CS Env R W : Type} `{!CodeStore CS Env} `{!Repository R}.

(** The server's fields, its bot, and the observers' world. *)
Record System := mkSystem {
  sys_server : Server CS R W;
  sys_bot : Bot;
  sys_world : W
}.

Inductive Event : Type :=
| EvRequest (env : Env) (req : Request)
| EvInteraction (i : InteractionCreate).

Inductive Reply : Type :=
| ReplyHTTP (r : Response)
| ReplyChat (rs : list (option (outcome goerror string))).

(** The panic, if any, of the handlers an interaction ran. *)
Fixpoint first_panic (os : list (option (outcome goerror string))) : option goerror :=
  match os with
  | [] => None
  | Some (Panicking p) :: _ => Some p
  | _ :: rest => first_panic rest
  end.

(** One event: the reply, the system after it, and the panic that ends
    the process. *)
Definition system_step (sys : System) (ev : Event) : Reply * System * option goerror :=
  let srv := sys_server sys in
  match ev with
  | EvRequest env req =>
      let '(r, srv') := ServeHTTP srv env req in
      (ReplyHTTP r, mkSystem srv' (sys_bot sys) (sys_world sys), None)
  | EvInteraction i =>
      let '(os, svc', w') := deliver (interaction_handlers (api (sys_bot sys))) (service srv) (sys_world sys) i in
      (ReplyChat os, mkSystem (mkServer (accessToken srv) svc') (sys_bot sys) w', first_panic os)
  end.

Fixpoint run_events (sys : System) (evs : list Event) : list Reply * System * option goerror :=
  match evs with
  | [] => ([], sys, None)
  | ev :: rest =>
      let '(r, sys1, crash) := system_step sys ev in
      match crash with
      | Some p => ([r], sys1, Some p)
      | None => let '(rs, sys2, c) := run_events sys1 rest in (r :: rs, sys2, c)
      end
  end.

(** The events the bot's registration admits: every request, and the
    interactions that fit a registered command and come from a member. *)
Definition event_ok (b : Bot) (ev : Event) : bool :=
  match ev with
  | EvRequest _ _ => true
  | EvInteraction i => conforms (cmds b) i && bool_decide (is_Some (member_user_id i))
  end.

End System.

Arguments System : clear implicits.
Arguments Event : clear implicits.

(** [func main()] of [src/examples/server.go]: [NewServer] with the token
    ["aaaa-bbb-cc"] and a logger, [RegisterCommands] with the guild ID
    ["leave-empty-if-global"], then [ServeWeb], which serves the events
    until the signal arrives.  The logger and the signal are not
    modelled. *)
Definition example_main (wenv : WiringEnv) (evs : list (Event IssueEnv))
    : outcome goerror (list Reply * System Default.defaultCodeStore Repo.db unit * option goerror) :=
  match NewServer wenv "aaaa-bbb-cc" "token" (mkOpts (Some tt) None None) with
  | Panicking p => Panicking p
  | Normal (srv, bot, _) =>
      match RegisterCommands (env_discord wenv) bot "leave-empty-if-global" with
      | Panicking p => Panicking p
      | Normal bot' => Normal (run_events (mkSystem srv bot' tt) evs)
      end
  end.

Close Scope string_scope.

(** ** No crash on interactions that fit the registered commands *)

Section NoCrash.
Context {CS Env R W : Type} `{!CodeStore CS Env} `{!Repository R}.

Lemma deliver_no_panic n (s : Service CS R W) w i :
  (forall (s : Service CS R W) (w : W), exists o s' w',
     on_interaction (Env := Env) s w i = (Some (Normal o), s', w')) ->
  first_panic (deliver (Env := Env) n s w i).1.1 = None.
Proof.
  intros Hans. revert s w. induction n as [|n IH]; intros s w; [done|]. simpl.
  destruct (Hans s w) as (o & s1 & w1 & ->).
  specialize (IH s1 w1). destruct (deliver n s1 w1 i) as [[os s2] w2]. done.
Qed.

Lemma system_step_bot (sys : System CS R W) ev : (system_step sys ev).1.2.(sys_bot) = sys_bot sys.
Proof.
  destruct ev as [env req|i]; simpl.
  - by destruct (ServeHTTP _ _ _).
  - by destruct (deliver _ _ _ _) as [[??]?].
Qed.

Lemma run_events_no_crash (b : Bot) evs (sys : System CS R W) :
  sys_bot sys = b ->
  (forall ev, ev ∈ evs -> forall sys' : System CS R W, sys_bot sys' = b -> (system_step sys' ev).2 = None) ->
  (run_events sys evs).2 = None.
Proof.
  revert sys. induction evs as [|ev evs IH]; intros sys Hb Hstep; [done|]. simpl.
  pose proof (system_step_bot sys ev) as Hb1.
  pose proof (Hstep ev ltac:(by left) sys Hb) as Hc.
  destruct (system_step sys ev) as [[r sys1] c]. simpl in *. subst c.
  specialize (IH sys1 ltac:(congruence) (fun ev' Hin => Hstep ev' ltac:(by right))).
  by destruct (run_events sys1 evs) as [[??]?].
Qed.

End NoCrash.

Section Conforming.
Context {CS Env R W : Type} `{!CodeStore CS Env} `{!Repository R}.

(** C12: the program does not crash on what its registration admits.
    After [RegisterCommands] at a Discord that keeps the commands as
    sent, a run of the server over any sequence of HTTP requests and of
    interactions that fit a registered command and come from a guild
    member ends without a panic. *)
Theorem conforming_events_never_crash env b0 g b (srv : Server CS R W) w (evs : list (Event Env)) :
  echoes env -> RegisterCommands env b0 g = Normal b ->
  Forall (fun ev => event_ok b ev = true) evs ->
  (run_events (mkSystem srv b w) evs).2 = None.
Proof.
  intros Hecho Hreg Hok. apply (run_events_no_crash b); [done|].
  intros ev Hin sys' Hb. rewrite Forall_forall in Hok. specialize (Hok ev Hin).
  destruct ev as [env' req|i]; simpl; [by destruct (ServeHTTP _ _ _)|].
  apply andb_true_iff in Hok as [Hconf [d Hd]%bool_decide_eq_true].
  assert (Hans : forall (s : Service CS R W) (w1 : W), exists o s' w',
             on_interaction (Env := Env) s w1 i = (Some (Normal o), s', w')).
  { intros s w1. by apply (registered_interaction_answered env b0 g b s w1 i d). }
  pose proof (deliver_no_panic (interaction_handlers (api (sys_bot sys')))
                (service (sys_server sys')) (sys_world sys') i Hans) as H.
  by destruct (deliver _ _ _ _) as [[os s'] w'].
Qed.

End Conforming.

(** ** The invariant of the running program *)

Section DefaultSystem.
Context {W : Type}.
Import Default.
Implicit Types (s : Service defaultCodeStore Repo.db W) (w : W).

(** What every event keeps: the token, the bot and the observers of the
    start, a table reachable by the repository's operations, and a
    well-formed code store. *)
Definition sys_inv (sys0 sys : System defaultCodeStore Repo.db W) : Prop :=
  accessToken (sys_server sys) = accessToken (sys_server sys0) /\ sys_bot sys = sys_bot sys0 /\
  handlers (service (sys_server sys)) = handlers (service (sys_server sys0)) /\
  Repo.reachable (repo (service (sys_server sys))) /\
  Repo.unique_bindings (Repo.abs (repo (service (sys_server sys)))) /\
  store_wf (codeStr (service (sys_server sys))).

Definition svc_ok s : Prop :=
  Repo.reachable (repo s) /\ Repo.unique_bindings (Repo.abs (repo s)) /\ store_wf (codeStr s).

Lemma CreateUser_default_ok s w dc xu :
  svc_ok s -> let '(_, s', _) := CreateUser s w dc xu in svc_ok s' /\ handlers s' = handlers s.
Proof.
  intros (Hr & Hu & Hw). unfold CreateUser. cbn [repo_CreateUser defaultRepository_Repository].
  pose proof (Repo.step_create (repo s) dc xu) as Hs.
  destruct (Repo.CreateUser (repo s) dc xu) as [r d'].
  simpl in Hs. unfold svc_ok. destruct r; split_and!; simpl; try done; first [by eapply Repo.reach_step|by eapply repo_step_unique].
Qed.

Lemma bind_handler_default_ok s w m c :
  svc_ok s -> let '(_, s', _) := bind_handler (Env := IssueEnv) s w m c in svc_ok s' /\ handlers s' = handlers s.
Proof.
  intros Hok. unfold bind_handler.
  destruct c as [c|]; [|done]. destruct (CheckCode s c) as [info|e]; [|done].
  destruct m as [d|]; [|done].
  pose proof (CreateUser_default_ok s w d (XUID info) Hok) as H.
  destruct (CreateUser s w d _) as [[[u|e] s1] w1]; [|done].
  destruct H as [(Hr & Hu & Hw) Hh]. unfold RevokeCode. cbn [cs_Revoke defaultCodeStore_CodeStore].
  pose proof (Revoke_wf (codeStr s1) (Code info) Hw) as Hw'.
  destruct (Revoke (codeStr s1) (Code info)). done.
Qed.

Lemma unbind_handler_default_ok s m :
  svc_ok s -> let '(_, s') := unbind_handler s m in svc_ok s' /\ handlers s' = handlers s.
Proof.
  intros (Hr & Hu & Hw). unfold unbind_handler. destruct m as [d|]; [|done].
  unfold DeleteUserByDiscord. cbn [repo_DeleteUserByDiscord defaultRepository_Repository].
  pose proof (Repo.step_delete_discord (repo s) d) as Hs.
  destruct (Repo.DeleteUserByDiscord (repo s) d) as [r d'].
  simpl in Hs. unfold svc_ok. destruct r; split_and!; simpl; try done; first [by eapply Repo.reach_step|by eapply repo_step_unique].
Qed.

Lemma deliver_default_ok n s w i :
  svc_ok s -> let '(_, s', _) := deliver (Env := IssueEnv) n s w i in svc_ok s' /\ handlers s' = handlers s.
Proof.
  revert s w. induction n as [|n IH]; intros s w Hok; [done|]. simpl.
  unfold on_interaction.
  assert (H1 : let '(_, s1, _) := (if String.eqb (cmd_name i) "bind" then
              let '(o, s', w') := bind_handler (Env := IssueEnv) s w (member_user_id i)
                                    (option_map_of (cmd_options i) !! "code") in (Some o, s', w')
            else if String.eqb (cmd_name i) "unbind" then
              let '(o, s') := unbind_handler s (member_user_id i) in (Some o, s', w)
            else (None, s, w)) in svc_ok s1 /\ handlers s1 = handlers s).
  { destruct (String.eqb _ "bind").
    - pose proof (bind_handler_default_ok s w (member_user_id i)
                    (option_map_of (cmd_options i) !! "code") Hok) as H.
      by destruct (bind_handler _ _ _ _) as [[??]?].
    - destruct (String.eqb _ "unbind"); [|done].
      pose proof (unbind_handler_default_ok s (member_user_id i) Hok) as H.
      by destruct (unbind_handler _ _). }
  destruct (if String.eqb _ "bind" then _ else _) as [[o s1] w1]. destruct H1 as [Hok1 Hh1].
  specialize (IH s1 w1 Hok1). destruct (deliver n s1 w1 i) as [[os s2] w2].
  destruct IH. split; [done|congruence].
Qed.

Lemma system_step_inv (sys0 sys : System defaultCodeStore Repo.db W) ev :
  sys_inv sys0 sys -> sys_inv sys0 (system_step sys ev).1.2.
Proof.
  intros (HT & HB & HH & HR & HU & HW). destruct ev as [env req|i]; simpl.
  - pose proof (ServeHTTP_default_inv (sys_server sys) env req HW) as H.
    destruct (ServeHTTP _ _ _) as [r srv']. simpl in H. destruct H as (T & Rp & Hh & Wf).
    unfold sys_inv; simpl. rewrite Rp. split_and!; congruence.
  - pose proof (deliver_default_ok (interaction_handlers (api (sys_bot sys)))
                  (service (sys_server sys)) (sys_world sys) i (conj HR (conj HU HW))) as H.
    destruct (deliver _ _ _ _) as [[os s'] w']. destruct H as [(R1 & U1 & W1) H1].
    unfold sys_inv; simpl. split_and!; congruence.
Qed.

Lemma run_events_inv (sys0 sys : System defaultCodeStore Repo.db W) evs :
  sys_inv sys0 sys -> sys_inv sys0 (run_events sys evs).1.2.
Proof.
  revert sys. induction evs as [|ev evs IH]; intros sys Hs; [done|]. simpl.
  pose proof (system_step_inv sys0 sys ev Hs) as H1.
  destruct (system_step sys ev) as [[r sys1] [p|]]; [done|].
  specialize (IH sys1 H1). by destruct (run_events sys1 evs) as [[??]?].
Qed.

(** C11: the invariant of the running program.  From a start where the
    table is reachable and the code store well-formed, over any sequence
    of HTTP requests and chat interactions, the table stays reachable by
    the repository's operations (so its bindings stay unique), the code
    store stays well-formed, and the token, the bot and the observers are
    those of the start; also when an interaction ends the process, whose
    table is on disk. *)
Theorem run_events_invariant (sys : System defaultCodeStore Repo.db W) evs :
  Repo.reachable (repo (service (sys_server sys))) ->
  Repo.unique_bindings (Repo.abs (repo (service (sys_server sys)))) ->
  store_wf (codeStr (service (sys_server sys))) ->
  sys_inv sys (run_events sys evs).1.2.
Proof.
  intros HR HU HW. apply run_events_inv. by unfold sys_inv; split_and!.
Qed.

End DefaultSystem.

(** ** The example main *)

(** C35: the example server never gets to serve at a Discord that
    refuses ill-formed guild IDs: it passes the placeholder
    ["leave-empty-if-global"] to [RegisterCommands], whose first
    [ApplicationCommandCreate] fails, and the panic ends [main] before
    [ServeWeb]. *)
Theorem example_main_panics wenv evs :
  refuses_bad_guild (env_discord wenv) -> exists p, example_main wenv evs = Panicking p.
Proof.
  intros Hrefuse. unfold example_main.
  destruct (NewServer wenv _ _ _) as [[[srv bot] opts]|p]; [|eauto].
  destruct (RegisterCommands_bad_guild (env_discord wenv) bot "leave-empty-if-global" Hrefuse)
    as [e ->]; [by vm_compute|eauto].
Qed.

(** ** Witnesses at concrete inputs *)

(** The example server with the code ["012345"] issued, its bot after
    registering at the guild ["123"]; a bind interaction, then an HTTP
    lookup of the new binding. *)
Definition example_system : System Default.defaultCodeStore Repo.db unit :=
  mkSystem (mkServer "aaaa-bbb-cc" example_service) example_registered_bot tt.

Definition example_events : list (Event IssueEnv) :=
  [EvInteraction bind_interaction;
   EvRequest Default.example_env (authorized "aaaa-bbb-cc" "GET" "/users/discord/disc-1" "")].

Lemma run_events_invariant_witness :
  sys_inv example_system (run_events example_system example_events).1.2.
Proof.
  apply run_events_invariant.
  - constructor.
  - split; constructor.
  - apply store_wfb_spec. vm_compute. reflexivity.
Defined.

Lemma conforming_events_never_crash_witness :
  (run_events example_system example_events).2 = None.
Proof.
  apply (conforming_events_never_crash example_discord example_bot "123").
  - exact example_discord_echoes.
  - reflexivity.
  - repeat constructor.
Defined.

Lemma example_main_panics_witness :
  exists p, example_main (mkWiringEnv (Ok Repo.empty_db) strict_discord) example_events = Panicking p.
Proof. apply example_main_panics. exact strict_discord_refuses. Defined.
